(** * A sequential and a concurrent web server in Python: model and properties

    The development follows the layout of the repository:
    - [pystr]: Python text (sequences of Unicode code points) and the
      [str] methods the sources call;
    - [hashlib]: MD5 and SHA-1 over byte sequences;
    - [json]: [json.dumps (..., ensure_ascii=False, indent=2)];
    - [config], [crypto_utils], [http_utils], [server_handlers],
      [sequential_server], [concurrent_server]: the request pipeline;
    - [metrics]: the statistics of [tests/metrics.py].

    Definitions come first, the properties after them. *)

From Stdlib Require Import List NArith ZArith QArith Bool Lia.
From Stdlib Require Import Strings.String Strings.Ascii.
From Stdlib Require Import Sorted Permutation.
Import ListNotations.

Set Warnings "-register-all,-abstract-large-number".

(* ================================================================== *)
(** ** Python text *)

Module pystr.

Local Open Scope N_scope.
Local Open Scope list_scope.

(** A Python [str] is a sequence of code points. *)
Definition str := list N.

(** Code points that [str.encode('utf-8')] accepts: every code point up
    to U+10FFFF but the surrogates U+D800..U+DFFF.  Text decoded from a
    socket with [bytes.decode('utf-8', errors='ignore')] has only such
    code points. *)
Definition is_scalar (c : N) : bool :=
  ((c <? 0xD800) || (0xDFFF <? c)) && (c <=? 0x10FFFF).

Definition encodable (s : str) : bool := forallb is_scalar s.

(** UTF-8 of one code point. *)
Definition utf8_char (c : N) : list N :=
  if c <? 0x80 then [c]
  else if c <? 0x800 then [0xC0 + c / 64; 0x80 + c mod 64]
  else if c <? 0x10000 then
    [0xE0 + c / 4096; 0x80 + (c / 64) mod 64; 0x80 + c mod 64]
  else
    [0xF0 + c / 262144; 0x80 + (c / 4096) mod 64;
     0x80 + (c / 64) mod 64; 0x80 + c mod 64].

(** Decoding of the UTF-8 bytes of a literal of this file. *)
Fixpoint utf8_decode (bs : list N) : str :=
  match bs with
  | [] => []
  | b :: r =>
      if b <? 0x80 then b :: utf8_decode r
      else if b <? 0xE0 then
        match r with
        | b1 :: r1 => ((b mod 32) * 64 + b1 mod 64) :: utf8_decode r1
        | _ => []
        end
      else if b <? 0xF0 then
        match r with
        | b1 :: b2 :: r2 =>
            ((b mod 16) * 4096 + (b1 mod 64) * 64 + b2 mod 64)
              :: utf8_decode r2
        | _ => []
        end
      else
        match r with
        | b1 :: b2 :: b3 :: r3 =>
            ((b mod 8) * 262144 + (b1 mod 64) * 4096
             + (b2 mod 64) * 64 + b3 mod 64) :: utf8_decode r3
        | _ => []
        end
  end.

(** [py "..."] is the Python literal with the same text. *)
Definition py (s : string) : str :=
  utf8_decode (map N_of_ascii (list_ascii_of_string s)).
Arguments py s%_string.

(** The double quote, which a literal of this file cannot hold. *)
Definition dquote : str := [34%N].

Definition str_eqb (a b : str) : bool :=
  if list_eq_dec N.eq_dec a b then true else false.

(** Truth value of a string: [if s:] *)
Definition truthy (s : str) : bool :=
  match s with [] => false | _ => true end.

(** [x in l] for a list of strings. *)
Definition str_in (x : str) (l : list str) : bool := existsb (str_eqb x) l.

(** [c in s] for a single character [c]. *)
Definition char_in (c : N) (s : str) : bool := existsb (N.eqb c) s.

(** [sep.join(parts)] *)
Fixpoint join (sep : str) (parts : list str) : str :=
  match parts with
  | [] => []
  | [p] => p
  | p :: rest => p ++ sep ++ join sep rest
  end.

Definition cons_head (c : N) (l : list str) : list str :=
  match l with
  | h :: t => (c :: h) :: t
  | [] => [[c]]
  end.

(** [s.split('\r\n')] *)
Fixpoint split_crlf (s : str) : list str :=
  match s with
  | [] => [[]]
  | c :: r =>
      match r with
      | d :: r' =>
          if (c =? 13) && (d =? 10) then [] :: split_crlf r'
          else cons_head c (split_crlf r)
      | [] => [[c]]
      end
  end.

(** [s.split(':', 1)] when [':' in s]: the text before the first colon
    and the text after it. *)
Fixpoint split_colon1 (s : str) : str * str :=
  match s with
  | [] => ([], [])
  | c :: r =>
      if c =? 58 then ([], r)
      else let (k, v) := split_colon1 r in (c :: k, v)
  end.

(** [str.isspace] of one code point (the Unicode white space). *)
Definition isspace (c : N) : bool :=
  ((9 <=? c) && (c <=? 13)) || ((28 <=? c) && (c <=? 32))
  || (c =? 0x85) || (c =? 0xA0) || (c =? 0x1680)
  || ((0x2000 <=? c) && (c <=? 0x200A))
  || (c =? 0x2028) || (c =? 0x2029) || (c =? 0x202F)
  || (c =? 0x205F) || (c =? 0x3000).

Fixpoint lstrip (s : str) : str :=
  match s with
  | c :: r => if isspace c then lstrip r else s
  | [] => []
  end.

Definition rstrip (s : str) : str := rev (lstrip (rev s)).

(** [s.strip()] *)
Definition strip (s : str) : str := rstrip (lstrip s).

(** [s.split()]: the maximal runs of characters that are not white
    space; [cur] is the run being read. *)
Fixpoint split_ws_from (cur : str) (s : str) : list str :=
  match s with
  | [] => if truthy cur then [cur] else []
  | c :: r =>
      if isspace c then
        if truthy cur then cur :: split_ws_from [] r
        else split_ws_from [] r
      else split_ws_from (cur ++ [c]) r
  end.

Definition split_ws (s : str) : list str := split_ws_from [] s.

Definition is_ascii (c : N) : bool := c <? 128.

Definition ascii_upper (c : N) : N :=
  if (97 <=? c) && (c <=? 122) then c - 32 else c.

Definition ascii_lower (c : N) : N :=
  if (65 <=? c) && (c <=? 90) then c + 32 else c.

Definition ascii_isdigit (c : N) : bool := (48 <=? c) && (c <=? 57).

(** The case mappings and the digit property of text that has a code
    point outside ASCII come from the Unicode database of the
    interpreter, which is no part of the repository: they are taken as
    given. *)
Record UnicodeDB : Type := {
  db_upper : str -> str;
  db_lower : str -> str;
  db_isdigit : str -> bool
}.

(** [s.upper()] *)
Definition upper (U : UnicodeDB) (s : str) : str :=
  if forallb is_ascii s then map ascii_upper s else db_upper U s.

(** [s.lower()] *)
Definition lower (U : UnicodeDB) (s : str) : str :=
  if forallb is_ascii s then map ascii_lower s else db_lower U s.

(** [s.isdigit()] *)
Definition isdigit (U : UnicodeDB) (s : str) : bool :=
  if forallb is_ascii s then truthy s && forallb ascii_isdigit s
  else db_isdigit U s.

(** A database that leaves text outside ASCII as it is; the concrete
    evaluations below are on ASCII text, where no database is read. *)
Definition plain_db : UnicodeDB :=
  {| db_upper := fun s => s; db_lower := fun s => s;
     db_isdigit := fun _ => false |}.

(** Decimal digits of a natural number, [str(n)]: [fuel] bounds the
    number of digits. *)
Fixpoint digits_from (fuel : nat) (n : N) (acc : str) : str :=
  match fuel with
  | O => acc
  | S k =>
      let acc' := (48 + n mod 10) :: acc in
      if n <? 10 then acc' else digits_from k (n / 10) acc'
  end.

Definition str_of_N (n : N) : str := digits_from (S (N.to_nat (N.log2 n))) n [].

(** [str(z)] for an integer. *)
Definition str_of_Z (z : Z) : str :=
  match z with
  | Zneg p => 45 :: str_of_N (Npos p)
  | _ => str_of_N (Z.to_N z)
  end.

(** Lower-case hexadecimal digit. *)
Definition hex_digit (d : N) : N := if d <? 10 then 48 + d else 87 + d.

(** A lower-case hexadecimal digit: [0-9a-f]. *)
Definition is_hex_digit (c : N) : bool :=
  ((48 <=? c) && (c <=? 57)) || ((97 <=? c) && (c <=? 102)).

(** Text without white space. *)
Definition no_space (s : str) : bool := forallb (fun c => negb (isspace c)) s.

End pystr.

(* ================================================================== *)
(** ** hashlib: MD5 (RFC 1321) and SHA-1 (RFC 3174)

    Bytes are numbers below 256, words are numbers below [2^32] with
    the wrap-around written out. *)

Module hashlib.

Local Open Scope N_scope.
Local Open Scope list_scope.

Definition w32 (x : N) : N := x mod 4294967296.
Definition add32 (a b : N) : N := w32 (a + b).
Definition not32 (x : N) : N := N.lxor x 0xFFFFFFFF.
Definition rotl32 (x n : N) : N :=
  w32 (N.lor (N.shiftl x n) (N.shiftr x (32 - n))).

(** The [k] low bytes of [n], least significant first. *)
Fixpoint le_bytes (k : nat) (n : N) : list N :=
  match k with
  | O => []
  | S k' => n mod 256 :: le_bytes k' (n / 256)
  end.

Definition be_bytes (k : nat) (n : N) : list N := rev (le_bytes k n).

Definition le_word (bs : list N) : N :=
  fold_right (fun b acc => b + 256 * acc) 0 bs.

Definition be_word (bs : list N) : N := le_word (rev bs).

(** Cuts [bs] into pieces of [k] bytes. *)
Fixpoint chunks (fuel k : nat) (bs : list N) : list (list N) :=
  match fuel with
  | O => []
  | S f =>
      match bs with
      | [] => []
      | _ => firstn k bs :: chunks f k (skipn k bs)
      end
  end.

Definition blocks (k : nat) (bs : list N) : list (list N) :=
  chunks (List.length bs) k bs.

(** Message padding: a one bit, zeros up to 56 modulo 64, the length
    in bits on 8 bytes. *)
Definition pad (len_bytes : nat -> N -> list N) (msg : list N) : list N :=
  let len := N.of_nat (List.length msg) in
  msg ++ [0x80] ++ repeat 0 (N.to_nat ((119 - len mod 64) mod 64))
      ++ len_bytes 8%nat ((8 * len) mod 18446744073709551616).

Definition md5_K : list N :=
  [0xd76aa478; 0xe8c7b756; 0x242070db; 0xc1bdceee; 0xf57c0faf; 0x4787c62a;
   0xa8304613; 0xfd469501; 0x698098d8; 0x8b44f7af; 0xffff5bb1; 0x895cd7be;
   0x6b901122; 0xfd987193; 0xa679438e; 0x49b40821; 0xf61e2562; 0xc040b340;
   0x265e5a51; 0xe9b6c7aa; 0xd62f105d; 0x02441453; 0xd8a1e681; 0xe7d3fbc8;
   0x21e1cde6; 0xc33707d6; 0xf4d50d87; 0x455a14ed; 0xa9e3e905; 0xfcefa3f8;
   0x676f02d9; 0x8d2a4c8a; 0xfffa3942; 0x8771f681; 0x6d9d6122; 0xfde5380c;
   0xa4beea44; 0x4bdecfa9; 0xf6bb4b60; 0xbebfbc70; 0x289b7ec6; 0xeaa127fa;
   0xd4ef3085; 0x04881d05; 0xd9d4d039; 0xe6db99e5; 0x1fa27cf8; 0xc4ac5665;
   0xf4292244; 0x432aff97; 0xab9423a7; 0xfc93a039; 0x655b59c3; 0x8f0ccc92;
   0xffeff47d; 0x85845dd1; 0x6fa87e4f; 0xfe2ce6e0; 0xa3014314; 0x4e0811a1;
   0xf7537e82; 0xbd3af235; 0x2ad7d2bb; 0xeb86d391].

Definition md5_S : list N :=
  [7; 12; 17; 22; 7; 12; 17; 22; 7; 12; 17; 22; 7; 12; 17; 22;
   5; 9; 14; 20; 5; 9; 14; 20; 5; 9; 14; 20; 5; 9; 14; 20;
   4; 11; 16; 23; 4; 11; 16; 23; 4; 11; 16; 23; 4; 11; 16; 23;
   6; 10; 15; 21; 6; 10; 15; 21; 6; 10; 15; 21; 6; 10; 15; 21].

Definition md5_state : Type := (N * N * N * N)%type.

Definition md5_round (M : list N) (st : md5_state) (i : nat) : md5_state :=
  let '(A, B, C, D) := st in
  let n := N.of_nat i in
  let '(F, g) :=
    if n <? 16 then (N.lor (N.land B C) (N.land (not32 B) D), n)
    else if n <? 32 then
      (N.lor (N.land D B) (N.land (not32 D) C), (5 * n + 1) mod 16)
    else if n <? 48 then (N.lxor B (N.lxor C D), (3 * n + 5) mod 16)
    else (N.lxor C (N.lor B (not32 D)), (7 * n) mod 16) in
  let F' := add32 (add32 (add32 F A) (nth i md5_K 0)) (nth (N.to_nat g) M 0) in
  (D, add32 B (rotl32 F' (nth i md5_S 0)), B, C).

Definition md5_block (st : md5_state) (block : list N) : md5_state :=
  let M := map le_word (blocks 4 block) in
  let '(a0, b0, c0, d0) := st in
  let '(A, B, C, D) := fold_left (md5_round M) (seq 0 64) st in
  (add32 a0 A, add32 b0 B, add32 c0 C, add32 d0 D).

(** [hashlib.md5(data).digest()] *)
Definition md5 (data : list N) : list N :=
  let '(a, b, c, d) :=
    fold_left md5_block (blocks 64 (pad le_bytes data))
              (0x67452301, 0xefcdab89, 0x98badcfe, 0x10325476) in
  le_bytes 4 a ++ le_bytes 4 b ++ le_bytes 4 c ++ le_bytes 4 d.

(** The message schedule of SHA-1: [w] holds the words computed so
    far, most recent first. *)
Fixpoint sha1_schedule (k : nat) (w : list N) : list N :=
  match k with
  | O => w
  | S k' =>
      let x := N.lxor (N.lxor (nth 2 w 0) (nth 7 w 0))
                      (N.lxor (nth 13 w 0) (nth 15 w 0)) in
      sha1_schedule k' (rotl32 x 1 :: w)
  end.

Definition sha1_state : Type := (N * N * N * N * N)%type.

Definition sha1_round (W : list N) (st : sha1_state) (i : nat) : sha1_state :=
  let '(a, b, c, d, e) := st in
  let n := N.of_nat i in
  let '(f, k) :=
    if n <? 20 then (N.lor (N.land b c) (N.land (not32 b) d), 0x5A827999)
    else if n <? 40 then (N.lxor b (N.lxor c d), 0x6ED9EBA1)
    else if n <? 60 then
      (N.lor (N.lor (N.land b c) (N.land b d)) (N.land c d), 0x8F1BBCDC)
    else (N.lxor b (N.lxor c d), 0xCA62C1D6) in
  let temp :=
    add32 (add32 (add32 (add32 (rotl32 a 5) f) e) k) (nth i W 0) in
  (temp, a, rotl32 b 30, c, d).

Definition sha1_block (st : sha1_state) (block : list N) : sha1_state :=
  let W := rev (sha1_schedule 64 (rev (map be_word (blocks 4 block)))) in
  let '(h0, h1, h2, h3, h4) := st in
  let '(a, b, c, d, e) := fold_left (sha1_round W) (seq 0 80) st in
  (add32 h0 a, add32 h1 b, add32 h2 c, add32 h3 d, add32 h4 e).

(** [hashlib.sha1(data).digest()] *)
Definition sha1 (data : list N) : list N :=
  let '(a, b, c, d, e) :=
    fold_left sha1_block (blocks 64 (pad be_bytes data))
              (0x67452301, 0xEFCDAB89, 0x98BADCFE, 0x10325476, 0xC3D2E1F0) in
  be_bytes 4 a ++ be_bytes 4 b ++ be_bytes 4 c ++ be_bytes 4 d
    ++ be_bytes 4 e.

(** Every element is a byte. *)
Definition all_bytes (l : list N) : bool := forallb (fun b => b <? 256) l.

(** [h.hexdigest()]: two lower-case hexadecimal digits per byte. *)
Definition hexdigest (digest : list N) : pystr.str :=
  flat_map (fun b => [pystr.hex_digit (b / 16); pystr.hex_digit (b mod 16)])
           digest.

End hashlib.

(* ================================================================== *)
(** ** Exceptions and mutable objects *)

Module pyexc.

Import pystr.

(** The exceptions the modelled code can raise. *)
Inductive exn : Type :=
| ValueError (msg : str)
| UnicodeEncodeError
| StatisticsError (msg : str)
| ZeroDivisionError
| KeyError (key : str)
| IndexError.

(** Outcome of a call: a value, or a raised exception. *)
Inductive res (A : Type) : Type :=
| Ok (a : A)
| Raise (e : exn).
Arguments Ok {A} a.
Arguments Raise {A} e.

Definition rbind {A B} (c : res A) (k : A -> res B) : res B :=
  match c with
  | Ok a => k a
  | Raise e => Raise e
  end.

Definition is_ok {A} (c : res A) : bool :=
  match c with Ok _ => true | Raise _ => false end.

(** A method of an object with state [S]: it returns or raises, and
    leaves the object in a new state either way (what was assigned
    before a [raise] stays assigned). *)
Definition M (S A : Type) : Type := S -> res A * S.

Definition ret {S A} (a : A) : M S A := fun s => (Ok a, s).
Definition raise {S A} (e : exn) : M S A := fun s => (Raise e, s).
Definition bind {S A B} (c : M S A) (k : A -> M S B) : M S B :=
  fun s =>
    match c s with
    | (Ok a, s') => k a s'
    | (Raise e, s') => (Raise e, s')
    end.
Definition get {S} : M S S := fun s => (Ok s, s).
Definition modify {S} (f : S -> S) : M S unit := fun s => (Ok tt, f s).
Definition lift {S A} (c : res A) : M S A := fun s => (c, s).

(** [try: body except Exception: handler] *)
Definition try_except {S A} (body : M S A) (handler : exn -> M S A) : M S A :=
  fun s =>
    match body s with
    | (Ok a, s') => (Ok a, s')
    | (Raise e, s') => handler e s'
    end.

(** The method returns, whatever the state of the object. *)
Definition returns {S A} (c : M S A) : Prop :=
  forall s, exists a s', c s = (Ok a, s').

(** [s.encode('utf-8')] *)
Definition encode_utf8 (s : str) : res (list N) :=
  if encodable s then Ok (flat_map utf8_char s) else Raise UnicodeEncodeError.

End pyexc.

Declare Scope py_scope.
Delimit Scope py_scope with py.
Notation "x <- c ;; k" := (pyexc.bind c (fun x => k))
  (at level 61, c at next level, right associativity) : py_scope.
Notation "c ;; k" := (pyexc.bind c (fun _ => k))
  (at level 61, right associativity) : py_scope.
Notation "x <~ c ;; k" := (pyexc.rbind c (fun x => k))
  (at level 61, c at next level, right associativity) : py_scope.

(* ================================================================== *)
(** ** Python dictionaries with insertion order *)

Module pydict.

Import pystr.

Definition dict (V : Type) : Type := list (str * V).

(** [k in d] *)
Definition has {V} (k : str) (d : dict V) : bool :=
  existsb (fun kv => str_eqb k (fst kv)) d.

(** [d.get(k)] *)
Fixpoint get {V} (k : str) (d : dict V) : option V :=
  match d with
  | [] => None
  | (k', v) :: r => if str_eqb k k' then Some v else get k r
  end.

(** [d[k] = v]: an existing key keeps its place. *)
Fixpoint set {V} (k : str) (v : V) (d : dict V) : dict V :=
  match d with
  | [] => [(k, v)]
  | (k', v') :: r =>
      if str_eqb k k' then (k', v) :: r else (k', v') :: set k v r
  end.

Definition keys {V} (d : dict V) : list str := map fst d.

End pydict.

(* ================================================================== *)
(** ** json.dumps(data, ensure_ascii=False, indent=2) *)

Module json.

Import pystr.
Local Open Scope N_scope.
Local Open Scope list_scope.

(** The values the handlers serialise.  A float carries its [repr]. *)
Inductive value : Type :=
| JStr (s : str)
| JInt (n : Z)
| JFloat (repr : str)
| JList (items : list value)
| JDict (items : list (str * value)).

(** One character inside a JSON string. *)
Definition escape_char (c : N) : str :=
  if c =? 34 then py "\" ++ dquote
  else if c =? 92 then py "\\"
  else if c =? 10 then py "\n"
  else if c =? 13 then py "\r"
  else if c =? 9 then py "\t"
  else if c =? 8 then py "\b"
  else if c =? 12 then py "\f"
  else if c <? 32 then py "\u00" ++ [hex_digit (c / 16); hex_digit (c mod 16)]
  else [c].

Definition quote (s : str) : str := dquote ++ flat_map escape_char s ++ dquote.

(** A newline and the indentation of nesting level [lvl]. *)
Definition newline_indent (lvl : nat) : str := 10 :: repeat 32 (2 * lvl)%nat.

Fixpoint dumps_at (lvl : nat) (v : value) : str :=
  match v with
  | JStr s => quote s
  | JInt n => str_of_Z n
  | JFloat r => r
  | JList [] => py "[]"
  | JList items =>
      py "[" ++ newline_indent (S lvl)
        ++ join (py "," ++ newline_indent (S lvl)) (map (dumps_at (S lvl)) items)
        ++ newline_indent lvl ++ py "]"
  | JDict [] => py "{}"
  | JDict items =>
      py "{" ++ newline_indent (S lvl)
        ++ join (py "," ++ newline_indent (S lvl))
             (map (fun kv => quote (fst kv) ++ py ": " ++ dumps_at (S lvl) (snd kv))
                  items)
        ++ newline_indent lvl ++ py "}"
  end.

Definition dumps (v : value) : str := dumps_at 0 v.

(** Every string of the value can be encoded. *)
Fixpoint value_encodable (v : value) : bool :=
  match v with
  | JStr s => encodable s
  | JInt _ => true
  | JFloat r => encodable r
  | JList items => forallb value_encodable items
  | JDict items =>
      forallb (fun kv => encodable (fst kv) && value_encodable (snd kv)) items
  end.

(** Induction over a value and the values nested in it. *)
Section ValueInduction.

Variable P : value -> Prop.
Hypothesis HStr : forall s, P (JStr s).
Hypothesis HInt : forall n, P (JInt n).
Hypothesis HFloat : forall r, P (JFloat r).
Hypothesis HList : forall items, Forall P items -> P (JList items).
Hypothesis HDict :
  forall items, Forall (fun kv => P (snd kv)) items -> P (JDict items).

Fixpoint value_nested_ind (v : value) : P v :=
  match v with
  | JStr s => HStr s
  | JInt n => HInt n
  | JFloat r => HFloat r
  | JList items =>
      HList items
        ((fix go (l : list value) : Forall P l :=
            match l with
            | [] => Forall_nil P
            | x :: r => Forall_cons (P := P) x (value_nested_ind x) (go r)
            end) items)
  | JDict items =>
      HDict items
        ((fix go (l : list (str * value)) : Forall (fun kv => P (snd kv)) l :=
            match l with
            | [] => Forall_nil _
            | kv :: r =>
                Forall_cons (P := fun kv => P (snd kv)) kv
                            (value_nested_ind (snd kv)) (go r)
            end) items)
  end.

End ValueInduction.

End json.

(* ================================================================== *)
(** ** config.py *)

Module config.

Import pystr.

(** The settings the request pipeline reads. *)
Record Config : Type := {
  MATRICULA : str;
  NOME_ALUNO : str;
  HASH_ALGORITHM : str
}.

(** The values of the repository. *)
Definition shipped : Config :=
  {| MATRICULA := py "5217";
     NOME_ALUNO := py "Marina Conrado Moreira Santos";
     HASH_ALGORITHM := py "sha1" |}.

End config.

(* ================================================================== *)
(** ** core/crypto_utils.py *)

Module crypto_utils.

Import pystr pyexc config.
Local Open Scope py_scope.
Local Open Scope list_scope.

Section WithUnicode.

Variable U : UnicodeDB.
Variable cfg : Config.

Definition or_default (arg : option str) (default : str) : str :=
  match arg with
  | Some v => v
  | None => default
  end.

Definition calcular_hash_aluno (matricula nome_aluno algoritmo : option str)
  : res str :=
  let matricula := or_default matricula (MATRICULA cfg) in
  let nome_aluno := or_default nome_aluno (NOME_ALUNO cfg) in
  let algoritmo := or_default algoritmo (HASH_ALGORITHM cfg) in
  if negb (truthy matricula) || negb (truthy nome_aluno) then
    Raise (ValueError (py "Matrícula e nome do aluno são obrigatórios"))
  else if negb (Nat.eqb (List.length matricula) 4) || negb (isdigit U matricula) then
    Raise (ValueError (py "Matrícula deve ter exatamente 4 dígitos numéricos"))
  else if negb (str_in algoritmo [py "md5"; py "sha1"]) then
    Raise (ValueError (py "Algoritmo deve ser 'md5' ou 'sha1'"))
  else
    let dados := matricula ++ py " " ++ nome_aluno in
    bytes <~ encode_utf8 dados ;;
    if str_eqb algoritmo (py "md5") then Ok (hashlib.hexdigest (hashlib.md5 bytes))
    else Ok (hashlib.hexdigest (hashlib.sha1 bytes)).

Definition gerar_custom_id : res str := calcular_hash_aluno None None None.

Definition validar_custom_id (custom_id : str) : res bool :=
  expected_id <~ gerar_custom_id ;;
  Ok (str_eqb custom_id expected_id).

End WithUnicode.

End crypto_utils.

(* ================================================================== *)
(** ** Clock readings

    The handlers read the clock ([time.time()], [datetime.utcnow()])
    and print the readings.  Floating-point values and their printing
    are outside the model: a request is served under an environment
    that holds the text of each printed reading. *)

Module pytime.

Import pystr.

Record Env : Type := {
  (** [datetime.utcnow().strftime('%a, %d %b %Y %H:%M:%S GMT')] *)
  utcnow_http : str;
  (** ["{:.2f}".format(time.time() - start_time)] *)
  uptime_2f : str;
  (** [repr(time.time() - start_time)] *)
  uptime_repr : str;
  (** [repr(time.time())] *)
  timestamp_repr : str;
  (** [time.strftime("%Y-%m-%d %H:%M:%S", time.localtime())] *)
  localtime_text : str
}.

Definition env_encodable (e : Env) : bool :=
  encodable (utcnow_http e) && encodable (uptime_2f e)
  && encodable (uptime_repr e) && encodable (timestamp_repr e)
  && encodable (localtime_text e).

End pytime.

(* ================================================================== *)
(** ** core/http_utils.py *)

Module http_utils.

Import pystr pyexc config pytime.
Local Open Scope py_scope.
Local Open Scope list_scope.

Definition crlf : str := [13%N; 10%N].

(** *** class HTTPRequest

    [valid] holds the truth value of what the source assigns (the
    source assigns the last operand of an [and] chain, and only tests
    it). *)
Record HTTPRequest : Type := {
  raw_request : str;
  method : option str;
  path : option str;
  version : option str;
  headers : pydict.dict str;
  body : option str;
  valid : bool;
  custom_id_valid : bool
}.

Definition set_request_line (m p v : str) (r : HTTPRequest) : HTTPRequest :=
  {| raw_request := raw_request r; method := Some m; path := Some p;
     version := Some v; headers := headers r; body := body r;
     valid := valid r; custom_id_valid := custom_id_valid r |}.

Definition set_headers (h : pydict.dict str) (r : HTTPRequest) : HTTPRequest :=
  {| raw_request := raw_request r; method := method r; path := path r;
     version := version r; headers := h; body := body r;
     valid := valid r; custom_id_valid := custom_id_valid r |}.

Definition set_req_body (b : str) (r : HTTPRequest) : HTTPRequest :=
  {| raw_request := raw_request r; method := method r; path := path r;
     version := version r; headers := headers r; body := Some b;
     valid := valid r; custom_id_valid := custom_id_valid r |}.

Definition set_valid (b : bool) (r : HTTPRequest) : HTTPRequest :=
  {| raw_request := raw_request r; method := method r; path := path r;
     version := version r; headers := headers r; body := body r;
     valid := b; custom_id_valid := custom_id_valid r |}.

Definition set_custom_id_valid (b : bool) (r : HTTPRequest) : HTTPRequest :=
  {| raw_request := raw_request r; method := method r; path := path r;
     version := version r; headers := headers r; body := body r;
     valid := valid r; custom_id_valid := b |}.

(** Truth value of an attribute that is [None] or a string. *)
Definition truthy_opt (o : option str) : bool :=
  match o with
  | Some s => truthy s
  | None => false
  end.

Definition or_empty (o : option str) : str :=
  match o with
  | Some s => s
  | None => []
  end.

(** [o in l] for an attribute that is [None] or a string. *)
Definition opt_in (o : option str) (l : list str) : bool :=
  match o with
  | Some s => str_in s l
  | None => false
  end.

(** The loop over [enumerate(lines[1:], 1)]: the header lines up to the
    first blank line, and [body_start] ([0] when no line is blank). *)
Fixpoint scan_headers (i : nat) (ls : list str) (header_lines : list str)
  : list str * nat :=
  match ls with
  | [] => (header_lines, 0%nat)
  | line :: rest =>
      if negb (truthy (strip line)) then (header_lines, S i)
      else scan_headers (S i) rest (header_lines ++ [line])
  end.

(** The attributes that [__init__] assigns before it parses. *)
Definition new_request (raw : str) : HTTPRequest :=
  {| raw_request := raw; method := None; path := None; version := None;
     headers := []; body := None; valid := false; custom_id_valid := false |}.

Section WithUnicode.

Variable U : UnicodeDB.
Variable cfg : Config.

(** The loop over [header_lines]. *)
Definition add_header (h : pydict.dict str) (header_line : str)
  : pydict.dict str :=
  if char_in 58 header_line then
    let (key, value) := split_colon1 header_line in
    pydict.set (lower U (strip key)) (strip value) h
  else h.

(** The body of the [try] of [_parse_request]. *)
Definition parse_request_try : M HTTPRequest unit :=
  self <- get ;;
  match split_crlf (raw_request self) with
  | [] => ret tt
  | line0 :: rest =>
      let request_line := strip line0 in
      let parts := split_ws request_line in
      match parts with
      | p0 :: p1 :: p2 :: _ => modify (set_request_line (upper U p0) p1 p2)
      | _ => ret tt
      end ;;
      let (header_lines, body_start) := scan_headers 1 rest [] in
      self <- get ;;
      modify (set_headers (fold_left add_header header_lines (headers self))) ;;
      (if Nat.ltb body_start (List.length (line0 :: rest)) then
         modify (set_req_body (join crlf (skipn body_start (line0 :: rest))))
       else ret tt) ;;
      self <- get ;;
      modify (set_valid (opt_in (method self) [py "GET"; py "POST"; py "HEAD"]
                         && truthy_opt (path self) && truthy_opt (version self))) ;;
      self <- get ;;
      match pydict.get (py "x-custom-id") (headers self) with
      | Some custom_id =>
          ok <- lift (crypto_utils.validar_custom_id U cfg custom_id) ;;
          modify (set_custom_id_valid ok)
      | None => modify (set_custom_id_valid false)
      end
  end.

Definition _parse_request : M HTTPRequest unit :=
  try_except parse_request_try (fun _ => modify (set_valid false)).

(** [HTTPRequest(raw_request)] *)
Definition HTTPRequest_init (raw : str) : res HTTPRequest :=
  match _parse_request (new_request raw) with
  | (Ok _, self') => Ok self'
  | (Raise e, _) => Raise e
  end.

(** What [_parse_request] reads in the raw text: the tokens of the
    request line, the headers, and the body. *)
Definition request_tokens (raw : str) : list str :=
  split_ws (strip (hd [] (split_crlf raw))).

Definition header_scan (raw : str) : list str * nat :=
  scan_headers 1 (tl (split_crlf raw)) [].

Definition parsed_headers (raw : str) : pydict.dict str :=
  fold_left add_header (fst (header_scan raw)) [].

Definition parsed_body (raw : str) : option str :=
  if Nat.ltb (snd (header_scan raw)) (List.length (split_crlf raw)) then
    Some (join crlf (skipn (snd (header_scan raw)) (split_crlf raw)))
  else None.

(** The three attributes of the request line. *)
Definition line_method (raw : str) : option str :=
  match request_tokens raw with
  | p0 :: _ :: _ :: _ => Some (upper U p0)
  | _ => None
  end.

Definition line_path (raw : str) : option str :=
  match request_tokens raw with
  | _ :: p1 :: _ :: _ => Some p1
  | _ => None
  end.

Definition line_version (raw : str) : option str :=
  match request_tokens raw with
  | _ :: _ :: p2 :: _ => Some p2
  | _ => None
  end.

(** The request line alone: at least three tokens, the first of which
    is a supported method once in upper case. *)
Definition line_ok (raw : str) : bool :=
  match request_tokens raw with
  | p0 :: _ :: _ :: _ => str_in (upper U p0) [py "GET"; py "POST"; py "HEAD"]
  | _ => false
  end.

(** The request before the identity header is checked. *)
Definition parsed_before_check (raw : str) : HTTPRequest :=
  {| raw_request := raw;
     method := line_method raw;
     path := line_path raw;
     version := line_version raw;
     headers := parsed_headers raw;
     body := parsed_body raw;
     valid := opt_in (line_method raw) [py "GET"; py "POST"; py "HEAD"]
              && truthy_opt (line_path raw) && truthy_opt (line_version raw);
     custom_id_valid := false |}.

End WithUnicode.

Definition is_valid (r : HTTPRequest) : bool := valid r && custom_id_valid r.

Inductive custom_id_status : Type := MISSING | VALID | INVALID.

Definition get_custom_id_status (r : HTTPRequest) : custom_id_status :=
  if negb (pydict.has (py "x-custom-id") (headers r)) then MISSING
  else if custom_id_valid r then VALID
  else INVALID.

(** *** class HTTPResponse *)
Record HTTPResponse : Type := {
  status_code : Z;
  status_message : str;
  resp_headers : pydict.dict str;
  resp_body : str
}.

Definition HTTPResponse_init (env : Env) (code : Z) (message : str) : HTTPResponse :=
  {| status_code := code;
     status_message := message;
     resp_headers :=
       [(py "Server", py "Python-Web-Server/1.0");
        (py "Date", utcnow_http env);
        (py "Connection", py "close");
        (py "Content-Type", py "text/html; charset=utf-8")];
     resp_body := [] |}.

Definition set_header (key value : str) (r : HTTPResponse) : HTTPResponse :=
  {| status_code := status_code r; status_message := status_message r;
     resp_headers := pydict.set key value (resp_headers r);
     resp_body := resp_body r |}.

Definition assign_body (content : str) (r : HTTPResponse) : HTTPResponse :=
  {| status_code := status_code r; status_message := status_message r;
     resp_headers := resp_headers r; resp_body := content |}.

Definition html_utf8 : str := py "text/html; charset=utf-8".

Definition set_body (content content_type : str) (r : HTTPResponse)
  : res HTTPResponse :=
  let r := assign_body content r in
  let r := set_header (py "Content-Type") content_type r in
  bytes <~ encode_utf8 content ;;
  Ok (set_header (py "Content-Length")
                 (str_of_N (N.of_nat (List.length bytes))) r).

Definition set_json_body (data : json.value) (r : HTTPResponse)
  : res HTTPResponse :=
  set_body (json.dumps data) (py "application/json; charset=utf-8") r.

Definition to_bytes (r : HTTPResponse) : res (list N) :=
  let status_line :=
    py "HTTP/1.1 " ++ str_of_Z (status_code r) ++ py " " ++ status_message r in
  let header_lines :=
    map (fun kv => fst kv ++ py ": " ++ snd kv) (resp_headers r) in
  let response_lines :=
    [status_line] ++ header_lines ++ [[]]
      ++ (if truthy (resp_body r) then [resp_body r] else []) in
  encode_utf8 (join crlf response_lines).

Definition status_messages : list (Z * str) :=
  [(400%Z, py "Bad Request"); (401%Z, py "Unauthorized");
   (403%Z, py "Forbidden"); (404%Z, py "Not Found");
   (405%Z, py "Method Not Allowed"); (500%Z, py "Internal Server Error")].

Fixpoint status_message_of (code : Z) (table : list (Z * str)) : str :=
  match table with
  | [] => py "Unknown Error"
  | (c, m) :: rest => if Z.eqb code c then m else status_message_of code rest
  end.

Definition nl : str := [10%N].

(** The page of an error response; [message] is [None] or a string. *)
Definition error_html (code : Z) (status_message : str) (message : option str)
  : str :=
  let ind := py "        " in
  let title := py "Error " ++ str_of_Z code in
  join nl
    ([[]; ind ++ py "<!DOCTYPE html>"; ind ++ py "<html>";
      ind ++ py "<head><title>" ++ title ++ py "</title></head>";
      ind ++ py "<body>";
      ind ++ py "    <h1>" ++ title ++ py ": " ++ status_message ++ py "</h1>"]
     ++ (if truthy_opt message then
           [ind ++ py "    <p>" ++ or_empty message ++ py "</p>"]
         else [])
     ++ [ind ++ py "</body>"; ind ++ py "</html>"; ind]).

Definition create_error_response (env : Env) (code : Z) (message : option str)
  : res HTTPResponse :=
  let status_message := status_message_of code status_messages in
  let response := HTTPResponse_init env code status_message in
  set_body (error_html code status_message message) html_utf8 response.

Definition create_success_response (env : Env) (content content_type : str)
  : res HTTPResponse :=
  set_body content content_type (HTTPResponse_init env 200 (py "OK")).

(** The headers that [__init__] sets are in place, and [Content-Length]
    counts the bytes of the body in UTF-8. *)
Definition framed (env : Env) (r : HTTPResponse) : Prop :=
  exists bytes,
    encode_utf8 (resp_body r) = Ok bytes
    /\ pydict.get (py "Content-Length") (resp_headers r)
       = Some (str_of_N (N.of_nat (List.length bytes)))
    /\ pydict.get (py "Server") (resp_headers r) = Some (py "Python-Web-Server/1.0")
    /\ pydict.get (py "Date") (resp_headers r) = Some (utcnow_http env)
    /\ pydict.get (py "Connection") (resp_headers r) = Some (py "close")
    /\ exists content_type,
         pydict.get (py "Content-Type") (resp_headers r) = Some content_type.

(** [validate_http_request(raw_request)] *)
Definition validate_http_request (U : UnicodeDB) (cfg : Config) (raw_request : str)
  : res (bool * custom_id_status * HTTPRequest) :=
  parsed <~ HTTPRequest_init U cfg raw_request ;;
  Ok (is_valid parsed, get_custom_id_status parsed, parsed).

End http_utils.

(* ================================================================== *)
(** ** core/server_handlers.py *)

Module server_handlers.

Import pystr pyexc config pytime http_utils json.
Local Open Scope py_scope.
Local Open Scope list_scope.
Local Open Scope Z_scope.

(** *** class HTTPHandlers

    [start_time] is only read to print the uptime, which the
    environment holds. *)
Record HTTPHandlers : Type := {
  requests_served : Z
}.

(** [HTTPHandlers()] *)
Definition HTTPHandlers_init : HTTPHandlers := {| requests_served := 0 |}.

(** [self.requests_served += 1] *)
Definition count_request (self : HTTPHandlers) : HTTPHandlers :=
  {| requests_served := requests_served self + 1 |}.

(** [o == s] for an attribute that is [None] or a string. *)
Definition opt_eqb (o : option str) (s : str) : bool :=
  match o with
  | Some x => str_eqb x s
  | None => false
  end.

(** [f"{o}"] for an attribute that is [None] or a string. *)
Definition fmt_opt (o : option str) : str :=
  match o with
  | Some x => x
  | None => py "None"
  end.

(** The page of [GET /]. *)
Definition index_html (env : Env) (served : Z) : str :=
  join nl
    [py "<!DOCTYPE html>"; py "<html>"; py "<head>";
     py "    <title>Servidor Web Python</title>";
     py "    <meta charset=" ++ dquote ++ py "utf-8" ++ dquote ++ py ">";
     py "</head>"; py "<body>";
     py "    <h1>Servidor Web Sequencial e Concorrente</h1>";
     py "    <h2>Projeto de Redes de Computadores II</h2>";
     py "    <p>Servidor implementado em Python usando sockets TCP</p>";
     py "    <p>Requisições atendidas: " ++ str_of_Z served ++ py "</p>";
     py "    <p>Tempo online: " ++ uptime_2f env ++ py " segundos</p>";
     py "    <h3>Endpoints Disponíveis:</h3>";
     py "    <ul>";
     py "        <li>GET / - Esta página</li>";
     py "        <li>GET /status - Status detalhado</li>";
     py "        <li>GET /info - Informações do projeto</li>";
     py "        <li>GET /time - Timestamp atual</li>";
     py "        <li>POST /echo - Echo do corpo da requisição</li>";
     py "        <li>POST /hash - Calcula hash dos dados enviados</li>";
     py "    </ul>"; py "</body>"; py "</html>"].

Definition endpoint (p m d : string) : value :=
  JDict [(py "path", JStr (py p)); (py "method", JStr (py m));
         (py "description", JStr (py d))].

Definition status_data (env : Env) (served : Z) : value :=
  JDict
    [(py "server", JStr (py "Python Web Server 1.0"));
     (py "status", JStr (py "running"));
     (py "uptime", JFloat (uptime_repr env));
     (py "requests_served", JInt served);
     (py "timestamp", JFloat (timestamp_repr env));
     (py "supported_methods", JList [JStr (py "GET"); JStr (py "POST"); JStr (py "HEAD")]);
     (py "endpoints",
      JList [endpoint "/" "GET" "Página inicial";
             endpoint "/status" "GET" "Status do servidor";
             endpoint "/info" "GET" "Informações do projeto";
             endpoint "/time" "GET" "Timestamp atual";
             endpoint "/echo" "POST" "Echo do corpo";
             endpoint "/hash" "POST" "Calcula hash"])].

Definition info_data (custom_id : str) : value :=
  JDict
    [(py "project", JStr (py "Servidor Web Sequencial e Concorrente"));
     (py "course", JStr (py "Redes de Computadores II"));
     (py "technologies",
      JList [JStr (py "Python"); JStr (py "Sockets TCP"); JStr (py "Docker")]);
     (py "features",
      JList [JStr (py "Servidor sequencial síncrono");
             JStr (py "Servidor concorrente com threads/multiprocess");
             JStr (py "Avaliação de performance");
             JStr (py "Métricas de latência e throughput")]);
     (py "x_custom_id", JStr custom_id)].

Definition time_data (env : Env) : value :=
  JDict
    [(py "timestamp", JFloat (timestamp_repr env));
     (py "datetime", JStr (localtime_text env));
     (py "uptime", JFloat (uptime_repr env))].

(** The dictionary of [POST /hash]; [md5] and [sha1] are the two
    hexadecimal digests. *)
Definition hash_data (body md5_hash sha1_hash : str) : value :=
  JDict
    [(py "input", JStr body);
     (py "md5", JStr md5_hash);
     (py "sha1", JStr sha1_hash);
     (py "length", JInt (Z.of_nat (List.length body)))].

Section WithConfig.

Variable U : UnicodeDB.
Variable cfg : Config.
Variable env : Env.

Definition handle_get (request : HTTPRequest) : M HTTPHandlers HTTPResponse :=
  modify count_request ;;
  self <- get ;;
  if opt_eqb (path request) (py "/") then
    lift (create_success_response env (index_html env (requests_served self))
                                  html_utf8)
  else if opt_eqb (path request) (py "/status") then
    lift (set_json_body (status_data env (requests_served self))
                        (HTTPResponse_init env 200 (py "OK")))
  else if opt_eqb (path request) (py "/info") then
    custom_id <- lift (crypto_utils.gerar_custom_id U cfg) ;;
    lift (set_json_body (info_data custom_id)
                        (HTTPResponse_init env 200 (py "OK")))
  else if opt_eqb (path request) (py "/time") then
    lift (set_json_body (time_data env) (HTTPResponse_init env 200 (py "OK")))
  else
    lift (create_error_response env 404
            (Some (py "Path '" ++ fmt_opt (path request) ++ py "' não encontrado"))).

Definition handle_post (request : HTTPRequest) : M HTTPHandlers HTTPResponse :=
  modify count_request ;;
  if opt_eqb (path request) (py "/echo") then
    if truthy_opt (body request) then
      lift (set_body (or_empty (body request)) (py "text/plain; charset=utf-8")
                     (HTTPResponse_init env 200 (py "OK")))
    else
      lift (create_error_response env 400 (Some (py "Corpo da requisição vazio")))
  else if opt_eqb (path request) (py "/hash") then
    if negb (truthy_opt (body request)) then
      lift (create_error_response env 400
              (Some (py "Corpo da requisição necessário para calcular hash")))
    else
      let body := or_empty (body request) in
      md5_bytes <- lift (encode_utf8 body) ;;
      let md5_hash := hashlib.hexdigest (hashlib.md5 md5_bytes) in
      sha1_bytes <- lift (encode_utf8 body) ;;
      let sha1_hash := hashlib.hexdigest (hashlib.sha1 sha1_bytes) in
      lift (set_json_body (hash_data body md5_hash sha1_hash)
                          (HTTPResponse_init env 200 (py "OK")))
  else
    lift (create_error_response env 405
            (Some (py "Método POST não suportado para '"
                   ++ fmt_opt (path request) ++ py "'"))).

(** [response.body = ""; response.set_header('Content-Length', '0')] *)
Definition strip_body (response : HTTPResponse) : HTTPResponse :=
  set_header (py "Content-Length") (py "0") (assign_body [] response).

Definition handle_head (request : HTTPRequest) : M HTTPHandlers HTTPResponse :=
  modify count_request ;;
  if opt_in (path request) [py "/"; py "/status"; py "/info"; py "/time"] then
    response <- handle_get request ;;
    ret (strip_body response)
  else
    response <- lift (create_error_response env 404
                        (Some (py "Path '" ++ fmt_opt (path request)
                               ++ py "' não encontrado"))) ;;
    ret (strip_body response).

Definition process_request (request : HTTPRequest) : M HTTPHandlers HTTPResponse :=
  try_except
    (if opt_eqb (method request) (py "GET") then handle_get request
     else if opt_eqb (method request) (py "POST") then handle_post request
     else if opt_eqb (method request) (py "HEAD") then handle_head request
     else
       lift (create_error_response env 405
               (Some (py "Método '" ++ fmt_opt (method request)
                      ++ py "' não suportado"))))
    (fun _ =>
       lift (create_error_response env 500 (Some (py "Erro interno do servidor")))).

End WithConfig.

Definition SUPPORTED_METHODS : pydict.dict str :=
  [(py "GET", py "handle_get"); (py "POST", py "handle_post");
   (py "HEAD", py "handle_head")].

(** [is_method_supported(method)] *)
Definition is_method_supported (U : UnicodeDB) (method : str) : bool :=
  pydict.has (upper U method) SUPPORTED_METHODS.

End server_handlers.

(* ================================================================== *)
(** ** server/sequential_server.py *)

Module sequential_server.

Import pystr pyexc config pytime http_utils server_handlers.
Local Open Scope py_scope.
Local Open Scope list_scope.
Local Open Scope Z_scope.

(** *** class SequentialWebServer

    [handlers] is the instance that [get_handlers()] shares. *)
Record SequentialWebServer : Type := {
  handlers : HTTPHandlers;
  requests_processed : Z;
  errors_count : Z
}.

Definition SequentialWebServer_init (h : HTTPHandlers) : SequentialWebServer :=
  {| handlers := h; requests_processed := 0; errors_count := 0 |}.

(** A method of [self.handlers] called from the server. *)
Definition with_handlers {A} (c : M HTTPHandlers A) : M SequentialWebServer A :=
  fun self =>
    let (r, h) := c (handlers self) in
    (r, {| handlers := h; requests_processed := requests_processed self;
           errors_count := errors_count self |}).

Definition count_processed (self : SequentialWebServer) : SequentialWebServer :=
  {| handlers := handlers self;
     requests_processed := requests_processed self + 1;
     errors_count := errors_count self |}.

Definition count_error (self : SequentialWebServer) : SequentialWebServer :=
  {| handlers := handlers self;
     requests_processed := requests_processed self;
     errors_count := errors_count self + 1 |}.

Section WithConfig.

Variable U : UnicodeDB.
Variable cfg : Config.
Variable env : Env.

(** The [try] of [_handle_client], from the received text to the
    response that is passed to [_send_response] ([None]: the method
    returns without sending). *)
Definition handle_client_try (request_data : str)
  : M SequentialWebServer (option HTTPResponse) :=
  if negb (truthy request_data) then ret None
  else
    request <- lift (HTTPRequest_init U cfg request_data) ;;
    response <-
      (if negb (is_valid request) then
         if negb (valid request) then
           lift (create_error_response env 400 (Some (py "Requisição HTTP inválida")))
         else if negb (custom_id_valid request) then
           lift (create_error_response env 401
                   (Some (py "X-Custom-ID inválido ou ausente")))
         else
           lift (create_error_response env 400 (Some (py "Requisição inválida")))
       else
         response <- with_handlers (process_request U cfg env request) ;;
         modify count_processed ;;
         ret response) ;;
    ret (Some response).

(** [_handle_client]: the response sent to the client, if any. *)
Definition _handle_client (request_data : str)
  : SequentialWebServer -> option HTTPResponse * SequentialWebServer :=
  fun self =>
    match handle_client_try request_data self with
    | (Ok sent, self') => (sent, self')
    | (Raise _, self') =>
        let self'' := count_error self' in
        match create_error_response env 500 (Some (py "Erro interno do servidor")) with
        | Ok error_response => (Some error_response, self'')
        | Raise _ => (None, self'')
        end
    end.

End WithConfig.

End sequential_server.

(* ================================================================== *)
(** ** server/concurrent_server.py *)

Module concurrent_server.

Import pystr pyexc config pytime http_utils server_handlers.
Local Open Scope py_scope.
Local Open Scope list_scope.
Local Open Scope Z_scope.

(** *** class ConcurrentWebServer

    The counters are updated under [stats_lock]; one call of
    [_handle_client] is modelled, as the worker thread runs it. *)
Record ConcurrentWebServer : Type := {
  handlers : HTTPHandlers;
  requests_processed : Z;
  errors_count : Z;
  active_connections : Z
}.

Definition with_handlers {A} (c : M HTTPHandlers A) : M ConcurrentWebServer A :=
  fun self =>
    let (r, h) := c (handlers self) in
    (r, {| handlers := h; requests_processed := requests_processed self;
           errors_count := errors_count self;
           active_connections := active_connections self |}).

Definition count_processed (self : ConcurrentWebServer) : ConcurrentWebServer :=
  {| handlers := handlers self;
     requests_processed := requests_processed self + 1;
     errors_count := errors_count self;
     active_connections := active_connections self |}.

Definition count_error (self : ConcurrentWebServer) : ConcurrentWebServer :=
  {| handlers := handlers self;
     requests_processed := requests_processed self;
     errors_count := errors_count self + 1;
     active_connections := active_connections self |}.

(** [_decrement_active_connections] *)
Definition _decrement_active_connections (self : ConcurrentWebServer)
  : ConcurrentWebServer :=
  {| handlers := handlers self;
     requests_processed := requests_processed self;
     errors_count := errors_count self;
     active_connections := Z.max 0 (active_connections self - 1) |}.

Section WithConfig.

Variable U : UnicodeDB.
Variable cfg : Config.
Variable env : Env.

Definition handle_client_try (request_data : str)
  : M ConcurrentWebServer (option HTTPResponse) :=
  if negb (truthy request_data) then ret None
  else
    request <- lift (HTTPRequest_init U cfg request_data) ;;
    response <-
      (if negb (is_valid request) then
         if negb (valid request) then
           lift (create_error_response env 400 (Some (py "Requisição HTTP inválida")))
         else if negb (custom_id_valid request) then
           lift (create_error_response env 401
                   (Some (py "X-Custom-ID inválido ou ausente")))
         else
           lift (create_error_response env 400 (Some (py "Requisição inválida")))
       else
         response <- with_handlers (process_request U cfg env request) ;;
         modify count_processed ;;
         ret response) ;;
    ret (Some response).

Definition _handle_client (request_data : str)
  : ConcurrentWebServer -> option HTTPResponse * ConcurrentWebServer :=
  fun self =>
    match handle_client_try request_data self with
    | (Ok sent, self') => (sent, self')
    | (Raise _, self') =>
        let self'' := count_error self' in
        match create_error_response env 500 (Some (py "Erro interno do servidor")) with
        | Ok error_response => (Some error_response, self'')
        | Raise _ => (None, self'')
        end
    end.

End WithConfig.

End concurrent_server.

(* ================================================================== *)
(** ** The statistics module of the interpreter, as [tests/metrics.py]
    calls it.  Latencies are exact rationals: rounding of floating
    point is outside the model; [math.sqrt] is taken as given. *)

Module statistics.

Import pystr pyexc.
Local Open Scope list_scope.
Local Open Scope Q_scope.

(** [a > b] *)
Definition Qgtb (a b : Q) : bool := negb (Qle_bool a b).

(** [a / b], which raises on a zero divisor. *)
Definition div (a b : Q) : res Q :=
  if Qeq_bool b 0 then Raise ZeroDivisionError else Ok (a / b).

Definition Qsum (l : list Q) : Q := fold_right Qplus 0 l.

Definition Qlen (l : list Q) : Q := inject_Z (Z.of_nat (List.length l)).

(** [sorted(data)] *)
Fixpoint insert (x : Q) (l : list Q) : list Q :=
  match l with
  | [] => [x]
  | y :: r => if Qle_bool x y then x :: l else y :: insert x r
  end.

Definition sorted (data : list Q) : list Q := fold_right insert [] data.

(** [min(data)] and [max(data)] of a non-empty list (the calls of the
    source are all guarded by [if latencies]). *)
Definition list_min (data : list Q) : Q :=
  match data with
  | [] => 0
  | x :: r => fold_left (fun m y => if Qgtb m y then y else m) r x
  end.

Definition list_max (data : list Q) : Q :=
  match data with
  | [] => 0
  | x :: r => fold_left (fun m y => if Qgtb y m then y else m) r x
  end.

Definition mean (data : list Q) : res Q :=
  match data with
  | [] => Raise (StatisticsError (py "mean requires at least one data point"))
  | _ => Ok (Qsum data / Qlen data)
  end.

Definition median (data : list Q) : res Q :=
  let data := sorted data in
  let n := List.length data in
  match n with
  | O => Raise (StatisticsError (py "no median for empty data"))
  | _ =>
      if Nat.odd n then Ok (nth (n / 2) data 0)
      else
        let i := (n / 2)%nat in
        Ok ((nth (i - 1) data 0 + nth i data 0) / 2)
  end.

Section WithSqrt.

Variable sqrt : Q -> Q.

Definition stdev (data : list Q) : res Q :=
  if Nat.ltb (List.length data) 2 then
    Raise (StatisticsError (py "stdev requires at least two data points"))
  else
    let m := Qsum data / Qlen data in
    let ss := Qsum (map (fun x => (x - m) * (x - m)) data) in
    Ok (sqrt (ss / (Qlen data - 1))).

End WithSqrt.

(** One cut point of [quantiles(data, n=n)], method [exclusive];
    [data] is sorted, [ld] its length, [i] runs over [range(1, n)].
    The interpreter evaluates the interpolation in floating point; here
    it is the exact value of the same expression. *)
Definition cut_point (data : list Q) (ld n i : nat) : Q :=
  let m := (ld + 1)%nat in
  let j := (i * m / n)%nat in
  let j := if Nat.ltb j 1 then 1%nat
           else if Nat.ltb (ld - 1) j then (ld - 1)%nat else j in
  let delta := (Z.of_nat (i * m) - Z.of_nat (j * n))%Z in
  (nth (j - 1) data 0 * inject_Z (Z.of_nat n - delta)
   + nth j data 0 * inject_Z delta) / inject_Z (Z.of_nat n).

Definition quantiles (data : list Q) (n : nat) : res (list Q) :=
  if Nat.ltb n 1 then Raise (StatisticsError (py "n must be at least 1"))
  else
    let data := sorted data in
    let ld := List.length data in
    if Nat.ltb ld 2 then
      Raise (StatisticsError (py "must have at least two data points"))
    else Ok (map (cut_point data ld n) (seq 1 (n - 1))).

End statistics.

(* ================================================================== *)
(** ** tests/metrics.py *)

Module metrics.

Import pystr pyexc statistics.
Local Open Scope py_scope.
Local Open Scope list_scope.
Local Open Scope Q_scope.

Record RequestMetrics : Type := {
  request_id : Z;
  start_time : Q;
  end_time : Q;
  response_time : Q;
  status_code : Z;
  success : bool;
  server_type : str
}.

(** *** class PerformanceMetrics *)
Record PerformanceMetrics : Type := {
  requests : list RequestMetrics;
  test_start_time : Q;
  test_end_time : Q
}.

(** A value of the dictionary of metrics. *)
Inductive mvalue : Type :=
| Num (q : Q)
| Text (s : str).

(** [l[i]] *)
Definition index (l : list Q) (i : nat) : res Q :=
  match nth_error l i with
  | Some x => Ok x
  | None => Raise IndexError
  end.

(** [d[key]] for a numeric entry. *)
Definition lookup (key : str) (d : pydict.dict mvalue) : res Q :=
  match pydict.get key d with
  | Some (Num q) => Ok q
  | _ => Raise (KeyError key)
  end.

(** [d.update(other)] *)
Definition update (d other : pydict.dict mvalue) : pydict.dict mvalue :=
  fold_left (fun acc kv => pydict.set (fst kv) (snd kv) acc) other d.

Definition nonempty {A} (l : list A) : bool :=
  match l with [] => false | _ => true end.

Section WithClock.

(** [clock k] is what the [k]-th call of [time.time()] returns; a
    computation carries the number of calls made so far. *)
Variable clock : nat -> Q.
Variable sqrt : Q -> Q.
(** [datetime.now().isoformat()] *)
Variable now_iso : str.

Definition time_time : M nat Q := fun k => (Ok (clock k), S k).

(** The property [test_duration]. *)
Definition test_duration (self : PerformanceMetrics) : M nat Q :=
  if Qgtb (test_end_time self) (test_start_time self) then
    ret (test_end_time self - test_start_time self)
  else
    now <- time_time ;;
    ret (now - test_start_time self).

Definition _empty_metrics : pydict.dict mvalue :=
  [(py "total_requests", Num 0); (py "successful_requests", Num 0);
   (py "failed_requests", Num 0); (py "test_duration_seconds", Num 0);
   (py "success_rate", Num 0); (py "error_rate", Num 0);
   (py "mean_latency_seconds", Num 0); (py "mean_latency_ms", Num 0);
   (py "throughput_rps", Num 0); (py "server_type", Text (py "unknown"));
   (py "analysis_timestamp", Text now_iso)].

Definition _calculate_advanced_metrics (base_metrics : pydict.dict mvalue)
  : res (pydict.dict mvalue) :=
  mean_latency <~ lookup (py "mean_latency_seconds") base_metrics ;;
  throughput <~ lookup (py "throughput_rps") base_metrics ;;
  server_efficiency <~
    (if Qgtb mean_latency 0 then div throughput mean_latency else Ok 0) ;;
  processing_rate <~
    (if Qgtb mean_latency 0 then
       inv <~ div 1 mean_latency ;; Ok (throughput * inv)
     else Ok 0) ;;
  performance_index <~
    (mean_latency_ms <~ lookup (py "mean_latency_ms") base_metrics ;;
     if Qgtb mean_latency_ms 0 then
       mean_latency_ms <~ lookup (py "mean_latency_ms") base_metrics ;;
       div throughput mean_latency_ms
     else Ok 0) ;;
  Ok [(py "server_efficiency", Num server_efficiency);
      (py "processing_rate", Num processing_rate);
      (py "performance_index", Num performance_index)].

(** [x / n if n > 0 else 0] *)
Definition ratio (x n : Q) : res Q := if Qgtb n 0 then div x n else Ok 0.

(** [expr if latencies else 0] *)
Definition if_data (latencies : list Q) (expr : res Q) : res Q :=
  if nonempty latencies then expr else Ok 0.

(** [expr if len(latencies) > 1 else 0] *)
Definition if_many (latencies : list Q) (expr : res Q) : res Q :=
  if Nat.ltb 1 (List.length latencies) then expr else Ok 0.

Definition times (k : Q) (c : res Q) : res Q := x <~ c ;; Ok (x * k).

(** The entry [latency_p95_seconds]. *)
Definition latency_p95_seconds (latencies : list Q) : res Q :=
  if Nat.leb 20 (List.length latencies) then
    cuts <~ quantiles latencies 20 ;; index cuts 18
  else if nonempty latencies then Ok (list_max latencies)
  else Ok 0.

(** The entry [latency_p99_seconds]. *)
Definition latency_p99_seconds (latencies : list Q) : res Q :=
  if Nat.leb 100 (List.length latencies) then
    cuts <~ quantiles latencies 100 ;; index cuts 98
  else if nonempty latencies then Ok (list_max latencies)
  else Ok 0.

(** The entry [latency_cov]. *)
Definition latency_cov (latencies : list Q) : res Q :=
  cond <~ (if nonempty latencies then
             m <~ mean latencies ;; Ok (Qgtb m 0)
           else Ok false) ;;
  if (cond : bool) then
    s <~ stdev sqrt latencies ;;
    m <~ mean latencies ;;
    div s m
  else Ok 0.

(** [scale (x / self.test_duration) if self.test_duration > 0 else 0]:
    the property is read for the test and read again for the
    division. *)
Definition per_duration (self : PerformanceMetrics) (x : Q) (scale : Q -> Q)
  : M nat Q :=
  d <- test_duration self ;;
  if Qgtb d 0 then
    d' <- test_duration self ;;
    r <- lift (div x d') ;;
    ret (scale r)
  else ret 0.

Definition calculate_metrics (self : PerformanceMetrics)
  : M nat (pydict.dict mvalue) :=
  match requests self with
  | [] => ret _empty_metrics
  | first :: _ =>
      let total_requests := inject_Z (Z.of_nat (List.length (requests self))) in
      let successful_requests :=
        inject_Z (Z.of_nat (List.length (filter success (requests self)))) in
      let failed_requests := total_requests - successful_requests in
      let latencies := map response_time (requests self) in
      let successful_latencies :=
        map response_time (filter success (requests self)) in
      test_duration_seconds <- test_duration self ;;
      success_rate <- lift (ratio successful_requests total_requests) ;;
      error_rate <- lift (ratio failed_requests total_requests) ;;
      mean_latency_seconds <- lift (if_data latencies (mean latencies)) ;;
      mean_latency_ms <- lift (if_data latencies (times 1000 (mean latencies))) ;;
      median_latency_seconds <- lift (if_data latencies (median latencies)) ;;
      median_latency_ms <- lift (if_data latencies (times 1000 (median latencies))) ;;
      latency_std_seconds <- lift (if_many latencies (stdev sqrt latencies)) ;;
      latency_std_ms <- lift (if_many latencies (times 1000 (stdev sqrt latencies))) ;;
      min_latency_seconds <- lift (if_data latencies (Ok (list_min latencies))) ;;
      min_latency_ms <- lift (if_data latencies (Ok (list_min latencies * 1000))) ;;
      max_latency_seconds <- lift (if_data latencies (Ok (list_max latencies))) ;;
      max_latency_ms <- lift (if_data latencies (Ok (list_max latencies * 1000))) ;;
      p95 <- lift (latency_p95_seconds latencies) ;;
      p99 <- lift (latency_p99_seconds latencies) ;;
      throughput_rps <- per_duration self total_requests (fun r => r) ;;
      throughput_rpm <- per_duration self total_requests (fun r => r * 60) ;;
      successful_throughput_rps <-
        per_duration self successful_requests (fun r => r) ;;
      mean_service_time_seconds <-
        lift (if_data successful_latencies (mean successful_latencies)) ;;
      service_time_std_seconds <-
        lift (if_many successful_latencies (stdev sqrt successful_latencies)) ;;
      cov <- lift (latency_cov latencies) ;;
      let metrics :=
        [(py "total_requests", Num total_requests);
         (py "successful_requests", Num successful_requests);
         (py "failed_requests", Num failed_requests);
         (py "test_duration_seconds", Num test_duration_seconds);
         (py "success_rate", Num success_rate);
         (py "error_rate", Num error_rate);
         (py "mean_latency_seconds", Num mean_latency_seconds);
         (py "mean_latency_ms", Num mean_latency_ms);
         (py "median_latency_seconds", Num median_latency_seconds);
         (py "median_latency_ms", Num median_latency_ms);
         (py "latency_std_seconds", Num latency_std_seconds);
         (py "latency_std_ms", Num latency_std_ms);
         (py "min_latency_seconds", Num min_latency_seconds);
         (py "min_latency_ms", Num min_latency_ms);
         (py "max_latency_seconds", Num max_latency_seconds);
         (py "max_latency_ms", Num max_latency_ms);
         (py "latency_p95_seconds", Num p95);
         (py "latency_p99_seconds", Num p99);
         (py "throughput_rps", Num throughput_rps);
         (py "throughput_rpm", Num throughput_rpm);
         (py "successful_throughput_rps", Num successful_throughput_rps);
         (py "mean_service_time_seconds", Num mean_service_time_seconds);
         (py "service_time_std_seconds", Num service_time_std_seconds);
         (py "latency_cov", Num cov);
         (py "analysis_timestamp", Text now_iso);
         (py "server_type", Text (server_type first))] in
      advanced <- lift (_calculate_advanced_metrics metrics) ;;
      ret (update metrics advanced)
  end.

End WithClock.

End metrics.

(* ================================================================== *)
(** ** tests/test_scenarios.py *)

Module test_scenarios.

Import pystr.
Local Open Scope list_scope.

Inductive LoadType : Type := LIGHT | MEDIUM | HEAVY.

Inductive RequestType : Type := FAST | SLOW | MIXED.

Record TestScenario : Type := {
  name : str;
  description : str;
  load_type : LoadType;
  request_type : RequestType;
  num_clients : nat;
  requests_per_client : nat;
  delay_between_requests : Q;
  server_simulation_delay : Q
}.

(** The property [total_requests]. *)
Definition total_requests (self : TestScenario) : nat :=
  (num_clients self * requests_per_client self)%nat.

End test_scenarios.

(* ================================================================== *)
(** ** client/test_client.py *)

Module test_client.

Import pystr pyexc config http_utils.
Local Open Scope py_scope.
Local Open Scope list_scope.

(** *** class SimpleHTTPClient *)
Record SimpleHTTPClient : Type := {
  server_host : str;
  server_port : Z;
  client_id : Z;
  custom_id : str
}.

(** [SimpleHTTPClient(server_host, server_port, client_id)] *)
Definition SimpleHTTPClient_init (U : UnicodeDB) (cfg : Config)
           (server_host : str) (server_port client_id : Z)
  : res SimpleHTTPClient :=
  custom_id <~ crypto_utils.gerar_custom_id U cfg ;;
  Ok {| server_host := server_host; server_port := server_port;
        client_id := client_id; custom_id := custom_id |}.

(** The text that [send_request] builds, before it is encoded and
    sent. *)
Definition request_text (self : SimpleHTTPClient) (method path body : str)
  : res str :=
  let request_lines :=
    [method ++ py " " ++ path ++ py " HTTP/1.1";
     py "Host: " ++ server_host self ++ py ":" ++ str_of_Z (server_port self);
     py "X-Custom-ID: " ++ custom_id self;
     py "User-Agent: SimpleTestClient/1.0";
     py "Connection: close"] in
  request_lines <~
    (if truthy body then
       body_bytes <~ encode_utf8 body ;;
       Ok (request_lines
             ++ [py "Content-Length: "
                   ++ str_of_N (N.of_nat (List.length body_bytes));
                 py "Content-Type: text/plain; charset=utf-8"])
     else Ok request_lines) ;;
  let request_lines := request_lines ++ [[]] in
  let request_lines := request_lines ++ [if truthy body then body else []] in
  Ok (join crlf request_lines).

(** [request_data]: the bytes that are sent. *)
Definition request_data (self : SimpleHTTPClient) (method path body : str)
  : res (list N) :=
  text <~ request_text self method path body ;;
  encode_utf8 text.

(** The first argument of [_generate_request]: the source compares it
    with strings; [run_scenario] passes [scenario.request_type], a
    member of the enumeration [RequestType], which is equal to no
    string. *)
Inductive request_type_value : Type :=
| AsText (s : str)
| AsMember (m : test_scenarios.RequestType).

(** [request_type == s] for a string [s]. *)
Definition eq_text (v : request_type_value) (s : str) : bool :=
  match v with
  | AsText x => str_eqb x s
  | AsMember _ => false
  end.

Definition _generate_request (request_type : request_type_value) (req_idx : Z)
  : str * str * str :=
  if eq_text request_type (py "fast") then (py "GET", py "/", [])
  else if eq_text request_type (py "slow") then (py "GET", py "/status", [])
  else if eq_text request_type (py "post") then
    (py "POST", py "/echo", py "Test data " ++ str_of_Z req_idx)
  else if Z.eqb (req_idx mod 3) 0 then
    (py "POST", py "/echo", py "Data " ++ str_of_Z req_idx)
  else if Z.eqb (req_idx mod 3) 1 then (py "GET", py "/info", [])
  else (py "GET", py "/", []).

(** The requests that the inner loop of [run_scenario] generates for
    one client: [scenario.request_type] is passed as it is. *)
Definition generated_requests (scenario : test_scenarios.TestScenario)
  : list (str * str * str) :=
  map (fun req_idx =>
         _generate_request (AsMember (test_scenarios.request_type scenario))
                           (Z.of_nat req_idx))
      (seq 0 (test_scenarios.requests_per_client scenario)).

End test_client.

(* ================================================================== *)
(** ** Concrete requests and samples, for evaluation *)

Module examples.

Import pystr pyexc config pytime http_utils server_handlers.
Local Open Scope list_scope.

Definition env : Env :=
  {| utcnow_http := py "Wed, 04 Nov 2026 12:00:00 GMT";
     uptime_2f := py "1.50";
     uptime_repr := py "1.5";
     timestamp_repr := py "1793793600.0";
     localtime_text := py "2026-11-04 12:00:00" |}.

(** The identity token of the shipped configuration. *)
Definition token : str := py "5c31541dd9f364c46c15e84d0e53d7fe1a0cb250".

(** A request with the identity header, and one without it. *)
Definition with_token (request_line body : string) : str :=
  py request_line ++ crlf ++ py "X-Custom-ID: " ++ token ++ crlf ++ crlf
     ++ py body.

Definition without_token (request_line : string) : str :=
  py request_line ++ crlf ++ crlf.

(** [HTTPRequest(raw)] under the shipped configuration. *)
Definition request_of (raw : str) : HTTPRequest :=
  match HTTPRequest_init plain_db shipped raw with
  | Ok r => r
  | Raise _ => new_request raw
  end.

(** The requests the evaluations below are made on. *)
Definition head_root : str := with_token "HEAD / HTTP/1.1" "".
Definition get_root : str := with_token "GET / HTTP/1.1" "".
Definition post_hash_abc : str := with_token "POST /hash HTTP/1.1" "abc".
Definition post_echo_xyz : str := with_token "POST /echo HTTP/1.1" "xyz".
Definition put_without_token : str := without_token "PUT / HTTP/1.1".
Definition get_without_token : str := without_token "GET / HTTP/1.1".
Definition lower_case_get : str := without_token "get / HTTP/1.1".

Definition fresh_handlers : HTTPHandlers := HTTPHandlers_init.

Definition sequential : sequential_server.SequentialWebServer :=
  sequential_server.SequentialWebServer_init fresh_handlers.

Definition concurrent : concurrent_server.ConcurrentWebServer :=
  {| concurrent_server.handlers := fresh_handlers;
     concurrent_server.requests_processed := 0;
     concurrent_server.errors_count := 0;
     concurrent_server.active_connections := 1 |}.

(** A configuration with no name, and one with an unknown algorithm. *)
Definition nameless : Config :=
  {| MATRICULA := py "5217"; NOME_ALUNO := [];
     HASH_ALGORITHM := py "sha1" |}.

Definition sha256_config : Config :=
  {| MATRICULA := py "5217"; NOME_ALUNO := py "Marina Conrado Moreira Santos";
     HASH_ALGORITHM := py "sha256" |}.

(** Samples of a test run that lasted 1.9 seconds. *)
Definition sample (latency : Q) : metrics.RequestMetrics :=
  {| metrics.request_id := 0;
     metrics.start_time := 0;
     metrics.end_time := latency;
     metrics.response_time := latency;
     metrics.status_code := 200;
     metrics.success := true;
     metrics.server_type := py "sequential" |}.

Definition run_of (latencies : list Q) : metrics.PerformanceMetrics :=
  {| metrics.requests := map sample latencies;
     metrics.test_start_time := 0;
     metrics.test_end_time := 19 # 10 |}.

(** One request that took a tenth of a second. *)
Definition one_sample : metrics.PerformanceMetrics := run_of [1 # 10].

(** Latencies of 0.01, 0.02, ... seconds. *)
Definition hundredths (n : nat) : list Q :=
  map (fun i => inject_Z (Z.of_nat i) / 100) (seq 1 n).

Definition twenty_five_samples : metrics.PerformanceMetrics :=
  run_of (hundredths 25).

(** A clock that stands still, and a stand-in for [math.sqrt]; the
    entries that are evaluated below read neither. *)
Definition still_clock : nat -> Q := fun _ => 0.
Definition rational_root : Q -> Q := fun x => x.

(** Ten samples of 0.10, 0.11, ..., 0.19 seconds. *)
Definition ten_samples : metrics.PerformanceMetrics :=
  run_of (map (fun i => inject_Z (Z.of_nat i) / 100) (seq 10 10)).

(** An entry of the metrics of a run, in lowest terms. *)
Definition entry (self : metrics.PerformanceMetrics) (key : string)
  : option Q :=
  match metrics.calculate_metrics still_clock rational_root
          (py "2026-11-04T12:00:00") self 0%nat with
  | (Ok m, _) =>
      match pydict.get (py key) m with
      | Some (metrics.Num q) => Some (Qred q)
      | _ => None
      end
  | (Raise _, _) => None
  end.

(** A test that was started at second 5 and not ended, read by a clock
    that is set back between two readings. *)
Definition unended_run : metrics.PerformanceMetrics :=
  {| metrics.requests := map sample [1 # 10; 2 # 10];
     metrics.test_start_time := 5;
     metrics.test_end_time := 0 |}.

Definition clock_set_back : nat -> Q :=
  fun k => match k with 1%nat => 6 | _ => 5 end.

(** A request with an identity header, to parse under [nameless]. *)
Definition get_with_some_header : str :=
  py "GET / HTTP/1.1" ++ crlf ++ py "X-Custom-ID: abc" ++ crlf ++ crlf.

(** A request that ends without a blank line. *)
Definition unterminated_echo : str :=
  py "POST /echo HTTP/1.1" ++ crlf ++ py "X-Custom-ID: " ++ token.

(** A request with the identity header twice: a wrong value first, the
    token last, in other letter case and with spaces around it. *)
Definition repeated_identity_header : str :=
  py "GET / HTTP/1.1" ++ crlf ++ py "X-Custom-ID: wrong" ++ crlf
     ++ py "x-CUSTOM-id:   " ++ token ++ py "  " ++ crlf ++ crlf.

(** A client of the shipped configuration. *)
Definition client : test_client.SimpleHTTPClient :=
  {| test_client.server_host := py "localhost";
     test_client.server_port := 8080;
     test_client.client_id := 1;
     test_client.custom_id := token |}.

(** A scenario of the catalog of [tests/test_scenarios.py]. *)
Definition light_fast : test_scenarios.TestScenario :=
  {| test_scenarios.name := py "Carga Leve - Requisições Rápidas";
     test_scenarios.description :=
       py "Cenário com poucos clientes fazendo requisições rápidas (GET /)";
     test_scenarios.load_type := test_scenarios.LIGHT;
     test_scenarios.request_type := test_scenarios.FAST;
     test_scenarios.num_clients := 3;
     test_scenarios.requests_per_client := 20;
     test_scenarios.delay_between_requests := 1 # 10;
     test_scenarios.server_simulation_delay := 1 # 1000 |}.

End examples.

(* ================================================================== *)
(** * Properties *)

(** ** Text *)

Section TextFacts.

Import pystr.
Local Open Scope N_scope.
Local Open Scope list_scope.

Lemma str_eqb_eq (a b : str) : str_eqb a b = true <-> a = b.
Proof.
  unfold str_eqb. destruct (list_eq_dec N.eq_dec a b); split; congruence.
Qed.

Lemma str_eqb_refl (a : str) : str_eqb a a = true.
Proof. now apply str_eqb_eq. Qed.

Lemma str_eqb_neq (a b : str) : str_eqb a b = false <-> a <> b.
Proof.
  unfold str_eqb. destruct (list_eq_dec N.eq_dec a b); split; congruence.
Qed.

Lemma truthy_false (s : str) : truthy s = false <-> s = [].
Proof. destruct s; simpl; split; congruence. Qed.

Lemma encodable_app (a b : str) :
  encodable (a ++ b) = encodable a && encodable b.
Proof. apply forallb_app. Qed.

Lemma encodable_app_true (a b : str) :
  encodable a = true -> encodable b = true -> encodable (a ++ b) = true.
Proof. intros Ha Hb. now rewrite encodable_app, Ha, Hb. Qed.

Lemma encodable_cons (c : N) (s : str) :
  encodable (c :: s) = is_scalar c && encodable s.
Proof. reflexivity. Qed.

Lemma encodable_rev (s : str) : encodable (rev s) = encodable s.
Proof.
  induction s as [|c s IH]; [reflexivity|].
  simpl rev. rewrite encodable_app, IH. simpl.
  rewrite andb_true_r. apply andb_comm.
Qed.

Lemma all_encodable_app (l1 l2 : list str) :
  forallb encodable (l1 ++ l2) = forallb encodable l1 && forallb encodable l2.
Proof. apply forallb_app. Qed.

Lemma encodable_join (sep : str) (l : list str) :
  encodable sep = true -> forallb encodable l = true ->
  encodable (join sep l) = true.
Proof.
  intros Hsep. induction l as [|p rest IH]; [reflexivity|].
  intros H. simpl in H. apply andb_true_iff in H as [Hp Hrest].
  simpl. destruct rest as [|q rest']; [exact Hp|].
  rewrite !encodable_app, Hp, Hsep. simpl. apply IH, Hrest.
Qed.

Lemma is_scalar_small (c : N) : c < 0xD800 -> is_scalar c = true.
Proof.
  intros H. unfold is_scalar.
  apply andb_true_iff. split.
  - apply orb_true_iff. left. now apply N.ltb_lt.
  - apply N.leb_le. lia.
Qed.

Lemma encodable_digits (fuel : nat) (n : N) (acc : str) :
  encodable acc = true -> encodable (digits_from fuel n acc) = true.
Proof.
  revert n acc. induction fuel as [|k IH]; intros n acc Hacc; simpl; [exact Hacc|].
  assert (Hd : encodable ((48 + n mod 10) :: acc) = true).
  { rewrite encodable_cons, Hacc, andb_true_r. apply is_scalar_small.
    pose proof (N.mod_lt n 10). lia. }
  destruct (n <? 10); [exact Hd | now apply IH].
Qed.

Lemma encodable_str_of_N (n : N) : encodable (str_of_N n) = true.
Proof. now apply encodable_digits. Qed.

Lemma encodable_str_of_Z (z : Z) : encodable (str_of_Z z) = true.
Proof.
  destruct z as [|p|p]; unfold str_of_Z.
  - apply encodable_str_of_N.
  - apply encodable_str_of_N.
  - change (is_scalar 45 && encodable (str_of_N (N.pos p)) = true).
    now rewrite encodable_str_of_N.
Qed.

Lemma all_encodable_cons_head (c : N) (l : list str) :
  is_scalar c = true -> forallb encodable l = true ->
  forallb encodable (cons_head c l) = true.
Proof.
  intros Hc Hl. destruct l as [|h t]; simpl in *.
  - now rewrite Hc.
  - apply andb_true_iff in Hl as [Hh Ht]. now rewrite Hc, Hh, Ht.
Qed.

Lemma split_crlf_encodable_aux (n : nat) (s : str) :
  (List.length s <= n)%nat -> encodable s = true ->
  forallb encodable (split_crlf s) = true.
Proof.
  revert s. induction n as [|n IH]; intros s Hlen Hs.
  - destruct s; [reflexivity | simpl in Hlen; lia].
  - destruct s as [|c r]; [reflexivity|].
    simpl in Hlen. rewrite encodable_cons in Hs.
    apply andb_true_iff in Hs as [Hc Hr].
    simpl. destruct r as [|d r'].
    + simpl. now rewrite Hc.
    + destruct ((c =? 13) && (d =? 10)).
      * simpl. apply IH; [simpl in Hlen; lia|].
        rewrite encodable_cons in Hr. now apply andb_true_iff in Hr.
      * apply all_encodable_cons_head; [exact Hc|]. apply IH; [lia | exact Hr].
Qed.

Lemma split_crlf_encodable (s : str) :
  encodable s = true -> forallb encodable (split_crlf s) = true.
Proof. apply (split_crlf_encodable_aux (List.length s)). lia. Qed.

Lemma split_crlf_nonempty (s : str) : split_crlf s <> [].
Proof.
  assert (H : forall n s, (List.length s <= n)%nat -> split_crlf s <> []).
  { induction n as [|n IH]; intros s' Hlen.
    - destruct s'; [discriminate | simpl in Hlen; lia].
    - destruct s' as [|c r]; [discriminate|].
      simpl. destruct r as [|d r']; [discriminate|].
      destruct ((c =? 13) && (d =? 10)); [discriminate|].
      simpl in Hlen. specialize (IH (d :: r') ltac:(simpl in *; lia)).
      destruct (split_crlf (d :: r')); [contradiction | discriminate]. }
  apply (H (List.length s)). lia.
Qed.

Lemma lstrip_encodable (s : str) :
  encodable s = true -> encodable (lstrip s) = true.
Proof.
  induction s as [|c r IH]; [reflexivity|].
  intros H. simpl. destruct (isspace c); [|exact H].
  apply IH. rewrite encodable_cons in H. now apply andb_true_iff in H.
Qed.

Lemma strip_encodable (s : str) :
  encodable s = true -> encodable (strip s) = true.
Proof.
  intros H. unfold strip, rstrip.
  rewrite encodable_rev. apply lstrip_encodable.
  rewrite encodable_rev. now apply lstrip_encodable.
Qed.

Lemma split_ws_from_encodable (s cur : str) :
  encodable cur = true -> encodable s = true ->
  forallb encodable (split_ws_from cur s) = true.
Proof.
  revert cur. induction s as [|c r IH]; intros cur Hcur Hs; simpl.
  - destruct (truthy cur); simpl; [now rewrite Hcur | reflexivity].
  - rewrite encodable_cons in Hs. apply andb_true_iff in Hs as [Hc Hr].
    destruct (isspace c).
    + destruct (truthy cur); simpl; [rewrite Hcur; simpl|]; now apply IH.
    + apply IH; [|exact Hr]. rewrite encodable_app, Hcur. simpl. now rewrite Hc.
Qed.

Lemma split_ws_encodable (s : str) :
  encodable s = true -> forallb encodable (split_ws s) = true.
Proof. now apply split_ws_from_encodable. Qed.

(** The tokens of [s.split()] are not empty. *)
Lemma split_ws_from_truthy (s cur : str) :
  forallb truthy (split_ws_from cur s) = true.
Proof.
  revert cur. induction s as [|c r IH]; intros cur; simpl.
  - destruct (truthy cur) eqn:E; simpl; [now rewrite E | reflexivity].
  - destruct (isspace c).
    + destruct (truthy cur) eqn:E; simpl; [rewrite E; simpl|]; apply IH.
    + apply IH.
Qed.

Lemma all_encodable_skipn (k : nat) (l : list str) :
  forallb encodable l = true -> forallb encodable (skipn k l) = true.
Proof.
  revert l. induction k as [|k IH]; intros l H; [exact H|].
  destruct l as [|x r]; [reflexivity|].
  simpl in *. apply IH. now apply andb_true_iff in H.
Qed.

Lemma encode_utf8_ok (s : str) :
  encodable s = true -> pyexc.encode_utf8 s = pyexc.Ok (flat_map utf8_char s).
Proof. intros H. unfold pyexc.encode_utf8. now rewrite H. Qed.

Lemma encode_utf8_fails (s : str) :
  encodable s = false -> pyexc.encode_utf8 s = pyexc.Raise pyexc.UnicodeEncodeError.
Proof. intros H. unfold pyexc.encode_utf8. now rewrite H. Qed.

End TextFacts.

(** ** Digests and JSON text can be encoded *)

Section DigestFacts.

Import pystr hashlib.
Local Open Scope N_scope.
Local Open Scope list_scope.

Lemma le_bytes_bytes (k : nat) (n : N) : all_bytes (le_bytes k n) = true.
Proof.
  revert n. induction k as [|k IH]; intros n; [reflexivity|].
  simpl. unfold all_bytes in *. simpl. rewrite IH, andb_true_r.
  apply N.ltb_lt. now apply N.mod_lt.
Qed.

Lemma all_bytes_rev (l : list N) : all_bytes (rev l) = all_bytes l.
Proof.
  induction l as [|b r IH]; [reflexivity|].
  unfold all_bytes in *. simpl. rewrite forallb_app, IH. simpl.
  rewrite andb_true_r. apply andb_comm.
Qed.

Lemma be_bytes_bytes (k : nat) (n : N) : all_bytes (be_bytes k n) = true.
Proof. unfold be_bytes. rewrite all_bytes_rev. apply le_bytes_bytes. Qed.

Lemma all_bytes_app (a b : list N) :
  all_bytes (a ++ b) = all_bytes a && all_bytes b.
Proof. apply forallb_app. Qed.

Lemma md5_bytes (data : list N) : all_bytes (md5 data) = true.
Proof.
  unfold md5.
  destruct (fold_left md5_block _ _) as [[[a b] c] d].
  now rewrite !all_bytes_app, !le_bytes_bytes.
Qed.

Lemma sha1_bytes (data : list N) : all_bytes (sha1 data) = true.
Proof.
  unfold sha1.
  destruct (fold_left sha1_block _ _) as [[[[a b] c] d] e].
  now rewrite !all_bytes_app, !be_bytes_bytes.
Qed.

Lemma hex_digit_scalar (d : N) : d < 16 -> is_scalar (hex_digit d) = true.
Proof.
  intros H. apply is_scalar_small. unfold hex_digit.
  destruct (d <? 10); lia.
Qed.

Lemma hexdigest_encodable (digest : list N) :
  all_bytes digest = true -> encodable (hexdigest digest) = true.
Proof.
  induction digest as [|b r IH]; [reflexivity|].
  intros H. unfold all_bytes in H. simpl in H.
  apply andb_true_iff in H as [Hb Hr]. apply N.ltb_lt in Hb.
  unfold hexdigest. simpl flat_map.
  change (is_scalar (hex_digit (b / 16))
          && (is_scalar (hex_digit (b mod 16)) && encodable (hexdigest r)) = true).
  rewrite IH by exact Hr.
  rewrite !hex_digit_scalar; [reflexivity | |].
  - now apply N.mod_lt.
  - apply N.Div0.div_lt_upper_bound. lia.
Qed.

End DigestFacts.

Section JsonFacts.

Import pystr json.
Local Open Scope N_scope.
Local Open Scope list_scope.

Lemma escape_char_encodable (c : N) :
  is_scalar c = true -> encodable (escape_char c) = true.
Proof.
  intros Hc. unfold escape_char.
  repeat match goal with
         | |- context [if ?b then _ else _] => destruct b eqn:?
         end; try reflexivity.
  - rewrite encodable_app. simpl.
    apply N.ltb_lt in Heqb6.
    rewrite !hex_digit_scalar; [reflexivity| |].
    + now apply N.mod_lt.
    + apply N.Div0.div_lt_upper_bound. lia.
  - simpl. now rewrite Hc.
Qed.

Lemma quote_encodable (s : str) :
  encodable s = true -> encodable (quote s) = true.
Proof.
  intros H. unfold quote. rewrite !encodable_app. simpl.
  rewrite andb_true_r.
  induction s as [|c r IH]; [reflexivity|].
  rewrite encodable_cons in H. apply andb_true_iff in H as [Hc Hr].
  simpl. rewrite encodable_app, escape_char_encodable by exact Hc.
  now apply IH.
Qed.

Lemma newline_indent_encodable (lvl : nat) :
  encodable (newline_indent lvl) = true.
Proof.
  unfold newline_indent. rewrite encodable_cons.
  change (is_scalar 10) with true. rewrite andb_true_l.
  induction (2 * lvl)%nat as [|k IH]; [reflexivity | exact IH].
Qed.

Lemma dumps_at_encodable (v : value) :
  forall lvl : nat,
    value_encodable v = true -> encodable (dumps_at lvl v) = true.
Proof.
  induction v as [s|n|r|items IH|items IH] using value_nested_ind;
    intros lvl Hv.
  - simpl. now apply quote_encodable.
  - simpl. apply encodable_str_of_Z.
  - exact Hv.
  - destruct items as [|x rest]; [reflexivity|].
    change (dumps_at lvl (JList (x :: rest)))
      with (py "[" ++ newline_indent (S lvl)
              ++ join (py "," ++ newline_indent (S lvl))
                      (map (dumps_at (S lvl)) (x :: rest))
              ++ newline_indent lvl ++ py "]").
    rewrite !encodable_app, !newline_indent_encodable.
    rewrite encodable_join; [reflexivity | | ].
    + now rewrite encodable_app, newline_indent_encodable.
    + change (forallb value_encodable (x :: rest) = true) in Hv.
      revert Hv. induction IH as [|y l Hy _ IHl]; [reflexivity|].
      cbn [map forallb] in *. intros H. apply andb_true_iff in H as [Hy' Hl].
      rewrite (Hy (S lvl) Hy'). now apply IHl.
  - destruct items as [|x rest]; [reflexivity|].
    change (dumps_at lvl (JDict (x :: rest)))
      with (py "{" ++ newline_indent (S lvl)
              ++ join (py "," ++ newline_indent (S lvl))
                      (map (fun kv => quote (fst kv) ++ py ": "
                                        ++ dumps_at (S lvl) (snd kv))
                           (x :: rest))
              ++ newline_indent lvl ++ py "}").
    rewrite !encodable_app, !newline_indent_encodable.
    rewrite encodable_join; [reflexivity | | ].
    + now rewrite encodable_app, newline_indent_encodable.
    + change (forallb (fun kv => encodable (fst kv) && value_encodable (snd kv))
                      (x :: rest) = true) in Hv.
      revert Hv. induction IH as [|[k y] l Hy _ IHl]; [reflexivity|].
      cbn [map forallb fst snd] in *. intros H. apply andb_true_iff in H as [Hy' Hl].
      apply andb_true_iff in Hy' as [Hk Hy'].
      rewrite !encodable_app, (quote_encodable _ Hk), (Hy (S lvl) Hy').
      now apply IHl.
Qed.

Lemma dumps_encodable (v : value) :
  value_encodable v = true -> encodable (dumps v) = true.
Proof. apply dumps_at_encodable. Qed.

End JsonFacts.

(** ** Dictionaries *)

Section DictFacts.

Import pystr.
Variable V : Type.

Lemma dict_get_set_same (k : str) (v : V) (d : pydict.dict V) :
  pydict.get k (pydict.set k v d) = Some v.
Proof.
  induction d as [|[k' v'] r IH]; simpl.
  - now rewrite str_eqb_refl.
  - destruct (str_eqb k k') eqn:E; simpl; rewrite E; [reflexivity | exact IH].
Qed.

Lemma dict_get_set_other (k k' : str) (v : V) (d : pydict.dict V) :
  str_eqb k k' = false ->
  pydict.get k (pydict.set k' v d) = pydict.get k d.
Proof.
  intros Hne. induction d as [|[k2 v2] r IH]; simpl.
  - now rewrite Hne.
  - destruct (str_eqb k' k2) eqn:E; simpl.
    + apply str_eqb_eq in E. subst k2. now rewrite Hne.
    + destruct (str_eqb k k2); [reflexivity | exact IH].
Qed.

Lemma dict_has_get (k : str) (d : pydict.dict V) :
  pydict.has k d = true <-> exists v, pydict.get k d = Some v.
Proof.
  induction d as [|[k' v'] r IH]; simpl.
  - split; [discriminate | intros [v H]; discriminate].
  - destruct (str_eqb k k'); simpl.
    + split; [eauto | reflexivity].
    + exact IH.
Qed.

Lemma dict_has_false_get (k : str) (d : pydict.dict V) :
  pydict.has k d = false <-> pydict.get k d = None.
Proof.
  induction d as [|[k' v'] r IH]; simpl.
  - split; reflexivity.
  - destruct (str_eqb k k'); simpl; [split; discriminate | exact IH].
Qed.

End DictFacts.

(** ** Responses *)

Section ResponseFacts.

Import pystr pyexc pytime http_utils.
Local Open Scope list_scope.
Local Open Scope Z_scope.

Lemma set_body_ok (content content_type : str) (r : HTTPResponse) :
  encodable content = true ->
  exists resp, set_body content content_type r = Ok resp
               /\ status_code resp = status_code r
               /\ resp_body resp = content
               /\ pydict.get (py "Content-Type") (resp_headers resp)
                  = Some content_type.
Proof.
  intros H. unfold set_body. rewrite (encode_utf8_ok _ H).
  eexists. split; [reflexivity|]. cbn [rbind status_code resp_body].
  repeat split.
  cbn [set_header assign_body resp_headers].
  rewrite dict_get_set_other by reflexivity.
  apply dict_get_set_same.
Qed.

Lemma set_body_fails (content content_type : str) (r : HTTPResponse) :
  encodable content = false ->
  set_body content content_type r = Raise UnicodeEncodeError.
Proof. intros H. unfold set_body. now rewrite (encode_utf8_fails _ H). Qed.

Lemma status_message_of_encodable (code : Z) :
  encodable (status_message_of code status_messages) = true.
Proof.
  unfold status_messages. simpl.
  repeat match goal with
         | |- context [if ?b then _ else _] => destruct b
         end; reflexivity.
Qed.

Lemma error_html_encodable (code : Z) (sm : str) (message : option str) :
  encodable sm = true -> encodable (or_empty message) = true ->
  encodable (error_html code sm message) = true.
Proof.
  intros Hsm Hmsg. unfold error_html.
  apply encodable_join; [reflexivity|].
  rewrite !all_encodable_app.
  cbn [forallb].
  rewrite !encodable_app, !encodable_str_of_Z, Hsm.
  destruct (truthy_opt message); cbn [forallb];
    rewrite ?encodable_app, ?Hmsg; reflexivity.
Qed.

Lemma create_error_response_ok (env : Env) (code : Z) (message : option str) :
  encodable (or_empty message) = true ->
  exists resp, create_error_response env code message = Ok resp
               /\ status_code resp = code.
Proof.
  intros H. unfold create_error_response.
  destruct (set_body_ok (error_html code (status_message_of code status_messages) message)
              html_utf8
              (HTTPResponse_init env code (status_message_of code status_messages)))
    as (resp & Hr & Hs & _).
  - apply error_html_encodable; [apply status_message_of_encodable | exact H].
  - exists resp. split; [exact Hr | exact Hs].
Qed.

End ResponseFacts.

(** ** Parsing *)

Section ParseFacts.

Import pystr pyexc config http_utils.
Local Open Scope list_scope.

Variable U : UnicodeDB.
Variable cfg : Config.

Lemma parse_request_try_result (raw : str) :
  parse_request_try U cfg (new_request raw) =
  match pydict.get (py "x-custom-id") (parsed_headers U raw) with
  | Some custom_id =>
      match crypto_utils.validar_custom_id U cfg custom_id with
      | Ok b => (Ok tt, set_custom_id_valid b (parsed_before_check U raw))
      | Raise e => (Raise e, parsed_before_check U raw)
      end
  | None => (Ok tt, parsed_before_check U raw)
  end.
Proof.
  unfold parse_request_try, parsed_before_check, line_method, line_path,
    line_version, parsed_headers, parsed_body, header_scan, request_tokens.
  unfold bind, get, modify, ret, lift, new_request.
  cbn [raw_request].
  destruct (split_crlf raw) as [|line0 rest] eqn:Hl.
  { exfalso. exact (split_crlf_nonempty raw Hl). }
  cbn [hd tl].
  destruct (scan_headers 1 rest []) as [header_lines body_start] eqn:Hs.
  cbn [fst snd].
  destruct (split_ws (strip line0)) as [|p0 [|p1 [|p2 more]]];
    destruct (Nat.ltb body_start (List.length (line0 :: rest)));
    cbn [headers set_request_line set_headers set_req_body set_valid
         set_custom_id_valid method path version body valid
         custom_id_valid raw_request];
    destruct (pydict.get (py "x-custom-id") (fold_left (add_header U) header_lines []))
      as [custom_id|];
    try reflexivity;
    match goal with
    | |- context [crypto_utils.validar_custom_id U cfg ?c] =>
        destruct (crypto_utils.validar_custom_id U cfg c)
    end; reflexivity.
Qed.

(** What [HTTPRequest(raw)] returns: the [except] clause clears [valid]
    and keeps what the [try] had assigned. *)
Lemma HTTPRequest_init_result (raw : str) :
  HTTPRequest_init U cfg raw =
  Ok match pydict.get (py "x-custom-id") (parsed_headers U raw) with
     | Some custom_id =>
         match crypto_utils.validar_custom_id U cfg custom_id with
         | Ok b => set_custom_id_valid b (parsed_before_check U raw)
         | Raise _ => set_valid false (parsed_before_check U raw)
         end
     | None => parsed_before_check U raw
     end.
Proof.
  unfold HTTPRequest_init, _parse_request, try_except.
  rewrite parse_request_try_result.
  destruct (pydict.get (py "x-custom-id") (parsed_headers U raw)) as [c|];
    [|reflexivity].
  destruct (crypto_utils.validar_custom_id U cfg c); reflexivity.
Qed.

Lemma HTTPRequest_init_total (raw : str) :
  exists r, HTTPRequest_init U cfg raw = Ok r.
Proof. rewrite HTTPRequest_init_result. eauto. Qed.

Lemma validar_custom_id_cases (custom_id : str) :
  (exists tok, crypto_utils.gerar_custom_id U cfg = Ok tok
               /\ crypto_utils.validar_custom_id U cfg custom_id
                  = Ok (str_eqb custom_id tok))
  \/ (exists e, crypto_utils.gerar_custom_id U cfg = Raise e
                /\ crypto_utils.validar_custom_id U cfg custom_id = Raise e).
Proof.
  unfold crypto_utils.validar_custom_id.
  destruct (crypto_utils.gerar_custom_id U cfg) as [tok|e]; [left|right]; eauto.
Qed.

(** The attributes of the request line do not depend on the headers. *)
Lemma parsed_request_line (raw : str) (r : HTTPRequest) :
  HTTPRequest_init U cfg raw = Ok r ->
  raw_request r = raw /\ method r = line_method U raw
  /\ path r = line_path raw /\ version r = line_version raw
  /\ headers r = parsed_headers U raw /\ body r = parsed_body raw.
Proof.
  rewrite HTTPRequest_init_result. intros H. injection H as <-.
  destruct (pydict.get (py "x-custom-id") (parsed_headers U raw)) as [c|].
  - destruct (crypto_utils.validar_custom_id U cfg c); repeat split.
  - repeat split.
Qed.

Lemma request_tokens_truthy (raw : str) :
  forallb truthy (request_tokens raw) = true.
Proof. apply split_ws_from_truthy. Qed.

Lemma parsed_before_check_valid (raw : str) :
  valid (parsed_before_check U raw) = line_ok U raw.
Proof.
  unfold parsed_before_check, line_ok, line_method, line_path, line_version.
  cbn [valid].
  pose proof (request_tokens_truthy raw) as Ht.
  destruct (request_tokens raw) as [|p0 [|p1 [|p2 more]]]; try reflexivity.
  cbn [forallb] in Ht.
  apply andb_true_iff in Ht as [_ Ht].
  apply andb_true_iff in Ht as [H1 Ht].
  apply andb_true_iff in Ht as [H2 _].
  cbn [opt_in truthy_opt]. now rewrite H1, H2, !andb_true_r.
Qed.

Lemma parsed_valid (raw : str) (r : HTTPRequest) :
  HTTPRequest_init U cfg raw = Ok r ->
  valid r = line_ok U raw
            && (negb (pydict.has (py "x-custom-id") (headers r))
                || is_ok (crypto_utils.gerar_custom_id U cfg)).
Proof.
  intros H. destruct (parsed_request_line raw r H) as (_ & _ & _ & _ & Hh & _).
  rewrite Hh. revert H. rewrite HTTPRequest_init_result. intros H.
  injection H as <-.
  destruct (pydict.get (py "x-custom-id") (parsed_headers U raw)) as [c|] eqn:Hg.
  - assert (Hhas : pydict.has (py "x-custom-id") (parsed_headers U raw) = true).
    { apply dict_has_get. eauto. }
    rewrite Hhas. cbn [negb orb].
    destruct (validar_custom_id_cases c) as [(tok & Hgen & Hv)|(e & Hgen & Hv)];
      rewrite Hv, Hgen; cbn [is_ok valid set_custom_id_valid set_valid].
    + now rewrite parsed_before_check_valid, andb_true_r.
    + now rewrite andb_false_r.
  - apply dict_has_false_get in Hg. rewrite Hg. cbn [negb orb].
    now rewrite parsed_before_check_valid, andb_true_r.
Qed.

Lemma parsed_custom_id_valid (raw : str) (r : HTTPRequest) :
  HTTPRequest_init U cfg raw = Ok r ->
  custom_id_valid r = true ->
  exists tok, crypto_utils.gerar_custom_id U cfg = Ok tok
              /\ pydict.get (py "x-custom-id") (headers r) = Some tok.
Proof.
  intros H. destruct (parsed_request_line raw r H) as (_ & _ & _ & _ & Hh & _).
  rewrite Hh. revert H. rewrite HTTPRequest_init_result. intros H.
  injection H as <-.
  destruct (pydict.get (py "x-custom-id") (parsed_headers U raw)) as [c|] eqn:Hg.
  - destruct (validar_custom_id_cases c) as [(tok & Hgen & Hv)|(e & Hgen & Hv)];
      rewrite Hv; cbn [custom_id_valid set_custom_id_valid set_valid parsed_before_check].
    + intros E. apply str_eqb_eq in E. subst c. eauto.
    + discriminate.
  - discriminate.
Qed.

End ParseFacts.

(** ** Handlers *)

Section HandlerFacts.

Import pystr pyexc config pytime http_utils server_handlers.
Local Open Scope list_scope.
Local Open Scope Z_scope.

Variable U : UnicodeDB.
Variable cfg : Config.
Variable env : Env.

Ltac run_monad :=
  cbv beta iota delta [bind modify get lift ret try_except].

Ltac split_ifs :=
  repeat match goal with
         | |- context [if ?b then _ else _] => destruct b eqn:?
         end.

(** *** The counter of the handlers *)

Lemma handle_get_state (r : HTTPRequest) (h : HTTPHandlers) :
  snd (handle_get U cfg env r h) = count_request h.
Proof.
  unfold handle_get. run_monad. split_ifs; try reflexivity.
  destruct (crypto_utils.gerar_custom_id U cfg); reflexivity.
Qed.

Lemma handle_post_state (r : HTTPRequest) (h : HTTPHandlers) :
  snd (handle_post env r h) = count_request h.
Proof.
  unfold handle_post. run_monad. split_ifs; try reflexivity.
  destruct (encode_utf8 (or_empty (body r))); reflexivity.
Qed.

Lemma handle_head_state (r : HTTPRequest) (h : HTTPHandlers) :
  snd (handle_head U cfg env r h) =
  if opt_in (path r) [py "/"; py "/status"; py "/info"; py "/time"]
  then count_request (count_request h)
  else count_request h.
Proof.
  unfold handle_head. run_monad.
  destruct (opt_in (path r) _).
  - pose proof (handle_get_state r (count_request h)) as Hs.
    destruct (handle_get U cfg env r (count_request h)) as [[resp|e] h'];
      cbn [snd] in *; exact Hs.
  - destruct (create_error_response env 404 _); reflexivity.
Qed.

(** *** What the handlers return *)

Lemma gerar_custom_id_encodable (tok : str) :
  crypto_utils.gerar_custom_id U cfg = Ok tok -> encodable tok = true.
Proof.
  unfold crypto_utils.gerar_custom_id, crypto_utils.calcular_hash_aluno.
  split_ifs; try discriminate;
    destruct (encode_utf8 _); cbn [rbind]; try discriminate;
    intros H; injection H as <-; apply hexdigest_encodable.
  - apply md5_bytes.
  - apply sha1_bytes.
Qed.

Lemma env_encodable_fields :
  env_encodable env = true ->
  encodable (utcnow_http env) = true /\ encodable (uptime_2f env) = true
  /\ encodable (uptime_repr env) = true /\ encodable (timestamp_repr env) = true
  /\ encodable (localtime_text env) = true.
Proof.
  unfold env_encodable. intros H.
  repeat (apply andb_true_iff in H; destruct H as [H ?]). auto.
Qed.

Lemma index_html_encodable (served : Z) :
  encodable (uptime_2f env) = true ->
  encodable (index_html env served) = true.
Proof.
  intros H. unfold index_html.
  apply encodable_join; [reflexivity|].
  cbn [forallb]. rewrite !encodable_app, encodable_str_of_Z, H.
  reflexivity.
Qed.

Lemma status_data_encodable (served : Z) :
  env_encodable env = true ->
  json.value_encodable (status_data env served) = true.
Proof.
  intros H. destruct (env_encodable_fields H) as (_ & _ & H1 & H2 & _).
  unfold status_data, endpoint.
  cbn [json.value_encodable forallb fst snd]. rewrite H1, H2. reflexivity.
Qed.

Lemma info_data_encodable (custom_id : str) :
  encodable custom_id = true ->
  json.value_encodable (info_data custom_id) = true.
Proof.
  intros H. unfold info_data.
  cbn [json.value_encodable forallb fst snd]. rewrite H. reflexivity.
Qed.

Lemma time_data_encodable :
  env_encodable env = true -> json.value_encodable (time_data env) = true.
Proof.
  intros H. destruct (env_encodable_fields H) as (_ & _ & H1 & H2 & H3).
  unfold time_data.
  cbn [json.value_encodable forallb fst snd]. rewrite H1, H2, H3. reflexivity.
Qed.

Lemma hash_data_encodable (body md5_hash sha1_hash : str) :
  encodable body = true -> encodable md5_hash = true ->
  encodable sha1_hash = true ->
  json.value_encodable (hash_data body md5_hash sha1_hash) = true.
Proof.
  intros H1 H2 H3. unfold hash_data.
  cbn [json.value_encodable forallb fst snd]. rewrite H1, H2, H3. reflexivity.
Qed.

Lemma set_json_body_ok (data : json.value) (r : HTTPResponse) :
  json.value_encodable data = true ->
  exists resp, set_json_body data r = Ok resp
               /\ status_code resp = status_code r
               /\ resp_body resp = json.dumps data
               /\ pydict.get (py "Content-Type") (resp_headers resp)
                  = Some (py "application/json; charset=utf-8").
Proof.
  intros H. apply set_body_ok. now apply dumps_encodable.
Qed.

Lemma not_found_message_encodable (p : option str) :
  encodable (fmt_opt p) = true ->
  encodable (py "Path '" ++ fmt_opt p ++ py "' não encontrado") = true.
Proof. intros H. now rewrite !encodable_app, H. Qed.

Lemma handle_get_returns (r : HTTPRequest) (h : HTTPHandlers) :
  env_encodable env = true ->
  encodable (fmt_opt (path r)) = true ->
  is_ok (crypto_utils.gerar_custom_id U cfg) = true ->
  exists resp, fst (handle_get U cfg env r h) = Ok resp
               /\ (status_code resp = 200 \/ status_code resp = 404).
Proof.
  intros Henv Hpath Hgen.
  destruct (env_encodable_fields Henv) as (_ & Hup & _).
  unfold handle_get. run_monad.
  destruct (opt_eqb (path r) (py "/")).
  { unfold create_success_response.
    destruct (set_body_ok (index_html env (requests_served (count_request h)))
                html_utf8 (HTTPResponse_init env 200 (py "OK")))
      as (resp & -> & Hs & _); [now apply index_html_encodable|].
    exists resp. split; [reflexivity | now left]. }
  destruct (opt_eqb (path r) (py "/status")).
  { destruct (set_json_body_ok (status_data env (requests_served (count_request h)))
                (HTTPResponse_init env 200 (py "OK")))
      as (resp & -> & Hs & _); [now apply status_data_encodable|].
    exists resp. split; [reflexivity | now left]. }
  destruct (opt_eqb (path r) (py "/info")).
  { destruct (crypto_utils.gerar_custom_id U cfg) as [tok|e] eqn:Hg;
      [|discriminate].
    destruct (set_json_body_ok (info_data tok) (HTTPResponse_init env 200 (py "OK")))
      as (resp & -> & Hs & _).
    { apply info_data_encodable. now apply gerar_custom_id_encodable. }
    exists resp. split; [reflexivity | now left]. }
  destruct (opt_eqb (path r) (py "/time")).
  { destruct (set_json_body_ok (time_data env) (HTTPResponse_init env 200 (py "OK")))
      as (resp & -> & Hs & _); [now apply time_data_encodable|].
    exists resp. split; [reflexivity | now left]. }
  destruct (create_error_response_ok env 404
              (Some (py "Path '" ++ fmt_opt (path r) ++ py "' não encontrado")))
    as (resp & -> & Hs).
  { now apply not_found_message_encodable. }
  exists resp. split; [reflexivity | now right].
Qed.

Lemma handle_post_returns (r : HTTPRequest) (h : HTTPHandlers) :
  encodable (fmt_opt (path r)) = true ->
  encodable (or_empty (body r)) = true ->
  exists resp, fst (handle_post env r h) = Ok resp
               /\ (status_code resp = 200 \/ status_code resp = 400
                   \/ status_code resp = 405).
Proof.
  intros Hpath Hbody.
  unfold handle_post. run_monad.
  destruct (opt_eqb (path r) (py "/echo")).
  { destruct (truthy_opt (body r)).
    - destruct (set_body_ok (or_empty (body r)) (py "text/plain; charset=utf-8")
                  (HTTPResponse_init env 200 (py "OK")))
        as (resp & -> & Hs & _); [exact Hbody|].
      exists resp. split; [reflexivity | now left].
    - destruct (create_error_response_ok env 400
                  (Some (py "Corpo da requisição vazio")))
        as (resp & -> & Hs); [reflexivity|].
      exists resp. split; [reflexivity | now right; left]. }
  destruct (opt_eqb (path r) (py "/hash")).
  { destruct (negb (truthy_opt (body r))).
    - destruct (create_error_response_ok env 400
                  (Some (py "Corpo da requisição necessário para calcular hash")))
        as (resp & -> & Hs); [reflexivity|].
      exists resp. split; [reflexivity | now right; left].
    - rewrite (encode_utf8_ok _ Hbody).
      destruct (set_json_body_ok
                  (hash_data (or_empty (body r))
                     (hashlib.hexdigest (hashlib.md5 (flat_map utf8_char (or_empty (body r)))))
                     (hashlib.hexdigest (hashlib.sha1 (flat_map utf8_char (or_empty (body r))))))
                  (HTTPResponse_init env 200 (py "OK")))
        as (resp & -> & Hs & _).
      { apply hash_data_encodable; [exact Hbody | |];
          apply hexdigest_encodable; [apply md5_bytes | apply sha1_bytes]. }
      exists resp. split; [reflexivity | now left]. }
  destruct (create_error_response_ok env 405
              (Some (py "Método POST não suportado para '"
                     ++ fmt_opt (path r) ++ py "'")))
    as (resp & -> & Hs).
  { cbn [or_empty]. now rewrite !encodable_app, Hpath. }
  exists resp. split; [reflexivity | now right; right].
Qed.

Lemma strip_body_status (resp : HTTPResponse) :
  status_code (strip_body resp) = status_code resp.
Proof. reflexivity. Qed.

Lemma handle_head_returns (r : HTTPRequest) (h : HTTPHandlers) :
  env_encodable env = true ->
  encodable (fmt_opt (path r)) = true ->
  is_ok (crypto_utils.gerar_custom_id U cfg) = true ->
  exists resp, fst (handle_head U cfg env r h) = Ok resp
               /\ (status_code resp = 200 \/ status_code resp = 404).
Proof.
  intros Henv Hpath Hgen.
  unfold handle_head. run_monad.
  destruct (opt_in (path r) _).
  - destruct (handle_get_returns r (count_request h) Henv Hpath Hgen)
      as (resp & Hr & Hs).
    destruct (handle_get U cfg env r (count_request h)) as [[resp'|e] h'];
      cbn [fst] in Hr; [|discriminate].
    injection Hr as ->. exists (strip_body resp). split; [reflexivity | exact Hs].
  - destruct (create_error_response_ok env 404
                (Some (py "Path '" ++ fmt_opt (path r) ++ py "' não encontrado")))
      as (resp & -> & Hs).
    { now apply not_found_message_encodable. }
    exists (strip_body resp). split; [reflexivity | now right].
Qed.

(** [process_request] always returns a response: what a handler raises
    becomes the response 500. *)
Lemma process_request_returns (r : HTTPRequest) (h : HTTPHandlers) :
  exists resp, fst (process_request U cfg env r h) = Ok resp.
Proof.
  unfold process_request, try_except.
  destruct (create_error_response_ok env 500 (Some (py "Erro interno do servidor")))
    as (resp500 & H500 & _); [reflexivity|].
  match goal with
  | |- context [match ?c h with _ => _ end] => destruct (c h) as [[resp|e] h']
  end.
  - exists resp. reflexivity.
  - unfold lift. rewrite H500. exists resp500. reflexivity.
Qed.

(** A supported method is dispatched to its handler. *)
Lemma process_request_status (r : HTTPRequest) (h : HTTPHandlers) :
  env_encodable env = true ->
  encodable (fmt_opt (path r)) = true ->
  encodable (or_empty (body r)) = true ->
  is_ok (crypto_utils.gerar_custom_id U cfg) = true ->
  opt_in (method r) [py "GET"; py "POST"; py "HEAD"] = true ->
  exists resp, fst (process_request U cfg env r h) = Ok resp
               /\ (status_code resp = 200 \/ status_code resp = 400
                   \/ status_code resp = 404 \/ status_code resp = 405).
Proof.
  intros Henv Hpath Hbody Hgen Hm.
  unfold process_request, try_except.
  destruct (method r) as [m|]; [|discriminate].
  cbn [opt_in str_in existsb] in Hm. cbn [opt_eqb].
  destruct (str_eqb m (py "GET")).
  { destruct (handle_get_returns r h Henv Hpath Hgen) as (resp & Hr & Hs).
    destruct (handle_get U cfg env r h) as [[resp'|e] h'];
      cbn [fst] in Hr; [|discriminate].
    injection Hr as ->. exists resp. split; [reflexivity | tauto]. }
  destruct (str_eqb m (py "POST")).
  { destruct (handle_post_returns r h Hpath Hbody) as (resp & Hr & Hs).
    destruct (handle_post env r h) as [[resp'|e] h'];
      cbn [fst] in Hr; [|discriminate].
    injection Hr as ->. exists resp. split; [reflexivity | tauto]. }
  destruct (str_eqb m (py "HEAD")); [|discriminate].
  destruct (handle_head_returns r h Henv Hpath Hgen) as (resp & Hr & Hs).
  destruct (handle_head U cfg env r h) as [[resp'|e] h'];
    cbn [fst] in Hr; [|discriminate].
  injection Hr as ->. exists resp. split; [reflexivity | tauto].
Qed.

End HandlerFacts.

(** ** Text of a request that was decoded from the socket *)

Section RequestText.

Import pystr pyexc config http_utils server_handlers.
Local Open Scope list_scope.

Variable U : UnicodeDB.
Variable cfg : Config.

Lemma request_tokens_encodable (raw : str) :
  encodable raw = true -> forallb encodable (request_tokens raw) = true.
Proof.
  intros H. unfold request_tokens.
  apply split_ws_encodable, strip_encodable.
  pose proof (split_crlf_encodable raw H) as Hl.
  destruct (split_crlf raw) as [|l0 rest]; [reflexivity|].
  cbn [hd forallb] in *. now apply andb_true_iff in Hl.
Qed.

Lemma line_path_encodable (raw : str) :
  encodable raw = true -> encodable (fmt_opt (line_path raw)) = true.
Proof.
  intros H. pose proof (request_tokens_encodable raw H) as Ht.
  unfold line_path.
  destruct (request_tokens raw) as [|p0 [|p1 [|p2 more]]]; try reflexivity.
  cbn [forallb fmt_opt] in *.
  apply andb_true_iff in Ht as [_ Ht]. now apply andb_true_iff in Ht.
Qed.

Lemma parsed_body_encodable (raw : str) :
  encodable raw = true -> encodable (or_empty (parsed_body raw)) = true.
Proof.
  intros H. unfold parsed_body.
  destruct (Nat.ltb _ _); [|reflexivity].
  cbn [or_empty]. apply encodable_join; [reflexivity|].
  apply all_encodable_skipn. now apply split_crlf_encodable.
Qed.

Lemma parsed_request_encodable (raw : str) (r : HTTPRequest) :
  HTTPRequest_init U cfg raw = Ok r -> encodable raw = true ->
  encodable (fmt_opt (path r)) = true /\ encodable (or_empty (body r)) = true.
Proof.
  intros Hr Hraw.
  destruct (parsed_request_line U cfg raw r Hr) as (_ & _ & -> & _ & _ & ->).
  split; [now apply line_path_encodable | now apply parsed_body_encodable].
Qed.

(** A request line with tokens is not the empty text. *)
Lemma line_ok_truthy (raw : str) : line_ok U raw = true -> truthy raw = true.
Proof.
  destruct raw as [|c r]; [discriminate | reflexivity].
Qed.

Lemma valid_truthy (raw : str) (r : HTTPRequest) :
  HTTPRequest_init U cfg raw = Ok r -> valid r = true -> truthy raw = true.
Proof.
  intros Hr Hv. rewrite (parsed_valid U cfg raw r Hr) in Hv.
  apply andb_true_iff in Hv as [Hl _]. now apply line_ok_truthy in Hl.
Qed.

End RequestText.

(** ** The two servers *)

Section ServerFacts.

Import pystr pyexc config pytime http_utils server_handlers.
Local Open Scope list_scope.
Local Open Scope Z_scope.

Variable U : UnicodeDB.
Variable cfg : Config.
Variable env : Env.

Ltac run_server :=
  cbv beta iota delta [bind modify get lift ret try_except
                       sequential_server.with_handlers
                       concurrent_server.with_handlers].

(** A request that is valid and authenticated is dispatched, and
    counted once by the server. *)
Lemma sequential_dispatch (raw : str) (r : HTTPRequest)
      (self : sequential_server.SequentialWebServer) :
  HTTPRequest_init U cfg raw = Ok r -> is_valid r = true ->
  exists resp,
    fst (process_request U cfg env r (sequential_server.handlers self)) = Ok resp
    /\ sequential_server._handle_client U cfg env raw self =
       (Some resp,
        sequential_server.count_processed
          {| sequential_server.handlers :=
               snd (process_request U cfg env r (sequential_server.handlers self));
             sequential_server.requests_processed :=
               sequential_server.requests_processed self;
             sequential_server.errors_count :=
               sequential_server.errors_count self |}).
Proof.
  intros Hr Hv.
  assert (Ht : truthy raw = true).
  { apply (valid_truthy U cfg raw r Hr). unfold is_valid in Hv.
    now apply andb_true_iff in Hv. }
  destruct (process_request_returns U cfg env r (sequential_server.handlers self))
    as (resp & Hp).
  exists resp. split; [exact Hp|].
  unfold sequential_server._handle_client, sequential_server.handle_client_try.
  rewrite Ht, Hr. cbn [negb]. run_server. rewrite Hv. cbn [negb].
  destruct (process_request U cfg env r (sequential_server.handlers self))
    as [[resp'|e] h']; cbn [fst snd] in *; [|discriminate].
  injection Hp as ->. reflexivity.
Qed.

Lemma concurrent_dispatch (raw : str) (r : HTTPRequest)
      (self : concurrent_server.ConcurrentWebServer) :
  HTTPRequest_init U cfg raw = Ok r -> is_valid r = true ->
  exists resp,
    fst (process_request U cfg env r (concurrent_server.handlers self)) = Ok resp
    /\ concurrent_server._handle_client U cfg env raw self =
       (Some resp,
        concurrent_server.count_processed
          {| concurrent_server.handlers :=
               snd (process_request U cfg env r (concurrent_server.handlers self));
             concurrent_server.requests_processed :=
               concurrent_server.requests_processed self;
             concurrent_server.errors_count :=
               concurrent_server.errors_count self;
             concurrent_server.active_connections :=
               concurrent_server.active_connections self |}).
Proof.
  intros Hr Hv.
  assert (Ht : truthy raw = true).
  { apply (valid_truthy U cfg raw r Hr). unfold is_valid in Hv.
    now apply andb_true_iff in Hv. }
  destruct (process_request_returns U cfg env r (concurrent_server.handlers self))
    as (resp & Hp).
  exists resp. split; [exact Hp|].
  unfold concurrent_server._handle_client, concurrent_server.handle_client_try.
  rewrite Ht, Hr. cbn [negb]. run_server. rewrite Hv. cbn [negb].
  destruct (process_request U cfg env r (concurrent_server.handlers self))
    as [[resp'|e] h']; cbn [fst snd] in *; [|discriminate].
  injection Hp as ->. reflexivity.
Qed.

(** A request that is not dispatched gets the error response of its
    first failed check, and no counter moves. *)
Lemma sequential_reject (raw : str) (r : HTTPRequest)
      (self : sequential_server.SequentialWebServer) :
  truthy raw = true ->
  HTTPRequest_init U cfg raw = Ok r -> is_valid r = false ->
  exists resp,
    sequential_server._handle_client U cfg env raw self = (Some resp, self)
    /\ status_code resp = (if valid r then 401 else 400).
Proof.
  intros Ht Hr Hv.
  unfold sequential_server._handle_client, sequential_server.handle_client_try.
  rewrite Ht, Hr. cbn [negb]. run_server. rewrite Hv. cbn [negb].
  unfold is_valid in Hv.
  destruct (valid r); cbn [negb andb] in *.
  - rewrite Hv. cbn [negb].
    destruct (create_error_response_ok env 401
                (Some (py "X-Custom-ID inválido ou ausente")))
      as (resp & -> & Hs); [reflexivity|].
    exists resp. split; [reflexivity | exact Hs].
  - destruct (create_error_response_ok env 400
                (Some (py "Requisição HTTP inválida")))
      as (resp & -> & Hs); [reflexivity|].
    exists resp. split; [reflexivity | exact Hs].
Qed.

Lemma concurrent_reject (raw : str) (r : HTTPRequest)
      (self : concurrent_server.ConcurrentWebServer) :
  truthy raw = true ->
  HTTPRequest_init U cfg raw = Ok r -> is_valid r = false ->
  exists resp,
    concurrent_server._handle_client U cfg env raw self = (Some resp, self)
    /\ status_code resp = (if valid r then 401 else 400).
Proof.
  intros Ht Hr Hv.
  unfold concurrent_server._handle_client, concurrent_server.handle_client_try.
  rewrite Ht, Hr. cbn [negb]. run_server. rewrite Hv. cbn [negb].
  unfold is_valid in Hv.
  destruct (valid r); cbn [negb andb] in *.
  - rewrite Hv. cbn [negb].
    destruct (create_error_response_ok env 401
                (Some (py "X-Custom-ID inválido ou ausente")))
      as (resp & -> & Hs); [reflexivity|].
    exists resp. split; [reflexivity | exact Hs].
  - destruct (create_error_response_ok env 400
                (Some (py "Requisição HTTP inválida")))
      as (resp & -> & Hs); [reflexivity|].
    exists resp. split; [reflexivity | exact Hs].
Qed.

End ServerFacts.

(* ================================================================== *)
(** * The claims *)

Section RequestCounters.

Import pystr pyexc config pytime http_utils server_handlers.
Local Open Scope list_scope.
Local Open Scope Z_scope.

Variable U : UnicodeDB.
Variable cfg : Config.
Variable env : Env.

(** The counter of the handlers after a dispatch: a handler counts the
    request when it is entered, and [handle_head] enters [handle_get]
    for the paths that [handle_get] serves. *)
Lemma process_request_state (r : HTTPRequest) (h : HTTPHandlers) :
  snd (process_request U cfg env r h) =
  if opt_eqb (method r) (py "GET") then count_request h
  else if opt_eqb (method r) (py "POST") then count_request h
  else if opt_eqb (method r) (py "HEAD") then
    if opt_in (path r) [py "/"; py "/status"; py "/info"; py "/time"]
    then count_request (count_request h)
    else count_request h
  else h.
Proof.
  unfold process_request, try_except.
  destruct (opt_eqb (method r) (py "GET")).
  { pose proof (handle_get_state U cfg env r h) as Hs.
    destruct (handle_get U cfg env r h) as [[resp|e] h']; cbn [snd] in *;
      [exact Hs|].
    unfold lift. cbn [snd]. exact Hs. }
  destruct (opt_eqb (method r) (py "POST")).
  { pose proof (handle_post_state env r h) as Hs.
    destruct (handle_post env r h) as [[resp|e] h']; cbn [snd] in *;
      [exact Hs|].
    unfold lift. cbn [snd]. exact Hs. }
  destruct (opt_eqb (method r) (py "HEAD")).
  { pose proof (handle_head_state U cfg env r h) as Hs.
    destruct (handle_head U cfg env r h) as [[resp|e] h']; cbn [snd] in *;
      [exact Hs|].
    unfold lift. cbn [snd]. exact Hs. }
  unfold lift. destruct (create_error_response env 405 _); reflexivity.
Qed.

(** The server counts every dispatched request once in
    [requests_processed], whatever the method. *)
Lemma dispatch_counts_processed_once (raw : str) (r : HTTPRequest)
      (self : sequential_server.SequentialWebServer) :
  HTTPRequest_init U cfg raw = Ok r -> is_valid r = true ->
  sequential_server.requests_processed
    (snd (sequential_server._handle_client U cfg env raw self))
  = sequential_server.requests_processed self + 1.
Proof.
  intros Hr Hv.
  destruct (sequential_dispatch U cfg env raw r self Hr Hv) as (resp & _ & ->).
  reflexivity.
Qed.

(** A dispatched [GET] moves the counter of the handlers by one. *)
Lemma get_counts_served_once (raw : str) (r : HTTPRequest)
      (self : sequential_server.SequentialWebServer) :
  HTTPRequest_init U cfg raw = Ok r -> is_valid r = true ->
  method r = Some (py "GET") ->
  requests_served
    (sequential_server.handlers
       (snd (sequential_server._handle_client U cfg env raw self)))
  = requests_served (sequential_server.handlers self) + 1.
Proof.
  intros Hr Hv Hm.
  destruct (sequential_dispatch U cfg env raw r self Hr Hv) as (resp & _ & ->).
  cbn [snd sequential_server.count_processed sequential_server.handlers].
  rewrite process_request_state, Hm. reflexivity.
Qed.

(** C1 (a defect of the code): a dispatched [HEAD] request to one of
    the paths [/], [/status], [/info], [/time] is counted once by the
    server in [requests_processed], but twice in the counter
    [requests_served] of the shared handlers, the counter that
    [GET /] and [GET /status] report; the corresponding [GET] moves it
    by one. *)
Theorem head_request_counted_twice (raw : str) (r : HTTPRequest)
        (self : sequential_server.SequentialWebServer) :
  HTTPRequest_init U cfg raw = Ok r -> is_valid r = true ->
  method r = Some (py "HEAD") ->
  opt_in (path r) [py "/"; py "/status"; py "/info"; py "/time"] = true ->
  sequential_server.requests_processed
    (snd (sequential_server._handle_client U cfg env raw self))
  = sequential_server.requests_processed self + 1
  /\ requests_served
       (sequential_server.handlers
          (snd (sequential_server._handle_client U cfg env raw self)))
     = requests_served (sequential_server.handlers self) + 2.
Proof.
  intros Hr Hv Hm Hp.
  split; [now apply (dispatch_counts_processed_once raw r)|].
  destruct (sequential_dispatch U cfg env raw r self Hr Hv) as (resp & _ & ->).
  cbn [snd sequential_server.count_processed sequential_server.handlers].
  rewrite process_request_state, Hm, Hp.
  cbn [opt_eqb]. change (str_eqb (py "HEAD") (py "GET")) with false.
  change (str_eqb (py "HEAD") (py "POST")) with false.
  rewrite str_eqb_refl. cbn [count_request requests_served]. lia.
Qed.

End RequestCounters.

Lemma head_request_counted_twice_witness :
  http_utils.HTTPRequest_init pystr.plain_db config.shipped examples.head_root
  = pyexc.Ok (examples.request_of examples.head_root)
  /\ sequential_server.requests_processed
       (snd (sequential_server._handle_client pystr.plain_db config.shipped
               examples.env examples.head_root examples.sequential))
     = (sequential_server.requests_processed examples.sequential + 1)%Z
  /\ server_handlers.requests_served
       (sequential_server.handlers
          (snd (sequential_server._handle_client pystr.plain_db config.shipped
                  examples.env examples.head_root examples.sequential)))
     = (server_handlers.requests_served
          (sequential_server.handlers examples.sequential) + 2)%Z.
Proof.
  assert (H : http_utils.HTTPRequest_init pystr.plain_db config.shipped
                examples.head_root
              = pyexc.Ok (examples.request_of examples.head_root))
    by (vm_compute; reflexivity).
  split; [exact H|].
  apply (head_request_counted_twice pystr.plain_db config.shipped examples.env
           examples.head_root (examples.request_of examples.head_root)
           examples.sequential H);
    vm_compute; reflexivity.
Defined.

(** ** Rejection of requests *)

Section Rejection.

Import pystr pyexc config pytime http_utils server_handlers.
Local Open Scope list_scope.
Local Open Scope Z_scope.

(** A parsed request whose identity header is missing or wrong is not
    authenticated. *)
Lemma status_not_valid (U : UnicodeDB) (cfg : Config) (raw : str)
      (r : HTTPRequest) :
  HTTPRequest_init U cfg raw = Ok r ->
  get_custom_id_status r = MISSING \/ get_custom_id_status r = INVALID ->
  custom_id_valid r = false.
Proof.
  intros Hr Hs. destruct (custom_id_valid r) eqn:Hc; [|reflexivity].
  destruct (parsed_custom_id_valid U cfg raw r Hr Hc) as (tok & _ & Hg).
  assert (Hhas : pydict.has (py "x-custom-id") (headers r) = true).
  { apply dict_has_get. eauto. }
  unfold get_custom_id_status in Hs. rewrite Hhas, Hc in Hs.
  cbn [negb] in Hs. destruct Hs; discriminate.
Qed.

End Rejection.

(** C2, as amended: a request (not empty) whose [X-Custom-ID] header is
    missing or does not match the identity token is answered 401 by
    both servers when it is structurally valid, for each of the methods
    and every path; when it is not structurally valid (unsupported
    method, malformed request line) it is answered 400, the check that
    comes first. *)
Theorem unauthenticated_request_status
        (U : pystr.UnicodeDB) (cfg : config.Config) (env : pytime.Env)
        (raw : pystr.str) (r : http_utils.HTTPRequest)
        (s : sequential_server.SequentialWebServer)
        (c : concurrent_server.ConcurrentWebServer) :
  pystr.truthy raw = true ->
  http_utils.HTTPRequest_init U cfg raw = pyexc.Ok r ->
  http_utils.get_custom_id_status r = http_utils.MISSING
  \/ http_utils.get_custom_id_status r = http_utils.INVALID ->
  (exists resp,
      sequential_server._handle_client U cfg env raw s = (Some resp, s)
      /\ http_utils.status_code resp
         = (if http_utils.valid r then 401 else 400)%Z)
  /\ (exists resp,
         concurrent_server._handle_client U cfg env raw c = (Some resp, c)
         /\ http_utils.status_code resp
            = (if http_utils.valid r then 401 else 400)%Z).
Proof.
  intros Ht Hr Hs.
  assert (Hv : http_utils.is_valid r = false).
  { unfold http_utils.is_valid.
    rewrite (status_not_valid U cfg raw r Hr Hs). apply andb_false_r. }
  split.
  - exact (sequential_reject U cfg env raw r s Ht Hr Hv).
  - exact (concurrent_reject U cfg env raw r c Ht Hr Hv).
Qed.

Lemma unauthenticated_request_status_witness :
  http_utils.get_custom_id_status
    (examples.request_of examples.get_without_token) = http_utils.MISSING
  /\ http_utils.valid (examples.request_of examples.get_without_token) = true
  /\ (exists resp,
         sequential_server._handle_client pystr.plain_db config.shipped
           examples.env examples.get_without_token examples.sequential
         = (Some resp, examples.sequential)
         /\ http_utils.status_code resp
            = (if http_utils.valid (examples.request_of examples.get_without_token)
               then 401 else 400)%Z)
  /\ (exists resp,
         concurrent_server._handle_client pystr.plain_db config.shipped
           examples.env examples.get_without_token examples.concurrent
         = (Some resp, examples.concurrent)
         /\ http_utils.status_code resp
            = (if http_utils.valid (examples.request_of examples.get_without_token)
               then 401 else 400)%Z).
Proof.
  split; [vm_compute; reflexivity|].
  split; [vm_compute; reflexivity|].
  apply (unauthenticated_request_status pystr.plain_db config.shipped
           examples.env examples.get_without_token
           (examples.request_of examples.get_without_token)
           examples.sequential examples.concurrent).
  - vm_compute; reflexivity.
  - vm_compute; reflexivity.
  - left. vm_compute; reflexivity.
Defined.

(** C2 as stated fails: [PUT / HTTP/1.1] without the identity header
    is answered 400 by both servers, not 401. *)
Lemma put_without_token_gets_400 :
  http_utils.get_custom_id_status
    (examples.request_of examples.put_without_token) = http_utils.MISSING
  /\ option_map http_utils.status_code
       (fst (sequential_server._handle_client pystr.plain_db config.shipped
               examples.env examples.put_without_token examples.sequential))
     = Some 400%Z
  /\ option_map http_utils.status_code
       (fst (concurrent_server._handle_client pystr.plain_db config.shipped
               examples.env examples.put_without_token examples.concurrent))
     = Some 400%Z.
Proof. repeat split; vm_compute; reflexivity. Qed.

(** ** Dispatch of authenticated requests *)

Section Dispatch.

Import pystr pyexc config pytime http_utils server_handlers.
Local Open Scope list_scope.
Local Open Scope Z_scope.

Lemma line_ok_method (U : UnicodeDB) (raw : str) :
  line_ok U raw = true ->
  opt_in (line_method U raw) [py "GET"; py "POST"; py "HEAD"] = true.
Proof.
  unfold line_ok, line_method.
  destruct (request_tokens raw) as [|p0 [|p1 [|p2 more]]];
    try discriminate. intros H; exact H.
Qed.

(** What a valid and authenticated request brings to the handlers. *)
Lemma dispatched_request_facts (U : UnicodeDB) (cfg : Config) (raw : str)
      (r : HTTPRequest) :
  encodable raw = true ->
  HTTPRequest_init U cfg raw = Ok r -> is_valid r = true ->
  encodable (fmt_opt (path r)) = true
  /\ encodable (or_empty (body r)) = true
  /\ is_ok (crypto_utils.gerar_custom_id U cfg) = true
  /\ opt_in (method r) [py "GET"; py "POST"; py "HEAD"] = true.
Proof.
  intros Hraw Hr Hv. unfold is_valid in Hv.
  apply andb_true_iff in Hv as [Hvalid Hauth].
  destruct (parsed_request_encodable U cfg raw r Hr Hraw) as [Hp Hb].
  destruct (parsed_custom_id_valid U cfg raw r Hr Hauth) as (tok & Hg & _).
  repeat split; try assumption.
  - now rewrite Hg.
  - rewrite (parsed_valid U cfg raw r Hr) in Hvalid.
    apply andb_true_iff in Hvalid as [Hl _].
    destruct (parsed_request_line U cfg raw r Hr) as (_ & -> & _).
    now apply line_ok_method.
Qed.

End Dispatch.

(** C4: for a structurally valid request with the correct identity
    token (text as it is decoded from the socket, clock readings that
    print as text), dispatch returns a response whose status code is
    200, 400, 404 or 405, never 401; both servers send that response. *)
Theorem authenticated_request_status
        (U : pystr.UnicodeDB) (cfg : config.Config) (env : pytime.Env)
        (raw : pystr.str) (r : http_utils.HTTPRequest)
        (s : sequential_server.SequentialWebServer)
        (c : concurrent_server.ConcurrentWebServer) :
  pystr.encodable raw = true -> pytime.env_encodable env = true ->
  http_utils.HTTPRequest_init U cfg raw = pyexc.Ok r ->
  http_utils.is_valid r = true ->
  (forall h, exists resp,
      fst (server_handlers.process_request U cfg env r h) = pyexc.Ok resp
      /\ (http_utils.status_code resp = 200 \/ http_utils.status_code resp = 400
          \/ http_utils.status_code resp = 404
          \/ http_utils.status_code resp = 405)%Z
      /\ Z.eqb (http_utils.status_code resp) 401 = false)
  /\ fst (sequential_server._handle_client U cfg env raw s)
     = match fst (server_handlers.process_request U cfg env r
                    (sequential_server.handlers s)) with
       | pyexc.Ok resp => Some resp
       | pyexc.Raise _ => None
       end
  /\ fst (concurrent_server._handle_client U cfg env raw c)
     = match fst (server_handlers.process_request U cfg env r
                    (concurrent_server.handlers c)) with
       | pyexc.Ok resp => Some resp
       | pyexc.Raise _ => None
       end.
Proof.
  intros Hraw Henv Hr Hv.
  destruct (dispatched_request_facts U cfg raw r Hraw Hr Hv)
    as (Hp & Hb & Hg & Hm).
  split; [|split].
  - intros h.
    destruct (process_request_status U cfg env r h Henv Hp Hb Hg Hm)
      as (resp & Hresp & Hs).
    exists resp. split; [exact Hresp|]. split; [exact Hs|].
    destruct Hs as [-> | [-> | [-> | ->]]]; reflexivity.
  - destruct (sequential_dispatch U cfg env raw r s Hr Hv) as (resp & -> & ->).
    reflexivity.
  - destruct (concurrent_dispatch U cfg env raw r c Hr Hv) as (resp & -> & ->).
    reflexivity.
Qed.

Lemma authenticated_request_status_witness :
  http_utils.is_valid (examples.request_of examples.post_echo_xyz) = true
  /\ (forall h, exists resp,
      fst (server_handlers.process_request pystr.plain_db config.shipped
             examples.env (examples.request_of examples.post_echo_xyz) h)
      = pyexc.Ok resp
      /\ (http_utils.status_code resp = 200 \/ http_utils.status_code resp = 400
          \/ http_utils.status_code resp = 404
          \/ http_utils.status_code resp = 405)%Z
      /\ Z.eqb (http_utils.status_code resp) 401 = false)
  /\ fst (sequential_server._handle_client pystr.plain_db config.shipped
            examples.env examples.post_echo_xyz examples.sequential)
     = match fst (server_handlers.process_request pystr.plain_db config.shipped
                    examples.env (examples.request_of examples.post_echo_xyz)
                    (sequential_server.handlers examples.sequential)) with
       | pyexc.Ok resp => Some resp
       | pyexc.Raise _ => None
       end
  /\ fst (concurrent_server._handle_client pystr.plain_db config.shipped
            examples.env examples.post_echo_xyz examples.concurrent)
     = match fst (server_handlers.process_request pystr.plain_db config.shipped
                    examples.env (examples.request_of examples.post_echo_xyz)
                    (concurrent_server.handlers examples.concurrent)) with
       | pyexc.Ok resp => Some resp
       | pyexc.Raise _ => None
       end.
Proof.
  split; [vm_compute; reflexivity|].
  apply (authenticated_request_status pystr.plain_db config.shipped
           examples.env examples.post_echo_xyz
           (examples.request_of examples.post_echo_xyz)
           examples.sequential examples.concurrent);
    vm_compute; reflexivity.
Defined.

(** ** Parsing of the request line *)



(** C10: [HTTPRequest(raw)] returns a request for every text and never
    raises; when the [try] of [_parse_request] raises, the request has
    both flags false; when the request line has fewer than three
    tokens, [method], [path] and [version] stay [None]. *)
Theorem parsing_is_total
        (U : pystr.UnicodeDB) (cfg : config.Config) (raw : pystr.str) :
  exists r,
    http_utils.HTTPRequest_init U cfg raw = pyexc.Ok r
    /\ http_utils.raw_request r = raw
    /\ (forall e s,
           http_utils.parse_request_try U cfg (http_utils.new_request raw)
           = (pyexc.Raise e, s) ->
           http_utils.valid r = false /\ http_utils.custom_id_valid r = false)
    /\ ((List.length (http_utils.request_tokens raw) < 3)%nat ->
        http_utils.method r = None /\ http_utils.path r = None
        /\ http_utils.version r = None).
Proof.
  destruct (HTTPRequest_init_total U cfg raw) as (r & Hr).
  exists r. split; [exact Hr|].
  destruct (parsed_request_line U cfg raw r Hr) as (Hraw & Hm & Hp & Hver & _).
  split; [exact Hraw|]. split.
  - intros e s Hraise. revert Hr.
    rewrite HTTPRequest_init_result. rewrite parse_request_try_result in Hraise.
    destruct (pydict.get (pystr.py "x-custom-id") (http_utils.parsed_headers U raw))
      as [cid|]; [|discriminate].
    destruct (crypto_utils.validar_custom_id U cfg cid); [discriminate|].
    intros Hr. injection Hr as <-. split; reflexivity.
  - intros Hlen. rewrite Hm, Hp, Hver.
    unfold http_utils.line_method, http_utils.line_path, http_utils.line_version.
    destruct (http_utils.request_tokens raw) as [|p0 [|p1 [|p2 more]]];
      try (repeat split; reflexivity).
    cbn [List.length] in Hlen. lia.
Qed.

(** ** POST /echo and POST /hash *)

Section PostFacts.

Import pystr pyexc config pytime http_utils server_handlers.
Local Open Scope list_scope.
Local Open Scope Z_scope.

Variable U : UnicodeDB.
Variable cfg : Config.
Variable env : Env.

Lemma process_request_post (r : HTTPRequest) (h h' : HTTPHandlers)
      (resp : HTTPResponse) :
  method r = Some (py "POST") ->
  handle_post env r h = (Ok resp, h') ->
  process_request U cfg env r h = (Ok resp, h').
Proof.
  intros Hm Hp. unfold process_request, try_except. rewrite Hm.
  cbn [opt_eqb]. change (str_eqb (py "POST") (py "GET")) with false.
  rewrite str_eqb_refl. cbv beta iota. now rewrite Hp.
Qed.

Lemma post_empty_body (r : HTTPRequest) (h : HTTPHandlers) :
  opt_in (path r) [py "/echo"; py "/hash"] = true ->
  truthy_opt (body r) = false ->
  exists resp, handle_post env r h = (Ok resp, count_request h)
               /\ status_code resp = 400.
Proof.
  intros Hp Hb. unfold handle_post.
  cbv beta iota delta [bind modify get lift ret].
  rewrite Hb. cbn [negb].
  destruct (opt_eqb (path r) (py "/echo")) eqn:He.
  - destruct (create_error_response_ok env 400
                (Some (py "Corpo da requisição vazio")))
      as (resp & -> & Hs); [reflexivity|].
    exists resp. split; [reflexivity | exact Hs].
  - assert (Hh : opt_eqb (path r) (py "/hash") = true).
    { destruct (path r) as [p|]; [|discriminate].
      cbn [opt_in str_in existsb opt_eqb] in *. rewrite He in Hp.
      cbn [orb] in Hp. now rewrite orb_false_r in Hp. }
    rewrite Hh.
    destruct (create_error_response_ok env 400
                (Some (py "Corpo da requisição necessário para calcular hash")))
      as (resp & -> & Hs); [reflexivity|].
    exists resp. split; [reflexivity | exact Hs].
Qed.

Lemma post_echo_body (r : HTTPRequest) (h : HTTPHandlers) (b : str) :
  path r = Some (py "/echo") -> body r = Some b -> truthy b = true ->
  encodable b = true ->
  exists resp, handle_post env r h = (Ok resp, count_request h)
               /\ status_code resp = 200
               /\ resp_body resp = b
               /\ pydict.get (py "Content-Type") (resp_headers resp)
                  = Some (py "text/plain; charset=utf-8").
Proof.
  intros Hp Hb Ht He. unfold handle_post.
  cbv beta iota delta [bind modify get lift ret].
  rewrite Hp, Hb. cbn [opt_eqb truthy_opt or_empty].
  rewrite str_eqb_refl, Ht.
  destruct (set_body_ok b (py "text/plain; charset=utf-8")
              (HTTPResponse_init env 200 (py "OK")) He)
    as (resp & -> & Hs & Hbody & Hct).
  exists resp. repeat split; assumption.
Qed.

Lemma post_hash_body (r : HTTPRequest) (h : HTTPHandlers) (b : str) :
  path r = Some (py "/hash") -> body r = Some b -> truthy b = true ->
  encodable b = true ->
  exists resp, handle_post env r h = (Ok resp, count_request h)
               /\ status_code resp = 200
               /\ resp_body resp
                  = json.dumps
                      (hash_data b
                         (hashlib.hexdigest (hashlib.md5 (flat_map utf8_char b)))
                         (hashlib.hexdigest (hashlib.sha1 (flat_map utf8_char b))))
               /\ pydict.get (py "Content-Type") (resp_headers resp)
                  = Some (py "application/json; charset=utf-8").
Proof.
  intros Hp Hb Ht He. unfold handle_post.
  cbv beta iota delta [bind modify get lift ret].
  rewrite Hp, Hb. cbn [opt_eqb truthy_opt or_empty].
  change (str_eqb (py "/hash") (py "/echo")) with false.
  rewrite str_eqb_refl, Ht. cbn [negb].
  rewrite (encode_utf8_ok b He).
  destruct (set_json_body_ok
              (hash_data b
                 (hashlib.hexdigest (hashlib.md5 (flat_map utf8_char b)))
                 (hashlib.hexdigest (hashlib.sha1 (flat_map utf8_char b))))
              (HTTPResponse_init env 200 (py "OK")))
    as (resp & -> & Hs & Hbody & Hct).
  { apply hash_data_encodable; [exact He | |];
      apply hexdigest_encodable; [apply md5_bytes | apply sha1_bytes]. }
  exists resp. repeat split; assumption.
Qed.

End PostFacts.

(** C8: [POST /hash] with an empty body (or none) is answered 400; with
    a body [b] that is not empty it is answered 200 with the JSON
    object of the keys [input], [md5], [sha1], [length], in this
    order: [b] itself, the lower-case hexadecimal MD5 and SHA-1
    digests of the UTF-8 bytes of [b], and the number of characters of
    [b].  For the body [abc] the two digests are the reference ones. *)
Theorem post_hash_response
        (U : pystr.UnicodeDB) (cfg : config.Config) (env : pytime.Env)
        (r : http_utils.HTTPRequest) (h : server_handlers.HTTPHandlers) :
  http_utils.method r = Some (pystr.py "POST") ->
  http_utils.path r = Some (pystr.py "/hash") ->
  (http_utils.truthy_opt (http_utils.body r) = false ->
   exists resp,
     fst (server_handlers.process_request U cfg env r h) = pyexc.Ok resp
     /\ http_utils.status_code resp = 400%Z)
  /\ (forall b,
         http_utils.body r = Some b -> pystr.truthy b = true ->
         pystr.encodable b = true ->
         exists resp,
           fst (server_handlers.process_request U cfg env r h) = pyexc.Ok resp
           /\ http_utils.status_code resp = 200%Z
           /\ http_utils.resp_body resp
              = json.dumps
                  (json.JDict
                     [(pystr.py "input", json.JStr b);
                      (pystr.py "md5",
                       json.JStr (hashlib.hexdigest
                                    (hashlib.md5 (flat_map pystr.utf8_char b))));
                      (pystr.py "sha1",
                       json.JStr (hashlib.hexdigest
                                    (hashlib.sha1 (flat_map pystr.utf8_char b))));
                      (pystr.py "length", json.JInt (Z.of_nat (List.length b)))])
           /\ pydict.get (pystr.py "Content-Type") (http_utils.resp_headers resp)
              = Some (pystr.py "application/json; charset=utf-8"))
  /\ hashlib.hexdigest (hashlib.md5 (flat_map pystr.utf8_char (pystr.py "abc")))
     = pystr.py "900150983cd24fb0d6963f7d28e17f72"
  /\ hashlib.hexdigest (hashlib.sha1 (flat_map pystr.utf8_char (pystr.py "abc")))
     = pystr.py "a9993e364706816aba3e25717850c26c9cd0d89d".
Proof.
  intros Hm Hp. split; [|split; [|split]].
  - intros Hb.
    destruct (post_empty_body env r h) as (resp & Hr & Hs);
      [now rewrite Hp | exact Hb |].
    exists resp.
    rewrite (process_request_post U cfg env r h _ resp Hm Hr).
    split; [reflexivity | exact Hs].
  - intros b Hb Ht He.
    destruct (post_hash_body env r h b Hp Hb Ht He) as (resp & Hr & Hs & Hbody & Hct).
    exists resp.
    rewrite (process_request_post U cfg env r h _ resp Hm Hr).
    repeat split; assumption.
  - vm_compute; reflexivity.
  - vm_compute; reflexivity.
Qed.

(** C9: [POST /echo] with an empty body (or none) is answered 400; with
    a body that is not empty it is answered 200, the content type is
    [text/plain; charset=utf-8] and the body of the response is the
    body of the request. *)
Theorem post_echo_response
        (U : pystr.UnicodeDB) (cfg : config.Config) (env : pytime.Env)
        (r : http_utils.HTTPRequest) (h : server_handlers.HTTPHandlers) :
  http_utils.method r = Some (pystr.py "POST") ->
  http_utils.path r = Some (pystr.py "/echo") ->
  (http_utils.truthy_opt (http_utils.body r) = false ->
   exists resp,
     fst (server_handlers.process_request U cfg env r h) = pyexc.Ok resp
     /\ http_utils.status_code resp = 400%Z)
  /\ (forall b,
         http_utils.body r = Some b -> pystr.truthy b = true ->
         pystr.encodable b = true ->
         exists resp,
           fst (server_handlers.process_request U cfg env r h) = pyexc.Ok resp
           /\ http_utils.status_code resp = 200%Z
           /\ http_utils.resp_body resp = b
           /\ pydict.get (pystr.py "Content-Type") (http_utils.resp_headers resp)
              = Some (pystr.py "text/plain; charset=utf-8")).
Proof.
  intros Hm Hp. split.
  - intros Hb.
    destruct (post_empty_body env r h) as (resp & Hr & Hs);
      [now rewrite Hp | exact Hb |].
    exists resp.
    rewrite (process_request_post U cfg env r h _ resp Hm Hr).
    split; [reflexivity | exact Hs].
  - intros b Hb Ht He.
    destruct (post_echo_body env r h b Hp Hb Ht He) as (resp & Hr & Hs & Hbody & Hct).
    exists resp.
    rewrite (process_request_post U cfg env r h _ resp Hm Hr).
    repeat split; assumption.
Qed.

Lemma post_hash_response_witness :
  http_utils.body (examples.request_of examples.post_hash_abc)
  = Some (pystr.py "abc")
  /\ exists resp,
      fst (server_handlers.process_request pystr.plain_db config.shipped
             examples.env (examples.request_of examples.post_hash_abc)
             examples.fresh_handlers) = pyexc.Ok resp
      /\ http_utils.status_code resp = 200%Z
      /\ http_utils.resp_body resp
         = json.dumps
             (json.JDict
                [(pystr.py "input", json.JStr (pystr.py "abc"));
                 (pystr.py "md5",
                  json.JStr (hashlib.hexdigest
                               (hashlib.md5
                                  (flat_map pystr.utf8_char (pystr.py "abc")))));
                 (pystr.py "sha1",
                  json.JStr (hashlib.hexdigest
                               (hashlib.sha1
                                  (flat_map pystr.utf8_char (pystr.py "abc")))));
                 (pystr.py "length",
                  json.JInt (Z.of_nat (List.length (pystr.py "abc"))))])
      /\ pydict.get (pystr.py "Content-Type") (http_utils.resp_headers resp)
         = Some (pystr.py "application/json; charset=utf-8").
Proof.
  split; [vm_compute; reflexivity|].
  assert (Hm : http_utils.method (examples.request_of examples.post_hash_abc)
               = Some (pystr.py "POST")) by (vm_compute; reflexivity).
  assert (Hp : http_utils.path (examples.request_of examples.post_hash_abc)
               = Some (pystr.py "/hash")) by (vm_compute; reflexivity).
  destruct (post_hash_response pystr.plain_db config.shipped examples.env
              (examples.request_of examples.post_hash_abc)
              examples.fresh_handlers Hm Hp) as (_ & Hbody & _).
  apply Hbody; vm_compute; reflexivity.
Defined.

Lemma post_echo_response_witness :
  http_utils.body (examples.request_of examples.post_echo_xyz)
  = Some (pystr.py "xyz")
  /\ exists resp,
      fst (server_handlers.process_request pystr.plain_db config.shipped
             examples.env (examples.request_of examples.post_echo_xyz)
             examples.fresh_handlers) = pyexc.Ok resp
      /\ http_utils.status_code resp = 200%Z
      /\ http_utils.resp_body resp = pystr.py "xyz"
      /\ pydict.get (pystr.py "Content-Type") (http_utils.resp_headers resp)
         = Some (pystr.py "text/plain; charset=utf-8").
Proof.
  split; [vm_compute; reflexivity|].
  assert (Hm : http_utils.method (examples.request_of examples.post_echo_xyz)
               = Some (pystr.py "POST")) by (vm_compute; reflexivity).
  assert (Hp : http_utils.path (examples.request_of examples.post_echo_xyz)
               = Some (pystr.py "/echo")) by (vm_compute; reflexivity).
  destruct (post_echo_response pystr.plain_db config.shipped examples.env
              (examples.request_of examples.post_echo_xyz)
              examples.fresh_handlers Hm Hp) as (_ & Hbody).
  apply Hbody; vm_compute; reflexivity.
Defined.

(** ** The identity token *)

(** C3, as amended: computing the identity token raises a validation
    error exactly when the identifier is not four digits, or the name
    is empty, or the algorithm is neither [md5] nor [sha1]; otherwise
    (for text that can be encoded) the token is the hexadecimal digest
    of ["<id> <name>"] under the configured algorithm, and
    [validar_custom_id] returns whether the candidate is that very
    string. *)
Theorem identity_token_computation (U : pystr.UnicodeDB) (cfg : config.Config) :
  let id := config.MATRICULA cfg in
  let name := config.NOME_ALUNO cfg in
  let algorithm := config.HASH_ALGORITHM cfg in
  let checks :=
    Nat.eqb (List.length id) 4 && pystr.isdigit U id && pystr.truthy name
    && pystr.str_in algorithm [pystr.py "md5"; pystr.py "sha1"] in
  let digest :=
    if pystr.str_eqb algorithm (pystr.py "md5") then hashlib.md5
    else hashlib.sha1 in
  let token :=
    hashlib.hexdigest
      (digest (flat_map pystr.utf8_char (id ++ pystr.py " " ++ name))) in
  (checks = false <->
   exists msg, crypto_utils.gerar_custom_id U cfg
               = pyexc.Raise (pyexc.ValueError msg))
  /\ (checks = true ->
      pystr.encodable (id ++ pystr.py " " ++ name) = true ->
      crypto_utils.gerar_custom_id U cfg = pyexc.Ok token
      /\ forall candidate,
          crypto_utils.validar_custom_id U cfg candidate
          = pyexc.Ok (pystr.str_eqb candidate token)
          /\ (pystr.str_eqb candidate token = true <-> candidate = token)).
Proof.
  cbv zeta.
  unfold crypto_utils.validar_custom_id, crypto_utils.gerar_custom_id,
    crypto_utils.calcular_hash_aluno.
  cbn [crypto_utils.or_default].
  destruct (pystr.truthy (config.MATRICULA cfg)) eqn:Hid.
  2:{ apply truthy_false in Hid. rewrite Hid. cbn.
      split; [split; [eauto | reflexivity] | discriminate]. }
  destruct (pystr.truthy (config.NOME_ALUNO cfg)) eqn:Hname.
  2:{ cbn [negb orb]. rewrite !andb_false_r. cbn [andb].
      split; [split; [eauto | reflexivity] | discriminate]. }
  cbn [negb orb].
  destruct (Nat.eqb (List.length (config.MATRICULA cfg)) 4) eqn:Hlen;
    [|cbn; split; [split; [eauto | reflexivity] | discriminate]].
  destruct (pystr.isdigit U (config.MATRICULA cfg)) eqn:Hdig;
    [|cbn; split; [split; [eauto | reflexivity] | discriminate]].
  cbn [negb orb andb].
  destruct (pystr.str_in (config.HASH_ALGORITHM cfg) _) eqn:Halg;
    [|cbn [negb]; split; [split; [eauto | reflexivity] | discriminate]].
  cbn [negb]. split.
  - split; [discriminate|]. intros [msg H]. exfalso.
    unfold pyexc.encode_utf8 in H.
    destruct (pystr.encodable _); cbn [pyexc.rbind] in H; [|discriminate].
    destruct (pystr.str_eqb _ _); discriminate.
  - intros _ Henc. rewrite (encode_utf8_ok _ Henc). cbn [pyexc.rbind].
    destruct (pystr.str_eqb (config.HASH_ALGORITHM cfg) (pystr.py "md5"));
      (split; [reflexivity|]; intros candidate; split;
       [reflexivity | apply str_eqb_eq]).
Qed.

(** C3 as stated fails: with the four digits [5217] and an empty name,
    and with an algorithm other than [md5] and [sha1], computing the
    token raises. *)
Lemma four_digits_and_still_raises :
  Nat.eqb (List.length (config.MATRICULA examples.nameless)) 4
  && pystr.isdigit pystr.plain_db (config.MATRICULA examples.nameless) = true
  /\ crypto_utils.gerar_custom_id pystr.plain_db examples.nameless
     = pyexc.Raise
         (pyexc.ValueError (pystr.py "Matrícula e nome do aluno são obrigatórios"))
  /\ crypto_utils.gerar_custom_id pystr.plain_db examples.sha256_config
     = pyexc.Raise
         (pyexc.ValueError (pystr.py "Algoritmo deve ser 'md5' ou 'sha1'")).
Proof. repeat split; vm_compute; reflexivity. Qed.

(** ** Statistics *)

Section StatisticsFacts.

Import pystr pyexc statistics.
Local Open Scope list_scope.
Local Open Scope Q_scope.

Lemma Qgtb_true (a b : Q) : Qgtb a b = true <-> b < a.
Proof.
  unfold Qgtb. rewrite negb_true_iff. split.
  - intros H. apply Qnot_le_lt. intros Hle.
    apply Qle_bool_iff in Hle. congruence.
  - intros H. destruct (Qle_bool a b) eqn:E; [|reflexivity].
    apply Qle_bool_iff in E. exfalso. exact (Qlt_not_le _ _ H E).
Qed.

Lemma Qgtb_false (a b : Q) : Qgtb a b = false <-> a <= b.
Proof.
  unfold Qgtb. rewrite negb_false_iff. apply Qle_bool_iff.
Qed.

(** A division that is guarded by [d > 0] does not raise. *)
Lemma div_positive (x d : Q) : Qgtb d 0 = true -> div x d = Ok (x / d).
Proof.
  intros H. apply Qgtb_true in H. unfold div.
  destruct (Qeq_bool d 0) eqn:E; [|reflexivity].
  apply Qeq_bool_iff in E. rewrite E in H. exfalso. exact (Qlt_irrefl _ H).
Qed.

Lemma insert_length (x : Q) (l : list Q) :
  List.length (insert x l) = S (List.length l).
Proof.
  induction l as [|y r IH]; [reflexivity|].
  simpl. destruct (Qle_bool x y); simpl; [reflexivity | now rewrite IH].
Qed.

Lemma sorted_length (data : list Q) :
  List.length (sorted data) = List.length data.
Proof.
  induction data as [|x r IH]; [reflexivity|].
  simpl. now rewrite insert_length, IH.
Qed.

(** [list_max] is an element of the list and bounds it. *)
Lemma fold_max_spec (r : list Q) (x : Q) :
  let m := fold_left (fun m y => if Qgtb y m then y else m) r x in
  (m = x \/ In m r) /\ x <= m /\ forall y, In y r -> y <= m.
Proof.
  revert x. induction r as [|z r IH]; intros x; cbn zeta.
  - simpl. split; [now left|]. split; [apply Qle_refl | contradiction].
  - simpl fold_left.
    destruct (Qgtb z x) eqn:E.
    + destruct (IH z) as (Hin & Hle & Hall). apply Qgtb_true in E.
      split; [destruct Hin as [->|Hin]; right; [now left | now right]|].
      split.
      * apply Qle_trans with z; [now apply Qlt_le_weak | exact Hle].
      * intros y [<-|Hy]; [exact Hle | now apply Hall].
    + destruct (IH x) as (Hin & Hle & Hall). apply Qgtb_false in E.
      split; [destruct Hin as [->|Hin]; [now left | right; now right]|].
      split; [exact Hle|].
      intros y [<-|Hy]; [now apply Qle_trans with x | now apply Hall].
Qed.

Lemma list_max_spec (data : list Q) :
  data <> [] ->
  In (list_max data) data /\ forall y, In y data -> y <= list_max data.
Proof.
  destruct data as [|x r]; [congruence|]. intros _.
  destruct (fold_max_spec r x) as (Hin & Hle & Hall).
  unfold list_max. split.
  - destruct Hin as [->|Hin]; [now left | now right].
  - intros y [<-|Hy]; [exact Hle | now apply Hall].
Qed.

(** [quantiles(data, n=n)] has [n - 1] cut points, the [i]-th of which
    is [cut_point] at [i]. *)
Lemma quantiles_cuts (data : list Q) (n : nat) :
  (1 <= n)%nat -> (2 <= List.length data)%nat ->
  exists cuts,
    quantiles data n = Ok cuts
    /\ List.length cuts = (n - 1)%nat
    /\ forall i, (i < n - 1)%nat ->
                 nth_error cuts i
                 = Some (cut_point (sorted data) (List.length data) n (S i)).
Proof.
  intros Hn Hd. unfold quantiles.
  destruct (Nat.ltb n 1) eqn:E1; [apply Nat.ltb_lt in E1; lia|].
  rewrite sorted_length.
  destruct (Nat.ltb (List.length data) 2) eqn:E2; [apply Nat.ltb_lt in E2; lia|].
  eexists. split; [reflexivity|]. split.
  - now rewrite length_map, length_seq.
  - intros i Hi. rewrite nth_error_map.
    rewrite nth_error_nth' with (d := O) by (rewrite length_seq; exact Hi).
    rewrite seq_nth by exact Hi. reflexivity.
Qed.

Lemma mean_returns (data : list Q) :
  data <> [] -> mean data = Ok (Qsum data / Qlen data).
Proof. destruct data; [congruence | reflexivity]. Qed.

Lemma median_returns (data : list Q) :
  data <> [] -> exists v, median data = Ok v.
Proof.
  intros H. unfold median. rewrite sorted_length.
  destruct data as [|x r]; [congruence|].
  cbn [List.length]. destruct (Nat.odd (S (List.length r))); eauto.
Qed.

Lemma stdev_returns (sqrt : Q -> Q) (data : list Q) :
  (2 <= List.length data)%nat -> exists v, stdev sqrt data = Ok v.
Proof.
  intros H. unfold stdev.
  destruct (Nat.ltb (List.length data) 2) eqn:E; [apply Nat.ltb_lt in E; lia|].
  eauto.
Qed.

Lemma stdev_raises (sqrt : Q -> Q) (x : Q) :
  stdev sqrt [x]
  = Raise (StatisticsError (py "stdev requires at least two data points")).
Proof. reflexivity. Qed.

(** [sorted(data)] holds the elements of [data], in ascending order. *)
Lemma insert_permutation (x : Q) (l : list Q) : Permutation (insert x l) (x :: l).
Proof.
  induction l as [|y r IH]; [apply Permutation_refl|].
  cbn [insert]. destruct (Qle_bool x y); [apply Permutation_refl|].
  apply perm_trans with (y :: x :: r); [now apply perm_skip | apply perm_swap].
Qed.

Lemma sorted_permutation (data : list Q) : Permutation (sorted data) data.
Proof.
  induction data as [|x r IH]; [apply perm_nil|].
  cbn [sorted fold_right]. fold (sorted r).
  apply perm_trans with (x :: sorted r);
    [apply insert_permutation | now apply perm_skip].
Qed.

Lemma insert_ascending (x : Q) (l : list Q) :
  Sorted Qle l -> Sorted Qle (insert x l).
Proof.
  induction l as [|y r IH]; intros H.
  - cbn. repeat constructor.
  - cbn [insert]. destruct (Qle_bool x y) eqn:E.
    + apply Qle_bool_iff in E. constructor; [exact H | now constructor].
    + assert (Hyx : y <= x).
      { apply Qlt_le_weak. apply (proj1 (Qgtb_true x y)).
        unfold Qgtb. now rewrite E. }
      inversion H as [|? ? Hr Hhd]; subst.
      constructor; [now apply IH|].
      destruct r as [|z r']; [cbn; now constructor|].
      cbn [insert]. destruct (Qle_bool x z); constructor;
        [exact Hyx | now inversion Hhd].
Qed.

Lemma sorted_ascending (data : list Q) : Sorted Qle (sorted data).
Proof.
  induction data as [|x r IH]; [constructor|].
  cbn [sorted fold_right]. fold (sorted r). now apply insert_ascending.
Qed.

(** A cut point whose rank [i * (ld + 1) / n] lies within [1 .. ld - 1]:
    the two neighbours of that rank, weighted by the remainder. *)
Lemma cut_point_within (data : list Q) (ld n i : nat) :
  (0 < n)%nat ->
  (1 <= i * (ld + 1) / n <= ld - 1)%nat ->
  let j := (i * (ld + 1) / n)%nat in
  let d := Z.of_nat (i * (ld + 1) mod n) in
  cut_point data ld n i
  = (nth (j - 1) data 0 * inject_Z (Z.of_nat n - d) + nth j data 0 * inject_Z d)
    / inject_Z (Z.of_nat n).
Proof.
  intros Hn Hj. cbv zeta. unfold cut_point.
  destruct (Nat.ltb (i * (ld + 1) / n) 1) eqn:E1; [apply Nat.ltb_lt in E1; lia|].
  destruct (Nat.ltb (ld - 1) (i * (ld + 1) / n)) eqn:E2;
    [apply Nat.ltb_lt in E2; lia|].
  assert (Hd : (Z.of_nat (i * (ld + 1)) - Z.of_nat (i * (ld + 1) / n * n))%Z
               = Z.of_nat (i * (ld + 1) mod n)).
  { pose proof (Nat.div_mod_eq (i * (ld + 1)) n). lia. }
  rewrite Hd. reflexivity.
Qed.

(** From 20 samples on the rank of the 19th of 19 cut points is not
    clamped, and from 100 samples on that of the 99th of 99. *)
Lemma rank_p95 (n : nat) :
  (20 <= n)%nat -> (19 <= 19 * (n + 1) / 20 <= n - 1)%nat.
Proof.
  intros H. split.
  - apply Nat.div_le_lower_bound; lia.
  - assert (19 * (n + 1) / 20 < n)%nat; [|lia].
    apply Nat.Div0.div_lt_upper_bound. lia.
Qed.

Lemma rank_p99 (n : nat) :
  (100 <= n)%nat -> (99 <= 99 * (n + 1) / 100 <= n - 1)%nat.
Proof.
  intros H. split.
  - apply Nat.div_le_lower_bound; lia.
  - assert (99 * (n + 1) / 100 < n)%nat; [|lia].
    apply Nat.Div0.div_lt_upper_bound. lia.
Qed.

End StatisticsFacts.

(** ** Metrics *)

Section MonadFacts.

Import pyexc.

Context {S A B : Type}.

Lemma bind_ok_inv (c : M S A) (k : A -> M S B) (s s' : S) (b : B) :
  bind c k s = (Ok b, s') ->
  exists a s1, c s = (Ok a, s1) /\ k a s1 = (Ok b, s').
Proof.
  unfold bind. destruct (c s) as [[a|e] s1]; [eauto | discriminate].
Qed.

Lemma bind_step (c : M S A) (k : A -> M S B) (s s1 : S) (a : A) :
  c s = (Ok a, s1) -> bind c k s = k a s1.
Proof. intros H. unfold bind. now rewrite H. Qed.

Lemma bind_raise (c : M S A) (k : A -> M S B) (s s1 : S) (e : exn) :
  c s = (Raise e, s1) -> bind c k s = (Raise e, s1).
Proof. intros H. unfold bind. now rewrite H. Qed.

Lemma lift_ok_inv (c : res A) (s s' : S) (a : A) :
  lift c s = (Ok a, s') -> c = Ok a /\ s' = s.
Proof. unfold lift. intros H. injection H as -> ->. auto. Qed.

Lemma returns_bind (c : M S A) (k : A -> M S B) :
  returns c -> (forall a, returns (k a)) -> returns (bind c k).
Proof.
  intros Hc Hk s. destruct (Hc s) as (a & s1 & E).
  rewrite (bind_step c k s s1 a E). apply Hk.
Qed.

Lemma returns_lift (c : res A) :
  (exists a, c = Ok a) -> returns (lift (S := S) c).
Proof. intros [a ->] s. exists a, s. reflexivity. Qed.

Lemma returns_ret (a : A) : returns (ret (S := S) a).
Proof. intros s. exists a, s. reflexivity. Qed.

End MonadFacts.

Section MetricsFacts.

Import pystr pyexc statistics metrics.
Local Open Scope list_scope.
Local Open Scope Q_scope.

Variable clock : nat -> Q.
Variable sqrt : Q -> Q.
Variable now_iso : str.

(** *** Guarded entries do not raise *)

Lemma ratio_returns (x n : Q) : exists v, ratio x n = Ok v.
Proof.
  unfold ratio. destruct (Qgtb n 0) eqn:E; [|eauto].
  rewrite (div_positive x n E). eauto.
Qed.

Lemma if_data_mean_returns (l : list Q) : exists v, if_data l (mean l) = Ok v.
Proof. destruct l; cbn; eauto. Qed.

Lemma if_data_mean_ms_returns (l : list Q) :
  exists v, if_data l (times 1000 (mean l)) = Ok v.
Proof. destruct l; cbn; eauto. Qed.

Lemma if_data_median_returns (l : list Q) :
  exists v, if_data l (median l) = Ok v.
Proof.
  destruct l as [|x r]; [cbn; eauto|].
  apply (median_returns (x :: r)). discriminate.
Qed.

Lemma if_data_median_ms_returns (l : list Q) :
  exists v, if_data l (times 1000 (median l)) = Ok v.
Proof.
  destruct l as [|x r]; [cbn; eauto|].
  destruct (median_returns (x :: r)) as [v Hv]; [discriminate|].
  unfold if_data, nonempty, times. rewrite Hv. cbn. eauto.
Qed.

Lemma if_many_stdev_returns (l : list Q) :
  exists v, if_many l (stdev sqrt l) = Ok v.
Proof.
  unfold if_many. destruct (Nat.ltb 1 (List.length l)) eqn:E; [|eauto].
  apply Nat.ltb_lt in E. now apply stdev_returns.
Qed.

Lemma if_many_stdev_ms_returns (l : list Q) :
  exists v, if_many l (times 1000 (stdev sqrt l)) = Ok v.
Proof.
  unfold if_many. destruct (Nat.ltb 1 (List.length l)) eqn:E; [|eauto].
  apply Nat.ltb_lt in E.
  destruct (stdev_returns sqrt l E) as [v Hv].
  unfold times. rewrite Hv. cbn. eauto.
Qed.

Lemma if_data_value_returns (l : list Q) (v : Q) :
  exists w, if_data l (Ok v) = Ok w.
Proof. unfold if_data. destruct (nonempty l); eauto. Qed.

(** *** The two percentile entries *)

Lemma latency_p95_value (l : list Q) :
  l <> [] ->
  latency_p95_seconds l
  = Ok (if Nat.leb 20 (List.length l)
        then cut_point (sorted l) (List.length l) 20 19
        else list_max l).
Proof.
  intros Hl. unfold latency_p95_seconds.
  destruct (Nat.leb 20 (List.length l)) eqn:E.
  - apply Nat.leb_le in E.
    destruct (quantiles_cuts l 20) as (cuts & -> & _ & Hnth); [lia | lia |].
    cbn [rbind]. unfold index. rewrite (Hnth 18%nat) by lia. reflexivity.
  - destruct l; [congruence | reflexivity].
Qed.

Lemma latency_p99_value (l : list Q) :
  l <> [] ->
  latency_p99_seconds l
  = Ok (if Nat.leb 100 (List.length l)
        then cut_point (sorted l) (List.length l) 100 99
        else list_max l).
Proof.
  intros Hl. unfold latency_p99_seconds.
  destruct (Nat.leb 100 (List.length l)) eqn:E.
  - apply Nat.leb_le in E.
    destruct (quantiles_cuts l 100) as (cuts & -> & _ & Hnth); [lia | lia |].
    cbn [rbind]. unfold index. rewrite (Hnth 98%nat) by lia. reflexivity.
  - destruct l; [congruence | reflexivity].
Qed.

Lemma latency_p95_returns (l : list Q) : exists v, latency_p95_seconds l = Ok v.
Proof.
  destruct l as [|x r]; [cbn; eauto|].
  rewrite latency_p95_value by discriminate. eauto.
Qed.

Lemma latency_p99_returns (l : list Q) : exists v, latency_p99_seconds l = Ok v.
Proof.
  destruct l as [|x r]; [cbn; eauto|].
  rewrite latency_p99_value by discriminate. eauto.
Qed.

(** The two percentile entries, written out on the latencies in
    ascending order: from 20 samples on, the 95th percentile lies
    between the neighbours of rank [19 * (n + 1) / 20], weighted by the
    remainder of that division; from 100 samples on, the 99th lies
    between the neighbours of rank [99 * (n + 1) / 100]; with fewer
    samples each is the largest latency. *)
Lemma percentile_by_rank (latencies : list Q) :
  latencies <> [] ->
  let n := List.length latencies in
  exists ordered,
    Permutation ordered latencies /\ Sorted Qle ordered
    /\ latency_p95_seconds latencies
       = Ok (if Nat.leb 20 n then
               let j := (19 * (n + 1) / 20)%nat in
               let d := Z.of_nat (19 * (n + 1) mod 20) in
               (nth (j - 1) ordered 0 * inject_Z (20 - d)
                + nth j ordered 0 * inject_Z d) / 20
             else list_max latencies)
    /\ latency_p99_seconds latencies
       = Ok (if Nat.leb 100 n then
               let j := (99 * (n + 1) / 100)%nat in
               let d := Z.of_nat (99 * (n + 1) mod 100) in
               (nth (j - 1) ordered 0 * inject_Z (100 - d)
                + nth j ordered 0 * inject_Z d) / 100
             else list_max latencies).
Proof.
  intros Hne. cbv zeta. exists (sorted latencies).
  split; [apply sorted_permutation|].
  split; [apply sorted_ascending|].
  rewrite (latency_p95_value latencies Hne), (latency_p99_value latencies Hne).
  split.
  - destruct (Nat.leb 20 (List.length latencies)) eqn:E; [|reflexivity].
    apply Nat.leb_le in E. f_equal.
    apply (cut_point_within (sorted latencies) (List.length latencies) 20 19);
      [lia|].
    pose proof (rank_p95 (List.length latencies) E). lia.
  - destruct (Nat.leb 100 (List.length latencies)) eqn:E; [|reflexivity].
    apply Nat.leb_le in E. f_equal.
    apply (cut_point_within (sorted latencies) (List.length latencies) 100 99);
      [lia|].
    pose proof (rank_p99 (List.length latencies) E). lia.
Qed.

(** *** The coefficient of variation *)

Lemma latency_cov_returns (l : list Q) :
  List.length l <> 1%nat -> exists v, latency_cov sqrt l = Ok v.
Proof.
  intros Hlen. unfold latency_cov.
  destruct l as [|x r]; [cbn; eauto|].
  cbn [nonempty]. rewrite mean_returns by discriminate. cbn [rbind].
  destruct (Qgtb _ 0) eqn:E; [|eauto].
  destruct (stdev_returns sqrt (x :: r)) as [v ->].
  { cbn [List.length] in *. lia. }
  cbn [rbind]. rewrite (div_positive v _ E). eauto.
Qed.

Lemma latency_cov_single (x : Q) :
  0 < x ->
  latency_cov sqrt [x]
  = Raise (StatisticsError (py "stdev requires at least two data points")).
Proof.
  intros Hx. unfold latency_cov. cbn [nonempty mean rbind].
  assert (E : Qgtb (Qsum [x] / Qlen [x]) 0 = true).
  { apply Qgtb_true. cbn [Qsum fold_right Qlen List.length].
    setoid_replace ((x + 0) / inject_Z (Z.of_nat 1)) with x; [exact Hx|].
    change (inject_Z (Z.of_nat 1)) with 1. field. }
  rewrite E. reflexivity.
Qed.

Lemma latency_cov_single_idle (x : Q) :
  x <= 0 -> latency_cov sqrt [x] = Ok 0.
Proof.
  intros Hx. unfold latency_cov. cbn [nonempty mean rbind].
  assert (E : Qgtb (Qsum [x] / Qlen [x]) 0 = false).
  { apply Qgtb_false. cbn [Qsum fold_right Qlen List.length].
    setoid_replace ((x + 0) / inject_Z (Z.of_nat 1)) with x; [exact Hx|].
    change (inject_Z (Z.of_nat 1)) with 1. field. }
  rewrite E. reflexivity.
Qed.

(** *** The duration of the test *)

Lemma test_duration_returns (self : PerformanceMetrics) :
  returns (test_duration clock self).
Proof.
  intros k. unfold test_duration.
  destruct (Qgtb (test_end_time self) (test_start_time self)).
  - eexists. eexists. reflexivity.
  - eexists. eexists. reflexivity.
Qed.

(** After [end_test()] the duration is read without the clock. *)
Lemma test_duration_closed (self : PerformanceMetrics) (k : nat) :
  Qgtb (test_end_time self) (test_start_time self) = true ->
  test_duration clock self k
  = (Ok (test_end_time self - test_start_time self), k).
Proof. intros H. unfold test_duration. now rewrite H. Qed.

Lemma closed_duration_positive (self : PerformanceMetrics) :
  Qgtb (test_end_time self) (test_start_time self) = true ->
  Qgtb (test_end_time self - test_start_time self) 0 = true.
Proof.
  intros H. apply Qgtb_true in H. apply Qgtb_true.
  apply (Qplus_lt_l _ _ (test_start_time self)).
  setoid_replace (test_end_time self - test_start_time self + test_start_time self)
    with (test_end_time self) by ring.
  now rewrite Qplus_0_l.
Qed.

Lemma per_duration_returns (self : PerformanceMetrics) (x : Q) (scale : Q -> Q) :
  Qgtb (test_end_time self) (test_start_time self) = true ->
  returns (per_duration clock self x scale).
Proof.
  intros H k. unfold per_duration.
  rewrite (bind_step _ _ _ _ _ (test_duration_closed self k H)).
  rewrite (closed_duration_positive self H).
  rewrite (bind_step _ _ _ _ _ (test_duration_closed self k H)).
  unfold lift, bind, ret.
  rewrite (div_positive x _ (closed_duration_positive self H)).
  eexists. eexists. reflexivity.
Qed.

(** *** The derived metrics *)

Lemma advanced_metrics_of (base : pydict.dict mvalue) (ml thr mms : Q) :
  lookup (py "mean_latency_seconds") base = Ok ml ->
  lookup (py "throughput_rps") base = Ok thr ->
  lookup (py "mean_latency_ms") base = Ok mms ->
  exists a b c,
    _calculate_advanced_metrics base
    = Ok [(py "server_efficiency", Num a); (py "processing_rate", Num b);
          (py "performance_index", Num c)].
Proof.
  intros H1 H2 H3. unfold _calculate_advanced_metrics.
  rewrite H1, H2, H3. cbn [rbind].
  destruct (Qgtb ml 0) eqn:E1.
  - rewrite (div_positive thr ml E1), (div_positive 1 ml E1). cbn [rbind].
    destruct (Qgtb mms 0) eqn:E2.
    + rewrite (div_positive thr mms E2). cbn [rbind]. eauto.
    + cbn [rbind]. eauto.
  - cbn [rbind]. destruct (Qgtb mms 0) eqn:E2.
    + rewrite (div_positive thr mms E2). cbn [rbind]. eauto.
    + cbn [rbind]. eauto.
Qed.

Lemma advanced_metrics_shape (base adv : pydict.dict mvalue) :
  _calculate_advanced_metrics base = Ok adv ->
  exists a b c,
    adv = [(py "server_efficiency", Num a); (py "processing_rate", Num b);
           (py "performance_index", Num c)].
Proof.
  unfold _calculate_advanced_metrics.
  repeat match goal with
         | |- context [rbind ?c _] =>
             destruct c; cbn [rbind]; try discriminate
         end.
  intros H. injection H as <-. eauto.
Qed.

(** *** The whole computation *)

Ltac lift_step lemma :=
  apply returns_bind; [apply returns_lift; apply lemma | intros ?].

(** With the test ended, the metrics are returned whenever the entry
    [latency_cov] is. *)
Lemma calculate_metrics_returns (self : PerformanceMetrics) :
  Qgtb (test_end_time self) (test_start_time self) = true ->
  (exists v, latency_cov sqrt (map response_time (requests self)) = Ok v) ->
  returns (calculate_metrics clock sqrt now_iso self).
Proof.
  intros Hclosed Hcov. unfold calculate_metrics.
  destruct (requests self) as [|first rest] eqn:Hreq; [apply returns_ret|].
  apply returns_bind; [apply test_duration_returns | intros ?].
  lift_step ratio_returns.
  lift_step ratio_returns.
  lift_step if_data_mean_returns.
  lift_step if_data_mean_ms_returns.
  lift_step if_data_median_returns.
  lift_step if_data_median_ms_returns.
  lift_step if_many_stdev_returns.
  lift_step if_many_stdev_ms_returns.
  lift_step if_data_value_returns.
  lift_step if_data_value_returns.
  lift_step if_data_value_returns.
  lift_step if_data_value_returns.
  lift_step latency_p95_returns.
  lift_step latency_p99_returns.
  apply returns_bind; [now apply per_duration_returns | intros ?].
  apply returns_bind; [now apply per_duration_returns | intros ?].
  apply returns_bind; [now apply per_duration_returns | intros ?].
  lift_step if_data_mean_returns.
  lift_step if_many_stdev_returns.
  apply returns_bind; [apply returns_lift; exact Hcov | intros ?].
  apply returns_bind; [|intros ?; apply returns_ret].
  apply returns_lift.
  match goal with
  | |- exists _, _calculate_advanced_metrics ?base = _ =>
      destruct (advanced_metrics_of base a2 a14 a3) as (x & y & z & ->);
        [reflexivity | reflexivity | reflexivity | eauto]
  end.
Qed.

(** What is returned holds the two percentile entries as they were
    computed. *)
Lemma calculate_metrics_reports (self : PerformanceMetrics) (k k' : nat)
      (m : pydict.dict mvalue) :
  requests self <> [] ->
  calculate_metrics clock sqrt now_iso self k = (Ok m, k') ->
  exists p95 p99,
    latency_p95_seconds (map response_time (requests self)) = Ok p95
    /\ latency_p99_seconds (map response_time (requests self)) = Ok p99
    /\ pydict.get (py "latency_p95_seconds") m = Some (Num p95)
    /\ pydict.get (py "latency_p99_seconds") m = Some (Num p99).
Proof.
  intros Hne H. unfold calculate_metrics in H.
  destruct (requests self) as [|first rest] eqn:Hreq; [congruence|].
  repeat (apply bind_ok_inv in H;
          let a := fresh "a" in
          let s := fresh "s" in
          let E := fresh "E" in
          destruct H as (a & s & E & H)).
  unfold ret in H. injection H as <- _.
  repeat match goal with
         | E : lift _ _ = (Ok _, _) |- _ => apply lift_ok_inv in E; destruct E as [E _]
         end.
  match goal with
  | E : _calculate_advanced_metrics _ = Ok _ |- _ =>
      destruct (advanced_metrics_shape _ _ E) as (x & y & z & ->)
  end.
  match goal with
  | E1 : latency_p95_seconds _ = Ok ?p, E2 : latency_p99_seconds _ = Ok ?q |- _ =>
      exists p, q; split; [exact E1|]; split; [exact E2|]
  end.
  split; vm_compute; reflexivity.
Qed.

(** *** One sample *)

Lemma bind_not_ok {S A B : Type} (c : M S A) (k : A -> M S B) (s : S) :
  (forall a s1, is_ok (fst (k a s1)) = false) ->
  is_ok (fst (bind c k s)) = false.
Proof.
  intros Hk. unfold bind. destruct (c s) as [[a|e] s1]; [apply Hk | reflexivity].
Qed.

(** With one sample of positive latency no metrics are returned. *)
Lemma single_sample_not_ok (self : PerformanceMetrics) (r : RequestMetrics)
      (k : nat) :
  requests self = [r] -> 0 < response_time r ->
  is_ok (fst (calculate_metrics clock sqrt now_iso self k)) = false.
Proof.
  intros Hreq Hpos. unfold calculate_metrics. rewrite Hreq.
  cbn [map filter List.length].
  revert k.
  repeat (first
            [ rewrite (latency_cov_single (response_time r) Hpos);
              intros k; reflexivity
            | intros k; apply bind_not_ok; clear k; intros ? k; revert k ]).
Qed.

(** With the test ended, what is raised is the error of [stdev]. *)
Lemma single_sample_raises_statistics_error (self : PerformanceMetrics)
      (r : RequestMetrics) (k : nat) :
  requests self = [r] -> 0 < response_time r ->
  Qgtb (test_end_time self) (test_start_time self) = true ->
  fst (calculate_metrics clock sqrt now_iso self k)
  = Raise (StatisticsError (py "stdev requires at least two data points")).
Proof.
  intros Hreq Hpos Hclosed. unfold calculate_metrics. rewrite Hreq.
  cbn [map List.length].
  pose proof (latency_cov_single (response_time r) Hpos) as Hcov.
  repeat match goal with
         | |- context [bind (lift (latency_cov sqrt ?l)) ?f ?s] =>
             rewrite (bind_raise (lift (latency_cov sqrt l)) f s s _
                        (f_equal (fun z => (z, s)) Hcov));
             reflexivity
         | |- context [bind (lift ?c) ?f ?s] =>
             let v := fresh "v" in
             let E := fresh "E" in
             assert (exists v, c = Ok v) as [v E]
               by first [ apply ratio_returns | apply if_data_mean_returns
                        | apply if_data_mean_ms_returns
                        | apply if_data_median_returns
                        | apply if_data_median_ms_returns
                        | apply if_many_stdev_returns
                        | apply if_many_stdev_ms_returns
                        | apply if_data_value_returns
                        | apply latency_p95_returns
                        | apply latency_p99_returns ];
             rewrite (bind_step (lift c) f s s v (f_equal (fun z => (z, s)) E))
         | |- context [bind (test_duration clock self) ?f ?s] =>
             rewrite (bind_step _ f s s _ (test_duration_closed self s Hclosed))
         | |- context [bind (per_duration clock self ?x ?sc) ?f ?s] =>
             let v := fresh "v" in
             let s' := fresh "s" in
             let E := fresh "E" in
             destruct (per_duration_returns self x sc Hclosed s) as (v & s' & E);
             rewrite (bind_step _ f s s' v E)
         end.
Qed.

End MetricsFacts.

(** C5 (a defect of the code): with exactly one sample, of positive
    latency, no percentile is reported.  The expressions of the entries
    [latency_p95_seconds] and [latency_p99_seconds] do evaluate to that
    latency, the largest of the sample, as they should below 20 and
    below 100 samples; but the dictionary that holds them is never
    returned: [calculate_metrics] raises, whatever the clock reads, and
    with the test ended what it raises is the error of
    [statistics.stdev], which the entry [latency_cov] calls on one
    data point a few lines further down. *)
Theorem one_sample_reports_no_percentile
        (clock : nat -> Q) (sqrt : Q -> Q) (now_iso : pystr.str)
        (self : metrics.PerformanceMetrics) (r : metrics.RequestMetrics) :
  metrics.requests self = [r] -> (0 < metrics.response_time r)%Q ->
  let latencies := map metrics.response_time (metrics.requests self) in
  metrics.nonempty latencies = true
  /\ statistics.list_max latencies = metrics.response_time r
  /\ metrics.latency_p95_seconds latencies = pyexc.Ok (metrics.response_time r)
  /\ metrics.latency_p99_seconds latencies = pyexc.Ok (metrics.response_time r)
  /\ (forall k m k',
         metrics.calculate_metrics clock sqrt now_iso self k <> (pyexc.Ok m, k'))
  /\ (statistics.Qgtb (metrics.test_end_time self) (metrics.test_start_time self)
      = true ->
      forall k,
        fst (metrics.calculate_metrics clock sqrt now_iso self k)
        = pyexc.Raise
            (pyexc.StatisticsError
               (pystr.py "stdev requires at least two data points"))).
Proof.
  intros Hreq Hpos. cbv zeta. rewrite Hreq. cbn [map].
  split; [reflexivity|].
  split; [reflexivity|].
  split; [reflexivity|].
  split; [reflexivity|].
  split.
  - intros k m k' H.
    pose proof (single_sample_not_ok clock sqrt now_iso self r k Hreq Hpos) as Hno.
    rewrite H in Hno. discriminate.
  - intros Hclosed k.
    now apply (single_sample_raises_statistics_error clock sqrt now_iso self r).
Qed.

Lemma one_sample_reports_no_percentile_witness :
  metrics.latency_p95_seconds
    (map metrics.response_time (metrics.requests examples.one_sample))
  = pyexc.Ok (1 # 10)
  /\ fst (metrics.calculate_metrics examples.still_clock examples.rational_root
            (pystr.py "2026-11-04T12:00:00") examples.one_sample 0%nat)
     = pyexc.Raise
         (pyexc.StatisticsError
            (pystr.py "stdev requires at least two data points")).
Proof.
  split.
  - exact (proj1 (proj2 (proj2
             (one_sample_reports_no_percentile
                examples.still_clock examples.rational_root
                (pystr.py "2026-11-04T12:00:00") examples.one_sample
                (examples.sample (1 # 10)) eq_refl eq_refl)))).
  - exact (proj2 (proj2 (proj2 (proj2 (proj2
             (one_sample_reports_no_percentile
                examples.still_clock examples.rational_root
                (pystr.py "2026-11-04T12:00:00") examples.one_sample
                (examples.sample (1 # 10)) eq_refl eq_refl)))))
             eq_refl 0%nat).
Defined.

(** C6 (a defect of the code): with exactly one sample, of positive
    latency, the computation of the metrics raises: the entry
    [latency_cov] calls [statistics.stdev] on one data point, without
    the guard [len(latencies) > 1] that the entries of the standard
    deviation have.  With the test ended the error is that of
    [stdev]. *)
Theorem single_sample_raises
        (clock : nat -> Q) (sqrt : Q -> Q) (now_iso : pystr.str)
        (self : metrics.PerformanceMetrics) (r : metrics.RequestMetrics)
        (k : nat) :
  metrics.requests self = [r] -> (0 < metrics.response_time r)%Q ->
  pyexc.is_ok (fst (metrics.calculate_metrics clock sqrt now_iso self k)) = false
  /\ (statistics.Qgtb (metrics.test_end_time self) (metrics.test_start_time self)
      = true ->
      fst (metrics.calculate_metrics clock sqrt now_iso self k)
      = pyexc.Raise
          (pyexc.StatisticsError
             (pystr.py "stdev requires at least two data points"))).
Proof.
  intros Hreq Hpos. split.
  - now apply (single_sample_not_ok clock sqrt now_iso self r).
  - intros Hclosed.
    now apply (single_sample_raises_statistics_error clock sqrt now_iso self r).
Qed.

Lemma single_sample_raises_witness :
  fst (metrics.calculate_metrics examples.still_clock examples.rational_root
         (pystr.py "2026-11-04T12:00:00") examples.one_sample 0%nat)
  = pyexc.Raise
      (pyexc.StatisticsError (pystr.py "stdev requires at least two data points")).
Proof.
  apply (proj2 (single_sample_raises examples.still_clock examples.rational_root
                  (pystr.py "2026-11-04T12:00:00") examples.one_sample
                  (examples.sample (1 # 10)) 0%nat eq_refl eq_refl)).
  reflexivity.
Defined.

(** With the test ended, the metrics are returned for every other
    sequence of samples: no division raises. *)
Lemma metrics_returned_otherwise
      (clock : nat -> Q) (sqrt : Q -> Q) (now_iso : pystr.str)
      (self : metrics.PerformanceMetrics) :
  statistics.Qgtb (metrics.test_end_time self) (metrics.test_start_time self)
  = true ->
  (forall r, metrics.requests self = [r] -> (metrics.response_time r <= 0)%Q) ->
  pyexc.returns (metrics.calculate_metrics clock sqrt now_iso self).
Proof.
  intros Hclosed Hone.
  apply calculate_metrics_returns; [exact Hclosed|].
  destruct (metrics.requests self) as [|r [|r' rest]] eqn:Hreq.
  - cbn. eauto.
  - cbn [map]. rewrite latency_cov_single_idle; [eauto | now apply Hone].
  - apply latency_cov_returns. cbn [map List.length]. lia.
Qed.

(** For every sequence of samples that is not empty, the metrics that
    are returned hold the two percentile entries as [percentile_by_rank]
    writes them out (in exact arithmetic: the interpreter evaluates the
    same expressions in floating point); the largest latency is one of
    the latencies and bounds them; and with the test ended the metrics
    are returned unless there is a single sample, of positive
    latency. *)
Lemma reported_percentiles
      (clock : nat -> Q) (sqrt : Q -> Q) (now_iso : pystr.str)
      (self : metrics.PerformanceMetrics) :
  metrics.nonempty (metrics.requests self) = true ->
  let latencies := map metrics.response_time (metrics.requests self) in
  let n := List.length latencies in
  exists ordered,
    Permutation ordered latencies /\ Sorted Qle ordered
    /\ let p95 :=
         if Nat.leb 20 n then
           let j := (19 * (n + 1) / 20)%nat in
           let d := Z.of_nat (19 * (n + 1) mod 20) in
           ((nth (j - 1) ordered 0 * inject_Z (20 - d)
             + nth j ordered 0 * inject_Z d) / 20)%Q
         else statistics.list_max latencies in
       let p99 :=
         if Nat.leb 100 n then
           let j := (99 * (n + 1) / 100)%nat in
           let d := Z.of_nat (99 * (n + 1) mod 100) in
           ((nth (j - 1) ordered 0 * inject_Z (100 - d)
             + nth j ordered 0 * inject_Z d) / 100)%Q
         else statistics.list_max latencies in
       (In (statistics.list_max latencies) latencies
        /\ forall x, In x latencies -> (x <= statistics.list_max latencies)%Q)
       /\ (forall k k' m,
              metrics.calculate_metrics clock sqrt now_iso self k
              = (pyexc.Ok m, k') ->
              pydict.get (pystr.py "latency_p95_seconds") m
              = Some (metrics.Num p95)
              /\ pydict.get (pystr.py "latency_p99_seconds") m
                 = Some (metrics.Num p99))
       /\ (statistics.Qgtb (metrics.test_end_time self)
                           (metrics.test_start_time self) = true ->
           (forall r, metrics.requests self = [r] ->
                      (metrics.response_time r <= 0)%Q) ->
           pyexc.returns (metrics.calculate_metrics clock sqrt now_iso self)).
Proof.
  intros Hne. cbv zeta.
  assert (Hreq : metrics.requests self <> []).
  { destruct (metrics.requests self); [discriminate | discriminate]. }
  assert (Hlat : map metrics.response_time (metrics.requests self) <> []).
  { destruct (metrics.requests self); [congruence | discriminate]. }
  destruct (percentile_by_rank _ Hlat) as (ordered & Hperm & Hasc & H95 & H99).
  exists ordered. split; [exact Hperm|]. split; [exact Hasc|].
  split; [now apply list_max_spec|].
  split.
  - intros k k' m Hm.
    destruct (calculate_metrics_reports clock sqrt now_iso self k k' m Hreq Hm)
      as (p95 & p99 & E95 & E99 & G95 & G99).
    rewrite H95 in E95. rewrite H99 in E99.
    injection E95 as <-. injection E99 as <-. split; assumption.
  - intros Hclosed Hone.
    now apply metrics_returned_otherwise.
Qed.

(* ================================================================== *)
(** * Evaluations *)

(** [GET /] with the identity token is answered 200 and counted once
    by the server and by the handlers. *)
Example get_root_served :
  option_map http_utils.status_code
    (fst (sequential_server._handle_client pystr.plain_db config.shipped
            examples.env examples.get_root examples.sequential))
  = Some 200%Z
  /\ server_handlers.requests_served
       (sequential_server.handlers
          (snd (sequential_server._handle_client pystr.plain_db config.shipped
                  examples.env examples.get_root examples.sequential)))
     = 1%Z
  /\ sequential_server.requests_processed
       (snd (sequential_server._handle_client pystr.plain_db config.shipped
               examples.env examples.get_root examples.sequential))
     = 1%Z.
Proof. repeat split; vm_compute; reflexivity. Qed.

(** [HEAD /] is answered 200 with an empty body and [Content-Length: 0]. *)
Example head_root_has_no_body :
  option_map
    (fun resp =>
       (http_utils.status_code resp, http_utils.resp_body resp,
        pydict.get (pystr.py "Content-Length") (http_utils.resp_headers resp)))
    (fst (sequential_server._handle_client pystr.plain_db config.shipped
            examples.env examples.head_root examples.sequential))
  = Some (200%Z, [], Some (pystr.py "0")).
Proof. vm_compute; reflexivity. Qed.

(** An empty request is answered with nothing, and no counter moves. *)
Example empty_request_is_dropped :
  sequential_server._handle_client pystr.plain_db config.shipped
    examples.env [] examples.sequential
  = (None, examples.sequential).
Proof. reflexivity. Qed.

(** Under a configuration whose token cannot be computed, the check of
    a present identity header raises inside [_parse_request]: the
    request keeps its method and is marked not valid. *)
Example failed_check_clears_valid :
  fst (http_utils.parse_request_try pystr.plain_db examples.nameless
         (http_utils.new_request examples.get_with_some_header))
  = pyexc.Raise
      (pyexc.ValueError (pystr.py "Matrícula e nome do aluno são obrigatórios"))
  /\ http_utils.line_ok pystr.plain_db examples.get_with_some_header = true
  /\ match http_utils.HTTPRequest_init pystr.plain_db examples.nameless
             examples.get_with_some_header with
     | pyexc.Ok r =>
         (http_utils.method r, http_utils.valid r, http_utils.custom_id_valid r)
     | pyexc.Raise _ => (None, true, true)
     end
     = (Some (pystr.py "GET"), false, false).
Proof. repeat split; vm_compute; reflexivity. Qed.

(** Ten samples of 0.10 to 0.19 seconds over 1.9 seconds: throughput
    10/1.9 requests per second, mean latency 145 ms, success rate 1,
    both percentiles the largest latency. *)
Example ten_samples_metrics :
  examples.entry examples.ten_samples "throughput_rps" = Some (100 # 19)
  /\ examples.entry examples.ten_samples "mean_latency_ms" = Some 145
  /\ examples.entry examples.ten_samples "success_rate" = Some 1
  /\ examples.entry examples.ten_samples "latency_p95_seconds" = Some (19 # 100)
  /\ examples.entry examples.ten_samples "latency_p99_seconds" = Some (19 # 100).
Proof. repeat split; vm_compute; reflexivity. Qed.

(** Twenty-five samples of 0.01 to 0.25 seconds: the 95th percentile is
    the last of the 19 cut points, 0.247. *)
Example twenty_five_samples_p95 :
  examples.entry examples.twenty_five_samples "latency_p95_seconds"
  = Some (247 # 1000)
  /\ examples.entry examples.twenty_five_samples "latency_p99_seconds"
     = Some (1 # 4).
Proof. split; vm_compute; reflexivity. Qed.

(** With the test not ended, [test_duration] reads the clock once for
    the guard and once more for the division: a clock that is set back
    to the start time in between makes the division raise. *)
Example unended_test_division :
  fst (metrics.calculate_metrics examples.clock_set_back examples.rational_root
         (pystr.py "2026-11-04T12:00:00") examples.unended_run 0%nat)
  = pyexc.Raise pyexc.ZeroDivisionError.
Proof. vm_compute; reflexivity. Qed.

(* ================================================================== *)
(** * Further properties of the code *)

(** ** The body of a parsed request *)

Section BodyFacts.

Import pystr pyexc config http_utils.
Local Open Scope list_scope.
Local Open Scope N_scope.

Lemma join_cons_head (sep : str) (c : N) (l : list str) :
  l <> [] -> join sep (cons_head c l) = c :: join sep l.
Proof.
  destruct l as [|h [|h' t]]; [congruence | reflexivity | reflexivity].
Qed.

Lemma split_crlf_step (c d : N) (r : str) :
  split_crlf (c :: d :: r)
  = if (c =? 13) && (d =? 10) then [] :: split_crlf r
    else cons_head c (split_crlf (d :: r)).
Proof. reflexivity. Qed.

(** Splitting at CRLF and joining with CRLF gives the text back. *)
Lemma join_split_crlf (s : str) : join crlf (split_crlf s) = s.
Proof.
  assert (H : forall n s, (List.length s <= n)%nat ->
                          join crlf (split_crlf s) = s).
  { induction n as [|n IH]; intros s' Hlen.
    - destruct s'; [reflexivity | simpl in Hlen; lia].
    - destruct s' as [|c [|d r']]; [reflexivity | reflexivity |].
      rewrite split_crlf_step.
      destruct ((c =? 13) && (d =? 10)) eqn:E.
      + apply andb_true_iff in E as [Ec Ed].
        apply N.eqb_eq in Ec. apply N.eqb_eq in Ed. subst c d.
        pose proof (split_crlf_nonempty r') as Hne.
        specialize (IH r' ltac:(simpl in Hlen; lia)).
        destruct (split_crlf r') as [|h t]; [congruence|].
        change (join crlf ([] :: h :: t)) with (crlf ++ join crlf (h :: t)).
        now rewrite IH.
      + rewrite join_cons_head by apply split_crlf_nonempty.
        f_equal. apply IH. simpl in Hlen. simpl. lia. }
  apply (H (List.length s)). lia.
Qed.

Lemma join_app_cons (sep : str) (l1 : list str) (x : str) (l2 : list str) :
  l2 <> [] ->
  join sep (l1 ++ x :: l2) = join sep (l1 ++ [x]) ++ sep ++ join sep l2.
Proof.
  intros Hne. induction l1 as [|y l1 IH].
  - destruct l2; [congruence | reflexivity].
  - cbn [app]. destruct (l1 ++ x :: l2) as [|z zs] eqn:E1.
    { destruct l1; discriminate. }
    destruct (l1 ++ [x]) as [|w ws] eqn:E2.
    { destruct l1; discriminate. }
    change (join sep (y :: z :: zs)) with (y ++ sep ++ join sep (z :: zs)).
    change (join sep (y :: w :: ws)) with (y ++ sep ++ join sep (w :: ws)).
    rewrite IH. now rewrite <- !app_assoc.
Qed.

(** [scan_headers] stops at the first blank line. *)
Lemma scan_headers_blank (hs : list str) (b : str) (rest acc : list str)
      (i : nat) :
  forallb (fun h => truthy (strip h)) hs = true ->
  truthy (strip b) = false ->
  scan_headers i (hs ++ b :: rest) acc
  = (acc ++ hs, S (i + List.length hs)).
Proof.
  intros Hhs Hb. revert acc i.
  induction hs as [|h hs IH]; intros acc i.
  - cbn [app scan_headers List.length]. rewrite Hb. cbn [negb].
    now rewrite app_nil_r, Nat.add_0_r.
  - cbn [forallb] in Hhs. apply andb_true_iff in Hhs as [Hh Hhs].
    cbn [app scan_headers List.length]. rewrite Hh. cbn [negb].
    rewrite (IH Hhs). rewrite <- app_assoc. cbn [app].
    f_equal. lia.
Qed.

Lemma scan_headers_no_blank (ls acc : list str) (i : nat) :
  forallb (fun h => truthy (strip h)) ls = true ->
  scan_headers i ls acc = (acc ++ ls, 0%nat).
Proof.
  revert acc i. induction ls as [|h ls IH]; intros acc i Hls.
  - cbn [scan_headers]. now rewrite app_nil_r.
  - cbn [forallb] in Hls. apply andb_true_iff in Hls as [Hh Hls].
    cbn [scan_headers]. rewrite Hh. cbn [negb].
    rewrite (IH _ _ Hls). now rewrite <- app_assoc.
Qed.

Lemma skipn_past_blank (hs : list str) (b : str) (tail : list str) (l0 : str) :
  skipn (S (1 + List.length hs)) (l0 :: hs ++ b :: tail) = tail.
Proof.
  cbn [Nat.add skipn]. induction hs as [|h hs IH]; [reflexivity | exact IH].
Qed.

End BodyFacts.

(** X1: the body of a parsed request is the text that follows the
    first blank line (a line of white space only counts as blank),
    verbatim; it is [None] when nothing follows that line.  The raw
    text is the lines up to the blank one, a CRLF, and the body. *)
Theorem body_follows_first_blank_line
        (U : pystr.UnicodeDB) (cfg : config.Config) (raw : pystr.str)
        (line0 : pystr.str) (header_lines : list pystr.str)
        (blank : pystr.str) (rest : list pystr.str) :
  pystr.split_crlf raw = line0 :: header_lines ++ blank :: rest ->
  forallb (fun h => pystr.truthy (pystr.strip h)) header_lines = true ->
  pystr.truthy (pystr.strip blank) = false ->
  exists r,
    http_utils.HTTPRequest_init U cfg raw = pyexc.Ok r
    /\ http_utils.body r
       = match rest with
         | [] => None
         | _ => Some (pystr.join http_utils.crlf rest)
         end
    /\ (rest <> [] ->
        raw = pystr.join http_utils.crlf (line0 :: header_lines ++ [blank])
              ++ http_utils.crlf ++ pystr.join http_utils.crlf rest).
Proof.
  intros Hsplit Hhs Hblank.
  destruct (HTTPRequest_init_total U cfg raw) as (r & Hr).
  exists r. split; [exact Hr|].
  destruct (parsed_request_line U cfg raw r Hr) as (_ & _ & _ & _ & _ & ->).
  split.
  - unfold http_utils.parsed_body, http_utils.header_scan.
    rewrite Hsplit. cbn [tl].
    rewrite (scan_headers_blank header_lines blank rest [] 1 Hhs Hblank).
    cbn [snd].
    destruct rest as [|x rest'].
    + match goal with
      | |- context [Nat.ltb ?a ?b] => destruct (Nat.ltb a b) eqn:E
      end; [|reflexivity].
      apply Nat.ltb_lt in E. cbn [List.length] in E.
      rewrite length_app in E. cbn [List.length] in E. lia.
    + match goal with
      | |- context [Nat.ltb ?a ?b] => destruct (Nat.ltb a b) eqn:E
      end.
      * f_equal. f_equal.
        apply (skipn_past_blank header_lines blank (x :: rest') line0).
      * apply Nat.ltb_ge in E. cbn [List.length] in E.
        rewrite length_app in E. cbn [List.length] in E. lia.
  - intros Hne. rewrite <- (join_split_crlf raw) at 1. rewrite Hsplit.
    change (line0 :: header_lines ++ blank :: rest)
      with ((line0 :: header_lines) ++ blank :: rest).
    rewrite (join_app_cons http_utils.crlf (line0 :: header_lines) blank rest Hne).
    reflexivity.
Qed.

Lemma body_follows_first_blank_line_witness :
  pystr.split_crlf examples.post_echo_xyz
  = pystr.py "POST /echo HTTP/1.1"
      :: [pystr.py "X-Custom-ID: " ++ examples.token] ++ [] :: [pystr.py "xyz"]
  /\ exists r,
      http_utils.HTTPRequest_init pystr.plain_db config.shipped
        examples.post_echo_xyz = pyexc.Ok r
      /\ http_utils.body r = Some (pystr.join http_utils.crlf [pystr.py "xyz"])
      /\ ([pystr.py "xyz"] <> [] ->
          examples.post_echo_xyz
          = pystr.join http_utils.crlf
              (pystr.py "POST /echo HTTP/1.1"
                 :: [pystr.py "X-Custom-ID: " ++ examples.token] ++ [[]])
              ++ http_utils.crlf ++ pystr.join http_utils.crlf [pystr.py "xyz"]).
Proof.
  split; [vm_compute; reflexivity|].
  apply (body_follows_first_blank_line pystr.plain_db config.shipped
           examples.post_echo_xyz (pystr.py "POST /echo HTTP/1.1")
           [pystr.py "X-Custom-ID: " ++ examples.token] [] [pystr.py "xyz"]);
    vm_compute; reflexivity.
Defined.

(** X2: when no line after the request line is blank, the body of the
    parsed request is the whole raw text, request line and headers
    included. *)
Theorem unterminated_request_is_its_own_body
        (U : pystr.UnicodeDB) (cfg : config.Config) (raw : pystr.str) :
  forallb (fun h => pystr.truthy (pystr.strip h)) (tl (pystr.split_crlf raw))
  = true ->
  exists r,
    http_utils.HTTPRequest_init U cfg raw = pyexc.Ok r
    /\ http_utils.body r = Some raw.
Proof.
  intros Hlines.
  destruct (HTTPRequest_init_total U cfg raw) as (r & Hr).
  exists r. split; [exact Hr|].
  destruct (parsed_request_line U cfg raw r Hr) as (_ & _ & _ & _ & _ & ->).
  unfold http_utils.parsed_body, http_utils.header_scan.
  rewrite (scan_headers_no_blank _ [] 1 Hlines). cbn [snd].
  pose proof (split_crlf_nonempty raw) as Hne.
  destruct (pystr.split_crlf raw) as [|l0 ls] eqn:Hs; [congruence|].
  cbn [List.length Nat.ltb Nat.leb skipn].
  rewrite <- Hs. now rewrite join_split_crlf.
Qed.

Lemma unterminated_request_is_its_own_body_witness :
  exists r,
    http_utils.HTTPRequest_init pystr.plain_db config.shipped
      examples.unterminated_echo = pyexc.Ok r
    /\ http_utils.body r = Some examples.unterminated_echo.
Proof.
  apply (unterminated_request_is_its_own_body pystr.plain_db config.shipped
           examples.unterminated_echo).
  vm_compute; reflexivity.
Defined.

(** Such a [POST /echo] is answered with the whole request, identity
    token included. *)
Example unterminated_echo_returns_request :
  option_map (fun resp => (http_utils.status_code resp, http_utils.resp_body resp))
    (fst (sequential_server._handle_client pystr.plain_db config.shipped
            examples.env examples.unterminated_echo examples.sequential))
  = Some (200%Z, examples.unterminated_echo).
Proof. vm_compute; reflexivity. Qed.

(** ** Headers *)

Section HeaderFacts.

Import pystr pyexc config http_utils.
Local Open Scope list_scope.
Local Open Scope N_scope.

Variable U : UnicodeDB.
Variable cfg : Config.

Lemma split_colon1_app (key value : str) :
  char_in 58 key = false ->
  split_colon1 (key ++ 58 :: value) = (key, value).
Proof.
  induction key as [|c k IH]; intros H.
  - reflexivity.
  - cbn [char_in existsb] in H. apply orb_false_iff in H as [Hc Hk].
    cbn [app split_colon1]. rewrite N.eqb_sym in Hc. rewrite Hc.
    now rewrite (IH Hk).
Qed.

Lemma char_in_app (c : N) (a b : str) :
  char_in c (a ++ b) = char_in c a || char_in c b.
Proof. apply existsb_app. Qed.

Lemma add_header_line (h : pydict.dict str) (key value : str) :
  char_in 58 key = false ->
  add_header U h (key ++ 58 :: value)
  = pydict.set (lower U (strip key)) (strip value) h.
Proof.
  intros Hk. unfold add_header.
  rewrite char_in_app. cbn [char_in existsb N.eqb Pos.eqb orb].
  rewrite orb_true_r. now rewrite (split_colon1_app key value Hk).
Qed.

Lemma fold_left_snoc {A B : Type} (f : A -> B -> A) (l : list B) (x : B) (a : A) :
  fold_left f (l ++ [x]) a = f (fold_left f l a) x.
Proof. now rewrite fold_left_app. Qed.

(** The flag of a parsed request, from the identity header it kept. *)
Lemma parsed_custom_id_valid_value (raw : str) (r : HTTPRequest) (tok : str) :
  HTTPRequest_init U cfg raw = Ok r ->
  crypto_utils.gerar_custom_id U cfg = Ok tok ->
  custom_id_valid r
  = match pydict.get (py "x-custom-id") (headers r) with
    | Some c => str_eqb c tok
    | None => false
    end.
Proof.
  intros Hr Hg.
  destruct (parsed_request_line U cfg raw r Hr) as (_ & _ & _ & _ & Hh & _).
  rewrite Hh. revert Hr. rewrite HTTPRequest_init_result. intros Hr.
  injection Hr as <-.
  destruct (pydict.get (py "x-custom-id") (parsed_headers U raw)) as [c|];
    [|reflexivity].
  unfold crypto_utils.validar_custom_id. rewrite Hg. reflexivity.
Qed.

End HeaderFacts.

(** X3: the last header line of a key decides its value: when the
    last line before the blank line is [key: value], with a key that
    becomes [x-custom-id] once stripped and put in lower case, the
    request is authenticated exactly when the stripped value is the
    identity token, whatever the header lines before it hold. *)
Theorem last_identity_header_decides
        (U : pystr.UnicodeDB) (cfg : config.Config) (raw : pystr.str)
        (line0 : pystr.str) (header_lines : list pystr.str)
        (key value blank : pystr.str) (rest : list pystr.str)
        (tok : pystr.str) :
  pystr.split_crlf raw
  = line0 :: (header_lines ++ [key ++ 58%N :: value]) ++ blank :: rest ->
  forallb (fun h => pystr.truthy (pystr.strip h))
          (header_lines ++ [key ++ 58%N :: value]) = true ->
  pystr.truthy (pystr.strip blank) = false ->
  pystr.char_in 58 key = false ->
  pystr.lower U (pystr.strip key) = pystr.py "x-custom-id" ->
  crypto_utils.gerar_custom_id U cfg = pyexc.Ok tok ->
  exists r,
    http_utils.HTTPRequest_init U cfg raw = pyexc.Ok r
    /\ pydict.get (pystr.py "x-custom-id") (http_utils.headers r)
       = Some (pystr.strip value)
    /\ http_utils.custom_id_valid r = pystr.str_eqb (pystr.strip value) tok.
Proof.
  intros Hsplit Hhs Hblank Hkey Hlow Hg.
  destruct (HTTPRequest_init_total U cfg raw) as (r & Hr).
  exists r. split; [exact Hr|].
  assert (Hget : pydict.get (pystr.py "x-custom-id") (http_utils.headers r)
                 = Some (pystr.strip value)).
  { destruct (parsed_request_line U cfg raw r Hr) as (_ & _ & _ & _ & -> & _).
    unfold http_utils.parsed_headers, http_utils.header_scan.
    rewrite Hsplit. cbn [tl].
    rewrite (scan_headers_blank _ blank rest [] 1 Hhs Hblank).
    cbn [fst app]. rewrite fold_left_snoc.
    rewrite (add_header_line U _ key value Hkey), Hlow.
    apply dict_get_set_same. }
  split; [exact Hget|].
  rewrite (parsed_custom_id_valid_value U cfg raw r tok Hr Hg). now rewrite Hget.
Qed.

Lemma last_identity_header_decides_witness :
  exists r,
    http_utils.HTTPRequest_init pystr.plain_db config.shipped
      examples.repeated_identity_header = pyexc.Ok r
    /\ pydict.get (pystr.py "x-custom-id") (http_utils.headers r)
       = Some (pystr.strip (pystr.py "   " ++ examples.token ++ pystr.py "  "))
    /\ http_utils.custom_id_valid r
       = pystr.str_eqb
           (pystr.strip (pystr.py "   " ++ examples.token ++ pystr.py "  "))
           examples.token.
Proof.
  apply (last_identity_header_decides pystr.plain_db config.shipped
           examples.repeated_identity_header (pystr.py "GET / HTTP/1.1")
           [pystr.py "X-Custom-ID: wrong"] (pystr.py "x-CUSTOM-id")
           (pystr.py "   " ++ examples.token ++ pystr.py "  ") [] [[]]
           examples.token);
    vm_compute; reflexivity.
Defined.

(** ** Framing of a response *)

Section FramingFacts.

Import pystr pyexc config pytime http_utils server_handlers.
Local Open Scope list_scope.
Local Open Scope Z_scope.

Variable U : UnicodeDB.
Variable cfg : Config.
Variable env : Env.

Lemma set_body_framed (content content_type : str) (code : Z) (msg : str)
      (resp : HTTPResponse) :
  set_body content content_type (HTTPResponse_init env code msg) = Ok resp ->
  framed env resp.
Proof.
  unfold set_body. destruct (encode_utf8 content) as [bytes|e] eqn:He;
    cbn [rbind]; [|discriminate].
  intros H. injection H as <-. exists bytes.
  cbn [resp_body set_header assign_body resp_headers HTTPResponse_init].
  split; [exact He|]. repeat split. exists content_type. reflexivity.
Qed.

Lemma strip_body_framed (resp : HTTPResponse) :
  framed env resp -> framed env (strip_body resp).
Proof.
  intros (bytes & _ & _ & Hs & Hd & Hc & Ht). exists [].
  unfold strip_body. cbn [resp_body set_header assign_body resp_headers].
  split; [reflexivity|].
  split; [apply dict_get_set_same|].
  rewrite !dict_get_set_other by reflexivity.
  repeat split; assumption.
Qed.

Lemma create_error_response_framed (code : Z) (message : option str)
      (resp : HTTPResponse) :
  create_error_response env code message = Ok resp -> framed env resp.
Proof. apply set_body_framed. Qed.

Lemma handle_get_framed (r : HTTPRequest) (h : HTTPHandlers) (resp : HTTPResponse) :
  fst (handle_get U cfg env r h) = Ok resp -> framed env resp.
Proof.
  unfold handle_get, create_success_response, set_json_body.
  cbv beta iota delta [bind modify get lift ret].
  repeat match goal with
         | |- context [if ?b then _ else _] => destruct b
         end; cbn [fst];
    try apply set_body_framed; try apply create_error_response_framed.
  destruct (crypto_utils.gerar_custom_id U cfg); cbn [fst];
    [apply set_body_framed | discriminate].
Qed.

Lemma handle_post_framed (r : HTTPRequest) (h : HTTPHandlers) (resp : HTTPResponse) :
  fst (handle_post env r h) = Ok resp -> framed env resp.
Proof.
  unfold handle_post, set_json_body.
  cbv beta iota delta [bind modify get lift ret].
  repeat match goal with
         | |- context [if ?b then _ else _] => destruct b
         end; cbn [fst];
    try apply set_body_framed; try apply create_error_response_framed.
  destruct (encode_utf8 (or_empty (body r))); cbn [fst];
    [apply set_body_framed | discriminate].
Qed.

Lemma handle_head_framed (r : HTTPRequest) (h : HTTPHandlers) (resp : HTTPResponse) :
  fst (handle_head U cfg env r h) = Ok resp -> framed env resp.
Proof.
  unfold handle_head. cbv beta iota delta [bind modify get lift ret].
  destruct (opt_in (path r) _).
  - pose proof (handle_get_framed r (count_request h)) as Hg.
    destruct (handle_get U cfg env r (count_request h)) as [[g|e] h'];
      cbn [fst] in *; [|discriminate].
    intros H. injection H as <-. now apply strip_body_framed, Hg.
  - pose proof (create_error_response_framed 404
                  (Some (py "Path '" ++ fmt_opt (path r) ++ py "' não encontrado")))
      as Hg.
    destruct (create_error_response env 404 _) as [g|e]; cbn [fst];
      [|discriminate].
    intros H. injection H as <-. now apply strip_body_framed, Hg.
Qed.

Lemma process_request_framed (r : HTTPRequest) (h : HTTPHandlers)
      (resp : HTTPResponse) :
  fst (process_request U cfg env r h) = Ok resp -> framed env resp.
Proof.
  unfold process_request, try_except.
  match goal with
  | |- context [match ?c h with _ => _ end] =>
      assert (Hc : forall x, fst (c h) = Ok x -> framed env x);
        [|destruct (c h) as [[x|e] h']]
  end.
  - repeat match goal with
           | |- context [if ?b then _ else _] => destruct b
           end.
    + apply handle_get_framed.
    + apply handle_post_framed.
    + apply handle_head_framed.
    + intros x. unfold lift. cbn [fst]. apply create_error_response_framed.
  - cbn [fst] in *. exact (Hc resp).
  - unfold lift. cbn [fst]. apply create_error_response_framed.
Qed.

End FramingFacts.

(** X4: [process_request] returns a response for every request and
    every state of the handlers, and the response is framed: its body
    can be encoded, [Content-Length] is the number of bytes of the body
    in UTF-8, and the headers [Server], [Date], [Connection: close] and
    [Content-Type] are set. *)
Theorem every_response_is_framed
        (U : pystr.UnicodeDB) (cfg : config.Config) (env : pytime.Env)
        (request : http_utils.HTTPRequest) (h : server_handlers.HTTPHandlers) :
  exists resp,
    fst (server_handlers.process_request U cfg env request h) = pyexc.Ok resp
    /\ http_utils.framed env resp.
Proof.
  destruct (process_request_returns U cfg env request h) as (resp & Hr).
  exists resp. split; [exact Hr|].
  exact (process_request_framed U cfg env request h resp Hr).
Qed.

(** ** What a server sends *)

Section OutcomeFacts.

Import pystr pyexc config pytime http_utils server_handlers.
Local Open Scope list_scope.
Local Open Scope Z_scope.

Variable U : UnicodeDB.
Variable cfg : Config.
Variable env : Env.

Lemma sequential_empty (self : sequential_server.SequentialWebServer) :
  sequential_server._handle_client U cfg env [] self = (None, self).
Proof. reflexivity. Qed.

Lemma concurrent_empty (self : concurrent_server.ConcurrentWebServer) :
  concurrent_server._handle_client U cfg env [] self = (None, self).
Proof. reflexivity. Qed.

Ltac error_response_cases :=
  repeat match goal with
         | |- context [create_error_response env ?c ?m] =>
             let Hf := fresh "Hf" in
             pose proof (create_error_response_framed env c m) as Hf;
             destruct (create_error_response env c m)
         end.

Lemma sequential_sent_framed (raw : str) (resp : HTTPResponse)
      (self self' : sequential_server.SequentialWebServer) :
  sequential_server._handle_client U cfg env raw self = (Some resp, self') ->
  framed env resp.
Proof.
  unfold sequential_server._handle_client, sequential_server.handle_client_try.
  destruct (negb (truthy raw)); [discriminate|].
  cbv beta iota delta [bind modify get lift ret sequential_server.with_handlers].
  destruct (HTTPRequest_init U cfg raw) as [r|e].
  - destruct (negb (is_valid r)).
    + destruct (negb (valid r)); [|destruct (negb (custom_id_valid r))];
        error_response_cases; intros H; try discriminate;
        injection H as <- _; auto.
    + pose proof (process_request_framed U cfg env r (sequential_server.handlers self))
        as Hp.
      destruct (process_request U cfg env r (sequential_server.handlers self))
        as [[x|e] h']; cbn [fst] in Hp;
        error_response_cases; intros H; try discriminate;
        injection H as <- _; auto.
  - error_response_cases; intros H; try discriminate; injection H as <- _; auto.
Qed.

Lemma concurrent_sent_framed (raw : str) (resp : HTTPResponse)
      (self self' : concurrent_server.ConcurrentWebServer) :
  concurrent_server._handle_client U cfg env raw self = (Some resp, self') ->
  framed env resp.
Proof.
  unfold concurrent_server._handle_client, concurrent_server.handle_client_try.
  destruct (negb (truthy raw)); [discriminate|].
  cbv beta iota delta [bind modify get lift ret concurrent_server.with_handlers].
  destruct (HTTPRequest_init U cfg raw) as [r|e].
  - destruct (negb (is_valid r)).
    + destruct (negb (valid r)); [|destruct (negb (custom_id_valid r))];
        error_response_cases; intros H; try discriminate;
        injection H as <- _; auto.
    + pose proof (process_request_framed U cfg env r (concurrent_server.handlers self))
        as Hp.
      destruct (process_request U cfg env r (concurrent_server.handlers self))
        as [[x|e] h']; cbn [fst] in Hp;
        error_response_cases; intros H; try discriminate;
        injection H as <- _; auto.
  - error_response_cases; intros H; try discriminate; injection H as <- _; auto.
Qed.

Lemma sequential_outcome (raw : str) (self : sequential_server.SequentialWebServer) :
  truthy raw = true ->
  exists r resp self',
    HTTPRequest_init U cfg raw = Ok r
    /\ sequential_server._handle_client U cfg env raw self = (Some resp, self')
    /\ framed env resp
    /\ sequential_server.errors_count self' = sequential_server.errors_count self
    /\ sequential_server.requests_processed self'
       = sequential_server.requests_processed self
         + (if is_valid r then 1 else 0).
Proof.
  intros Ht. destruct (HTTPRequest_init_total U cfg raw) as (r & Hr).
  exists r. destruct (is_valid r) eqn:Hv.
  - destruct (sequential_dispatch U cfg env raw r self Hr Hv) as (resp & Hp & Hc).
    eexists. eexists. split; [exact Hr|]. split; [exact Hc|].
    split; [exact (sequential_sent_framed raw resp self _ Hc)|].
    split; reflexivity.
  - destruct (sequential_reject U cfg env raw r self Ht Hr Hv) as (resp & Hc & Hs).
    exists resp, self. split; [exact Hr|]. split; [exact Hc|].
    split; [exact (sequential_sent_framed raw resp self _ Hc)|].
    split; [reflexivity | lia].
Qed.

Lemma concurrent_outcome (raw : str) (self : concurrent_server.ConcurrentWebServer) :
  truthy raw = true ->
  exists r resp self',
    HTTPRequest_init U cfg raw = Ok r
    /\ concurrent_server._handle_client U cfg env raw self = (Some resp, self')
    /\ framed env resp
    /\ concurrent_server.errors_count self' = concurrent_server.errors_count self
    /\ concurrent_server.active_connections self'
       = concurrent_server.active_connections self
    /\ concurrent_server.requests_processed self'
       = concurrent_server.requests_processed self
         + (if is_valid r then 1 else 0).
Proof.
  intros Ht. destruct (HTTPRequest_init_total U cfg raw) as (r & Hr).
  exists r. destruct (is_valid r) eqn:Hv.
  - destruct (concurrent_dispatch U cfg env raw r self Hr Hv) as (resp & Hp & Hc).
    eexists. eexists. split; [exact Hr|]. split; [exact Hc|].
    split; [exact (concurrent_sent_framed raw resp self _ Hc)|].
    repeat split; reflexivity.
  - destruct (concurrent_reject U cfg env raw r self Ht Hr Hv) as (resp & Hc & Hs).
    exists resp, self. split; [exact Hr|]. split; [exact Hc|].
    split; [exact (concurrent_sent_framed raw resp self _ Hc)|].
    split; [reflexivity | split; [reflexivity | lia]].
Qed.

End OutcomeFacts.

(** X5: what [_handle_client] does with the text it received, in both
    servers.  Empty text: nothing is sent and the server is unchanged.
    Any other text: the text is parsed, exactly one framed response is
    passed to [_send_response], [errors_count] does not move (neither
    does [active_connections]), and [requests_processed] goes up by one
    exactly when the request is valid and authenticated. *)
Theorem one_framed_response_per_request
        (U : pystr.UnicodeDB) (cfg : config.Config) (env : pytime.Env)
        (raw : pystr.str)
        (seq_server : sequential_server.SequentialWebServer)
        (conc_server : concurrent_server.ConcurrentWebServer) :
  if pystr.truthy raw then
    (exists r resp self',
        http_utils.HTTPRequest_init U cfg raw = pyexc.Ok r
        /\ sequential_server._handle_client U cfg env raw seq_server
           = (Some resp, self')
        /\ http_utils.framed env resp
        /\ sequential_server.errors_count self'
           = sequential_server.errors_count seq_server
        /\ sequential_server.requests_processed self'
           = (sequential_server.requests_processed seq_server
              + (if http_utils.is_valid r then 1 else 0))%Z)
    /\ (exists r resp self',
           http_utils.HTTPRequest_init U cfg raw = pyexc.Ok r
           /\ concurrent_server._handle_client U cfg env raw conc_server
              = (Some resp, self')
           /\ http_utils.framed env resp
           /\ concurrent_server.errors_count self'
              = concurrent_server.errors_count conc_server
           /\ concurrent_server.active_connections self'
              = concurrent_server.active_connections conc_server
           /\ concurrent_server.requests_processed self'
              = (concurrent_server.requests_processed conc_server
                 + (if http_utils.is_valid r then 1 else 0))%Z)
  else
    sequential_server._handle_client U cfg env raw seq_server = (None, seq_server)
    /\ concurrent_server._handle_client U cfg env raw conc_server
       = (None, conc_server).
Proof.
  destruct (pystr.truthy raw) eqn:Ht.
  - split; [now apply sequential_outcome | now apply concurrent_outcome].
  - apply truthy_false in Ht. subst raw. split; reflexivity.
Qed.

(** ** Routes *)

Section RouteFacts.

Import pystr pyexc config pytime http_utils server_handlers.
Local Open Scope list_scope.
Local Open Scope Z_scope.

Variable U : UnicodeDB.
Variable cfg : Config.
Variable env : Env.

Lemma set_body_result (content content_type : str) (r resp : HTTPResponse) :
  set_body content content_type r = Ok resp ->
  status_code resp = status_code r
  /\ status_message resp = status_message r
  /\ resp_body resp = content
  /\ pydict.get (py "Content-Type") (resp_headers resp) = Some content_type.
Proof.
  unfold set_body. destruct (encode_utf8 content); cbn [rbind]; [|discriminate].
  intros H. injection H as <-.
  cbn [status_code status_message resp_body set_header assign_body resp_headers].
  repeat split.
  rewrite dict_get_set_other by reflexivity. apply dict_get_set_same.
Qed.

Lemma create_error_response_result (code : Z) (message : option str)
      (resp : HTTPResponse) :
  create_error_response env code message = Ok resp ->
  status_code resp = code
  /\ status_message resp = status_message_of code status_messages
  /\ pydict.get (py "Content-Type") (resp_headers resp) = Some html_utf8.
Proof.
  unfold create_error_response. intros H.
  apply set_body_result in H as (H1 & H2 & _ & H4). auto.
Qed.

(** What [handle_get] answers depends on the path alone. *)
Lemma handle_get_route (r : HTTPRequest) (h : HTTPHandlers) (resp : HTTPResponse) :
  fst (handle_get U cfg env r h) = Ok resp ->
  status_code resp = (if opt_in (path r) [py "/"; py "/status"; py "/info"; py "/time"] then 200 else 404)
  /\ status_message resp
     = (if opt_in (path r) [py "/"; py "/status"; py "/info"; py "/time"] then py "OK" else py "Not Found")
  /\ pydict.get (py "Content-Type") (resp_headers resp)
     = Some (if opt_in (path r) [py "/status"; py "/info"; py "/time"]
             then py "application/json; charset=utf-8" else html_utf8).
Proof.
  unfold handle_get, create_success_response, set_json_body.
  cbv beta iota delta [bind modify get lift ret].
  destruct (path r) as [p|]; cbn [opt_eqb opt_in str_in existsb tl].
  - destruct (str_eqb p (py "/")) eqn:E1.
    { apply str_eqb_eq in E1. subst p. cbn [fst orb]. intros H.
      apply set_body_result in H as (H1 & H2 & _ & H4).
      rewrite H1, H2, H4. repeat split. }
    destruct (str_eqb p (py "/status")) eqn:E2.
    { cbn [fst orb]. intros H.
      apply set_body_result in H as (H1 & H2 & _ & H4).
      rewrite H1, H2, H4. repeat split. }
    destruct (str_eqb p (py "/info")) eqn:E3.
    { cbn [orb]. destruct (crypto_utils.gerar_custom_id U cfg); cbn [fst];
        [|discriminate]. intros H.
      apply set_body_result in H as (H1 & H2 & _ & H4).
      rewrite H1, H2, H4. repeat split. }
    destruct (str_eqb p (py "/time")) eqn:E4.
    { cbn [fst orb]. intros H.
      apply set_body_result in H as (H1 & H2 & _ & H4).
      rewrite H1, H2, H4. repeat split. }
    cbn [fst orb]. intros H.
    apply create_error_response_result in H as (H1 & H2 & H4).
    rewrite H1, H2, H4. repeat split.
  - cbn [fst]. intros H.
    apply create_error_response_result in H as (H1 & H2 & H4).
    rewrite H1, H2, H4. repeat split.
Qed.

Lemma handle_post_route (r : HTTPRequest) (h : HTTPHandlers) (resp : HTTPResponse) :
  fst (handle_post env r h) = Ok resp ->
  status_code resp
  = (if opt_in (path r) [py "/echo"; py "/hash"]
     then if truthy_opt (body r) then 200 else 400
     else 405).
Proof.
  unfold handle_post, set_json_body.
  cbv beta iota delta [bind modify get lift ret].
  destruct (path r) as [p|]; cbn [opt_eqb opt_in str_in existsb].
  - destruct (str_eqb p (py "/echo")) eqn:E1; cbn [orb].
    { destruct (truthy_opt (body r)); cbn [fst]; intros H.
      - now apply set_body_result in H as (H1 & _).
      - now apply create_error_response_result in H as (H1 & _). }
    destruct (str_eqb p (py "/hash")) eqn:E2; cbn [orb].
    { destruct (truthy_opt (body r)); cbn [negb fst].
      - destruct (encode_utf8 (or_empty (body r))); cbn [fst]; [|discriminate].
        intros H. now apply set_body_result in H as (H1 & _).
      - intros H. now apply create_error_response_result in H as (H1 & _). }
    cbn [fst]. intros H. now apply create_error_response_result in H as (H1 & _).
  - cbn [fst]. intros H. now apply create_error_response_result in H as (H1 & _).
Qed.

Lemma strip_body_result (resp : HTTPResponse) :
  status_code (strip_body resp) = status_code resp
  /\ status_message (strip_body resp) = status_message resp
  /\ resp_body (strip_body resp) = []
  /\ pydict.get (py "Content-Length") (resp_headers (strip_body resp))
     = Some (py "0")
  /\ pydict.get (py "Content-Type") (resp_headers (strip_body resp))
     = pydict.get (py "Content-Type") (resp_headers resp).
Proof.
  unfold strip_body.
  cbn [status_code status_message resp_body set_header assign_body resp_headers].
  repeat split; [apply dict_get_set_same|].
  now rewrite dict_get_set_other by reflexivity.
Qed.

(** [handle_head] answers like [handle_get], the body aside. *)
Lemma handle_head_route (r : HTTPRequest) (h : HTTPHandlers) (resp : HTTPResponse) :
  fst (handle_head U cfg env r h) = Ok resp ->
  status_code resp = (if opt_in (path r) [py "/"; py "/status"; py "/info"; py "/time"] then 200 else 404)
  /\ status_message resp
     = (if opt_in (path r) [py "/"; py "/status"; py "/info"; py "/time"] then py "OK" else py "Not Found")
  /\ pydict.get (py "Content-Type") (resp_headers resp)
     = Some (if opt_in (path r) [py "/status"; py "/info"; py "/time"]
             then py "application/json; charset=utf-8" else html_utf8)
  /\ resp_body resp = []
  /\ pydict.get (py "Content-Length") (resp_headers resp) = Some (py "0").
Proof.
  unfold handle_head. cbv beta iota delta [bind modify get lift ret].
  destruct (opt_in (path r) [py "/"; py "/status"; py "/info"; py "/time"]) eqn:Hk.
  - pose proof (handle_get_route r (count_request h)) as Hg.
    destruct (handle_get U cfg env r (count_request h)) as [[g|e] h'];
      cbn [fst] in *; [|discriminate].
    intros H. injection H as <-.
    destruct (Hg g eq_refl) as (H1 & H2 & H3). rewrite Hk in *.
    destruct (strip_body_result g) as (S1 & S2 & S3 & S4 & S5).
    rewrite S1, S2, S3, S4, S5, H1, H2, H3. repeat split.
  - match goal with
    | |- context [create_error_response env ?c ?m] =>
        pose proof (create_error_response_result c m) as Hg;
          destruct (create_error_response env c m) as [g|e]
    end; cbn [fst]; [|discriminate].
    intros H. injection H as <-.
    destruct (Hg g eq_refl) as (H1 & H2 & H3).
    destruct (strip_body_result g) as (S1 & S2 & S3 & S4 & S5).
    rewrite S1, S2, S3, S4, S5, H1, H2, H3.
    assert (Ht : opt_in (path r) [py "/status"; py "/info"; py "/time"] = false).
    { revert Hk. destruct (path r) as [p|]; [|reflexivity].
      cbn [opt_in str_in existsb tl]. destruct (str_eqb p (py "/")); [discriminate|].
      now cbn [orb]. }
    rewrite Ht. repeat split.
Qed.

End RouteFacts.

(** X6: [HEAD] answers like [GET] on the same request: same status
    code, status message and [Content-Type]; the body is empty and
    [Content-Length] is [0], not the length of the body of [GET]. *)
Theorem head_mirrors_get
        (U : pystr.UnicodeDB) (cfg : config.Config) (env : pytime.Env)
        (request : http_utils.HTTPRequest)
        (h_get h_head : server_handlers.HTTPHandlers) :
  pytime.env_encodable env = true ->
  pystr.encodable (server_handlers.fmt_opt (http_utils.path request)) = true ->
  pyexc.is_ok (crypto_utils.gerar_custom_id U cfg) = true ->
  exists to_get to_head,
    fst (server_handlers.handle_get U cfg env request h_get) = pyexc.Ok to_get
    /\ fst (server_handlers.handle_head U cfg env request h_head)
       = pyexc.Ok to_head
    /\ http_utils.status_code to_head = http_utils.status_code to_get
    /\ http_utils.status_message to_head = http_utils.status_message to_get
    /\ pydict.get (pystr.py "Content-Type") (http_utils.resp_headers to_head)
       = pydict.get (pystr.py "Content-Type") (http_utils.resp_headers to_get)
    /\ http_utils.resp_body to_head = []
    /\ pydict.get (pystr.py "Content-Length") (http_utils.resp_headers to_head)
       = Some (pystr.py "0").
Proof.
  intros Henv Hpath Hgen.
  destruct (handle_get_returns U cfg env request h_get Henv Hpath Hgen)
    as (g & Hg & _).
  destruct (handle_head_returns U cfg env request h_head Henv Hpath Hgen)
    as (hd & Hh & _).
  exists g, hd. split; [exact Hg|]. split; [exact Hh|].
  destruct (handle_get_route U cfg env request h_get g Hg) as (G1 & G2 & G3).
  destruct (handle_head_route U cfg env request h_head hd Hh)
    as (H1 & H2 & H3 & H4 & H5).
  rewrite H1, H2, H3, G1, G2, G3. repeat split; assumption.
Qed.

Lemma head_mirrors_get_witness :
  exists to_get to_head,
    fst (server_handlers.handle_get pystr.plain_db config.shipped examples.env
           (examples.request_of examples.get_root) examples.fresh_handlers)
    = pyexc.Ok to_get
    /\ fst (server_handlers.handle_head pystr.plain_db config.shipped examples.env
              (examples.request_of examples.get_root) examples.fresh_handlers)
       = pyexc.Ok to_head
    /\ http_utils.status_code to_head = http_utils.status_code to_get
    /\ http_utils.status_message to_head = http_utils.status_message to_get
    /\ pydict.get (pystr.py "Content-Type") (http_utils.resp_headers to_head)
       = pydict.get (pystr.py "Content-Type") (http_utils.resp_headers to_get)
    /\ http_utils.resp_body to_head = []
    /\ pydict.get (pystr.py "Content-Length") (http_utils.resp_headers to_head)
       = Some (pystr.py "0").
Proof.
  apply (head_mirrors_get pystr.plain_db config.shipped examples.env
           (examples.request_of examples.get_root)
           examples.fresh_handlers examples.fresh_handlers);
    vm_compute; reflexivity.
Defined.

(** The status code of [process_request], read off the method, the
    path and the body. *)
Lemma process_request_route
        (U : pystr.UnicodeDB) (cfg : config.Config) (env : pytime.Env)
        (request : http_utils.HTTPRequest) (h : server_handlers.HTTPHandlers) :
  pytime.env_encodable env = true ->
  pystr.encodable (server_handlers.fmt_opt (http_utils.method request)) = true ->
  pystr.encodable (server_handlers.fmt_opt (http_utils.path request)) = true ->
  pystr.encodable (http_utils.or_empty (http_utils.body request)) = true ->
  pyexc.is_ok (crypto_utils.gerar_custom_id U cfg) = true ->
  exists resp,
    fst (server_handlers.process_request U cfg env request h) = pyexc.Ok resp
    /\ http_utils.status_code resp
       = (if server_handlers.opt_eqb (http_utils.method request) (pystr.py "GET")
             || server_handlers.opt_eqb (http_utils.method request) (pystr.py "HEAD")
          then
            if http_utils.opt_in (http_utils.path request)
                 [pystr.py "/"; pystr.py "/status"; pystr.py "/info";
                  pystr.py "/time"]
            then 200 else 404
          else if server_handlers.opt_eqb (http_utils.method request)
                    (pystr.py "POST")
          then
            if http_utils.opt_in (http_utils.path request)
                 [pystr.py "/echo"; pystr.py "/hash"]
            then if http_utils.truthy_opt (http_utils.body request)
                 then 200 else 400
            else 405
          else 405)%Z.
Proof.
  intros Henv Hm Hpath Hbody Hgen.
  unfold server_handlers.process_request, pyexc.try_except.
  destruct (server_handlers.opt_eqb (http_utils.method request) (pystr.py "GET"))
    eqn:EG; cbn [orb].
  { destruct (handle_get_returns U cfg env request h Henv Hpath Hgen)
      as (resp & Hr & _).
    pose proof (handle_get_route U cfg env request h resp Hr) as (H1 & _).
    destruct (server_handlers.handle_get U cfg env request h) as [[x|e] h'];
      cbn [fst] in *; [|discriminate].
    injection Hr as ->. exists resp. split; [reflexivity | exact H1]. }
  destruct (server_handlers.opt_eqb (http_utils.method request) (pystr.py "POST"))
    eqn:EP.
  { assert (EH : server_handlers.opt_eqb (http_utils.method request)
                   (pystr.py "HEAD") = false).
    { destruct (http_utils.method request) as [m|]; [|reflexivity].
      cbn [server_handlers.opt_eqb] in *. apply str_eqb_eq in EP. now subst m. }
    rewrite EH.
    destruct (handle_post_returns env request h Hpath Hbody) as (resp & Hr & _).
    pose proof (handle_post_route env request h resp Hr) as H1.
    destruct (server_handlers.handle_post env request h) as [[x|e] h'];
      cbn [fst] in *; [|discriminate].
    injection Hr as ->. exists resp. split; [reflexivity | exact H1]. }
  destruct (server_handlers.opt_eqb (http_utils.method request) (pystr.py "HEAD"))
    eqn:EH.
  { destruct (handle_head_returns U cfg env request h Henv Hpath Hgen)
      as (resp & Hr & _).
    pose proof (handle_head_route U cfg env request h resp Hr) as (H1 & _).
    destruct (server_handlers.handle_head U cfg env request h) as [[x|e] h'];
      cbn [fst] in *; [|discriminate].
    injection Hr as ->. exists resp. split; [reflexivity | exact H1]. }
  unfold pyexc.lift.
  destruct (create_error_response_ok env 405
              (Some (pystr.py "Método '"
                     ++ server_handlers.fmt_opt (http_utils.method request)
                     ++ pystr.py "' não suportado")))
    as (resp & -> & Hs).
  { cbn [http_utils.or_empty]. now rewrite !encodable_app, Hm. }
  exists resp. split; [reflexivity | exact Hs].
Qed.

(** X7: the status code of [process_request], as a table of the
    method, the path and the body. *)
Theorem route_table
        (U : pystr.UnicodeDB) (cfg : config.Config) (env : pytime.Env)
        (request : http_utils.HTTPRequest) (h : server_handlers.HTTPHandlers) :
  pytime.env_encodable env = true ->
  pystr.encodable (server_handlers.fmt_opt (http_utils.method request)) = true ->
  pystr.encodable (server_handlers.fmt_opt (http_utils.path request)) = true ->
  pystr.encodable (http_utils.or_empty (http_utils.body request)) = true ->
  pyexc.is_ok (crypto_utils.gerar_custom_id U cfg) = true ->
  exists resp,
    fst (server_handlers.process_request U cfg env request h) = pyexc.Ok resp
    /\ http_utils.status_code resp
       = (if server_handlers.opt_eqb (http_utils.method request) (pystr.py "GET")
             || server_handlers.opt_eqb (http_utils.method request) (pystr.py "HEAD")
          then
            if http_utils.opt_in (http_utils.path request)
                 [pystr.py "/"; pystr.py "/status"; pystr.py "/info";
                  pystr.py "/time"]
            then 200 else 404
          else if server_handlers.opt_eqb (http_utils.method request)
                    (pystr.py "POST")
          then
            if http_utils.opt_in (http_utils.path request)
                 [pystr.py "/echo"; pystr.py "/hash"]
            then if http_utils.truthy_opt (http_utils.body request)
                 then 200 else 400
            else 405
          else 405)%Z.
Proof. exact (process_request_route U cfg env request h). Qed.

Lemma route_table_witness :
  exists resp,
    fst (server_handlers.process_request pystr.plain_db config.shipped examples.env
           (examples.request_of examples.post_echo_xyz) examples.fresh_handlers)
    = pyexc.Ok resp
    /\ http_utils.status_code resp = 200%Z.
Proof.
  apply (route_table pystr.plain_db config.shipped examples.env
           (examples.request_of examples.post_echo_xyz) examples.fresh_handlers);
    vm_compute; reflexivity.
Defined.

(** ** The identity token *)

Section TokenFacts.

Import pystr pyexc config hashlib.
Local Open Scope list_scope.

Lemma le_bytes_length (k : nat) (n : N) : List.length (le_bytes k n) = k.
Proof. revert n. induction k as [|k IH]; intros n; cbn [le_bytes List.length];
  [reflexivity | now rewrite IH]. Qed.

Lemma be_bytes_length (k : nat) (n : N) : List.length (be_bytes k n) = k.
Proof. unfold be_bytes. rewrite length_rev. apply le_bytes_length. Qed.

Lemma md5_length (data : list N) : List.length (md5 data) = 16%nat.
Proof.
  unfold md5.
  destruct (fold_left md5_block _ _) as [[[a b] c] d].
  now rewrite !length_app, !le_bytes_length.
Qed.

Lemma sha1_length (data : list N) : List.length (sha1 data) = 20%nat.
Proof.
  unfold sha1.
  destruct (fold_left sha1_block _ _) as [[[[a b] c] d] e].
  now rewrite !length_app, !be_bytes_length.
Qed.

Lemma hexdigest_length (digest : list N) :
  List.length (hexdigest digest) = (2 * List.length digest)%nat.
Proof.
  unfold hexdigest. induction digest as [|b r IH]; [reflexivity|].
  cbn [flat_map List.length app]. rewrite IH. lia.
Qed.

Lemma hex_digit_is_hex (d : N) : (d < 16)%N -> is_hex_digit (hex_digit d) = true.
Proof.
  intros H. unfold hex_digit, is_hex_digit.
  destruct (N.ltb_spec d 10).
  - apply orb_true_iff. left. apply andb_true_iff. split; apply N.leb_le; lia.
  - apply orb_true_iff. right. apply andb_true_iff. split; apply N.leb_le; lia.
Qed.

Lemma hexdigest_hex (digest : list N) :
  all_bytes digest = true -> forallb is_hex_digit (hexdigest digest) = true.
Proof.
  unfold hexdigest, all_bytes. induction digest as [|b r IH]; [reflexivity|].
  cbn [forallb flat_map app]. intros H. apply andb_true_iff in H as [Hb Hr].
  apply N.ltb_lt in Hb.
  rewrite !hex_digit_is_hex, (IH Hr); [reflexivity | |].
  - apply N.mod_lt. lia.
  - apply N.Div0.div_lt_upper_bound. lia.
Qed.

Lemma calcular_hash_aluno_hex (U : UnicodeDB) (cfg : Config)
      (matricula nome algoritmo : option str) (tok : str) :
  crypto_utils.calcular_hash_aluno U cfg matricula nome algoritmo = Ok tok ->
  List.length tok
  = (if str_eqb (crypto_utils.or_default algoritmo (HASH_ALGORITHM cfg)) (py "md5")
     then 32 else 40)%nat
  /\ forallb is_hex_digit tok = true.
Proof.
  unfold crypto_utils.calcular_hash_aluno.
  repeat match goal with
         | |- context [if ?b then _ else _] =>
             lazymatch b with
             | str_eqb _ _ => fail
             | _ => destruct b; [discriminate|]
             end
         end.
  destruct (encode_utf8 _) as [bytes|e]; cbn [rbind]; [|discriminate].
  destruct (str_eqb _ (py "md5")); intros H; injection H as <-.
  - rewrite hexdigest_length, md5_length. split; [reflexivity|].
    apply hexdigest_hex, md5_bytes.
  - rewrite hexdigest_length, sha1_length. split; [reflexivity|].
    apply hexdigest_hex, sha1_bytes.
Qed.

End TokenFacts.

(** X8: a digest that [calcular_hash_aluno] returns is made of
    lower-case hexadecimal digits: 32 of them for [md5], 40 for
    [sha1]. *)
Theorem identity_token_format
        (U : pystr.UnicodeDB) (cfg : config.Config)
        (matricula nome algoritmo : option pystr.str) (tok : pystr.str) :
  crypto_utils.calcular_hash_aluno U cfg matricula nome algoritmo = pyexc.Ok tok ->
  List.length tok
  = (if pystr.str_eqb
          (crypto_utils.or_default algoritmo (config.HASH_ALGORITHM cfg))
          (pystr.py "md5")
     then 32 else 40)%nat
  /\ forallb pystr.is_hex_digit tok = true.
Proof.
  exact (calcular_hash_aluno_hex U cfg matricula nome algoritmo tok).
Qed.

Lemma identity_token_format_witness :
  List.length examples.token = 40%nat
  /\ forallb pystr.is_hex_digit examples.token = true.
Proof.
  apply (identity_token_format pystr.plain_db config.shipped None None None
           examples.token).
  vm_compute. reflexivity.
Defined.

(** ** Checks on a request *)

(** X9: [validate_http_request] returns for every text.  Its first
    component is true exactly when the request line is well formed and
    the status is [VALID]; the status is [MISSING] when no header line
    is named [x-custom-id], [VALID] when the value kept for that name is
    the identity token, [INVALID] otherwise. *)
Theorem validation_summary
        (U : pystr.UnicodeDB) (cfg : config.Config) (raw : pystr.str) :
  exists r,
    http_utils.validate_http_request U cfg raw
    = pyexc.Ok (http_utils.is_valid r, http_utils.get_custom_id_status r, r)
    /\ http_utils.is_valid r
       = http_utils.line_ok U raw
         && match http_utils.get_custom_id_status r with
            | http_utils.VALID => true
            | _ => false
            end
    /\ match http_utils.get_custom_id_status r with
       | http_utils.MISSING =>
           pydict.get (pystr.py "x-custom-id") (http_utils.parsed_headers U raw)
           = None
       | http_utils.VALID =>
           exists tok,
             crypto_utils.gerar_custom_id U cfg = pyexc.Ok tok
             /\ pydict.get (pystr.py "x-custom-id")
                           (http_utils.parsed_headers U raw) = Some tok
       | http_utils.INVALID =>
           exists sent,
             pydict.get (pystr.py "x-custom-id")
                        (http_utils.parsed_headers U raw) = Some sent
             /\ crypto_utils.gerar_custom_id U cfg <> pyexc.Ok sent
       end.
Proof.
  destruct (HTTPRequest_init_total U cfg raw) as (r & Hr).
  exists r. unfold http_utils.validate_http_request. rewrite Hr.
  split; [reflexivity|].
  pose proof (parsed_valid U cfg raw r Hr) as Hv.
  destruct (parsed_request_line U cfg raw r Hr) as (_ & _ & _ & _ & Hh & _).
  unfold http_utils.is_valid, http_utils.get_custom_id_status.
  destruct (pydict.has (pystr.py "x-custom-id") (http_utils.headers r)) eqn:Hhas;
    cbn [negb].
  - destruct (http_utils.custom_id_valid r) eqn:Hc.
    + destruct (parsed_custom_id_valid U cfg raw r Hr Hc) as (tok & Hg & Hget).
      rewrite Hv, Hg. cbn [negb pyexc.is_ok orb]. split; [now rewrite !andb_true_r|].
      exists tok. split; [reflexivity|]. now rewrite <- Hh.
    + split; [now rewrite !andb_false_r|].
      apply dict_has_get in Hhas as (sent & Hget).
      exists sent. split; [now rewrite <- Hh|].
      intros Hg.
      rewrite (parsed_custom_id_valid_value U cfg raw r sent Hr Hg), Hget,
        str_eqb_refl in Hc. discriminate.
  - assert (Hc : http_utils.custom_id_valid r = false).
    { destruct (http_utils.custom_id_valid r) eqn:Hc; [|reflexivity].
      destruct (parsed_custom_id_valid U cfg raw r Hr Hc) as (tok & _ & Hget).
      apply dict_has_false_get in Hhas. congruence. }
    rewrite Hc. split; [now rewrite !andb_false_r|].
    rewrite <- Hh. now apply dict_has_false_get.
Qed.

(** X10: the parser and the table of supported methods agree: the
    method of a request that the parser marks valid is one for which
    [is_method_supported] holds. *)
Theorem valid_request_has_supported_method
        (U : pystr.UnicodeDB) (cfg : config.Config) (raw : pystr.str)
        (r : http_utils.HTTPRequest) :
  http_utils.HTTPRequest_init U cfg raw = pyexc.Ok r ->
  http_utils.valid r = true ->
  exists m, http_utils.method r = Some m
            /\ server_handlers.is_method_supported U m = true.
Proof.
  intros Hr Hv. rewrite (parsed_valid U cfg raw r Hr) in Hv.
  apply andb_true_iff in Hv as [Hl _].
  destruct (parsed_request_line U cfg raw r Hr) as (_ & Hm & _).
  rewrite Hm. revert Hl. unfold http_utils.line_ok, http_utils.line_method.
  destruct (http_utils.request_tokens raw) as [|p0 [|p1 [|p2 more]]];
    try discriminate.
  intros Hin. exists (pystr.upper U p0). split; [reflexivity|].
  cbn [pystr.str_in existsb] in Hin.
  repeat (apply orb_true_iff in Hin as [Hin|Hin]); try discriminate;
    apply str_eqb_eq in Hin; rewrite Hin; reflexivity.
Qed.

Lemma valid_request_has_supported_method_witness :
  exists m, http_utils.method (examples.request_of examples.lower_case_get) = Some m
            /\ server_handlers.is_method_supported pystr.plain_db m = true.
Proof.
  apply (valid_request_has_supported_method pystr.plain_db config.shipped
           examples.lower_case_get (examples.request_of examples.lower_case_get));
    vm_compute; reflexivity.
Defined.

(** ** The test client *)

Section ClientText.

Import pystr pyexc config http_utils.
Local Open Scope list_scope.
Local Open Scope N_scope.

(** A line without a line feed is split off whole. *)
Lemma split_crlf_line (l rest : str) :
  char_in 10 l = false ->
  split_crlf (l ++ crlf ++ rest) = l :: split_crlf rest.
Proof.
  induction l as [|c l IH]; intros H.
  - reflexivity.
  - cbn [char_in existsb] in H. apply orb_false_iff in H as [Hc Hl].
    specialize (IH Hl). cbn [app].
    destruct (l ++ crlf ++ rest) as [|d r'] eqn:E.
    { destruct l; discriminate. }
    rewrite split_crlf_step.
    assert (Hd : (d =? 10) = false).
    { destruct l as [|x l'].
      - injection E as <- _. reflexivity.
      - injection E as <- _. cbn [char_in existsb] in Hl.
        apply orb_false_iff in Hl as [Hx _]. now rewrite N.eqb_sym. }
    rewrite Hd, andb_false_r, IH. reflexivity.
Qed.

Lemma split_crlf_lines (ls : list str) (rest : str) :
  forallb (fun l => negb (char_in 10 l)) ls = true ->
  split_crlf (join crlf (ls ++ [rest])) = ls ++ split_crlf rest.
Proof.
  induction ls as [|l ls IH]; intros H.
  - reflexivity.
  - cbn [forallb] in H. apply andb_true_iff in H as [Hl Hls].
    apply negb_true_iff in Hl.
    cbn [app]. destruct (ls ++ [rest]) as [|x xs] eqn:E.
    { destruct ls; discriminate. }
    change (join crlf (l :: x :: xs)) with (l ++ crlf ++ join crlf (x :: xs)).
    rewrite (split_crlf_line l _ Hl), (IH Hls). reflexivity.
Qed.

Lemma no_space_no_lf (s : str) : no_space s = true -> char_in 10 s = false.
Proof.
  unfold no_space, char_in.
  induction s as [|c s IH]; [reflexivity|].
  cbn [forallb existsb]. intros H.
  apply andb_true_iff in H as [Hc Hs]. apply negb_true_iff in Hc.
  rewrite (IH Hs), orb_false_r.
  destruct (N.eqb_spec 10 c) as [<-|]; [discriminate | reflexivity].
Qed.

Lemma lstrip_head (c : N) (s : str) :
  isspace c = false -> lstrip (c :: s) = c :: s.
Proof. intros H. cbn [lstrip]. now rewrite H. Qed.

(** [strip] leaves a text alone that starts and ends with characters
    that are not white space. *)
Lemma strip_ends (c z : N) (s : str) :
  isspace c = false -> isspace z = false ->
  strip (c :: s ++ [z]) = c :: s ++ [z].
Proof.
  intros Hc Hz. unfold strip, rstrip. rewrite (lstrip_head c _ Hc).
  change (c :: s ++ [z]) with ((c :: s) ++ [z]).
  rewrite rev_app_distr. cbn [rev app]. rewrite (lstrip_head z _ Hz).
  change (z :: rev s ++ [c]) with ([z] ++ rev (c :: s)).
  rewrite rev_app_distr, rev_involutive. reflexivity.
Qed.

Lemma strip_single (c : N) : isspace c = false -> strip [c] = [c].
Proof. intros H. unfold strip, rstrip. cbn [lstrip rev app]. rewrite H.
  cbn [rev app lstrip]. now rewrite H. Qed.

Lemma strip_no_space (s : str) : no_space s = true -> strip s = s.
Proof.
  intros H. destruct s as [|c s]; [reflexivity|].
  cbn [no_space forallb] in H. apply andb_true_iff in H as [Hc Hs].
  apply negb_true_iff in Hc.
  destruct (rev s) as [|z t] eqn:E.
  - apply (f_equal (@rev N)) in E. rewrite rev_involutive in E. subst s.
    now apply strip_single.
  - apply (f_equal (@rev N)) in E. rewrite rev_involutive in E. cbn [rev] in E.
    subst s. apply strip_ends; [exact Hc|].
    fold (no_space (rev t ++ [z])) in Hs. unfold no_space in Hs.
    rewrite forallb_app in Hs. apply andb_true_iff in Hs as [_ Hz].
    cbn [forallb] in Hz. rewrite andb_true_r in Hz. now apply negb_true_iff in Hz.
Qed.

(** A line that starts with a character that is not white space is not
    blank. *)
Lemma lstrip_rev_truthy (s : str) (c : N) :
  isspace c = false -> truthy (lstrip (s ++ [c])) = true.
Proof.
  intros H. induction s as [|d s IH].
  - cbn [app lstrip]. now rewrite H.
  - cbn [app lstrip]. destruct (isspace d); [exact IH | reflexivity].
Qed.

Lemma strip_truthy (c : N) (s : str) :
  isspace c = false -> truthy (strip (c :: s)) = true.
Proof.
  intros H. unfold strip, rstrip. rewrite (lstrip_head c s H).
  cbn [rev]. pose proof (lstrip_rev_truthy (rev s) c H) as Ht.
  destruct (lstrip (rev s ++ [c])) as [|x xs] eqn:E; [discriminate|].
  destruct (rev (x :: xs)) eqn:E2; [|reflexivity].
  apply (f_equal (@List.length N)) in E2. rewrite length_rev in E2. discriminate.
Qed.

(** [split] reads a word without white space in one piece. *)
Lemma split_ws_from_word (w cur rest : str) :
  no_space w = true ->
  split_ws_from cur (w ++ rest) = split_ws_from (cur ++ w) rest.
Proof.
  revert cur. induction w as [|c w IH]; intros cur H.
  - now rewrite app_nil_r.
  - cbn [no_space forallb] in H. apply andb_true_iff in H as [Hc Hw].
    apply negb_true_iff in Hc.
    cbn [app split_ws_from]. rewrite Hc. rewrite (IH _ Hw).
    now rewrite <- app_assoc.
Qed.

Lemma split_ws_two_words (m p : str) (tail : str) :
  truthy m = true -> no_space m = true ->
  truthy p = true -> no_space p = true ->
  split_ws (m ++ 32 :: p ++ 32 :: tail) = m :: p :: split_ws tail.
Proof.
  intros Hm Hnm Hp Hnp. unfold split_ws.
  rewrite (split_ws_from_word m [] _ Hnm). cbn [app split_ws_from].
  change (isspace 32) with true. cbv iota. rewrite Hm.
  rewrite (split_ws_from_word p [] _ Hnp). cbn [app split_ws_from].
  change (isspace 32) with true. cbv iota. rewrite Hp. reflexivity.
Qed.

(** The digits of a number. *)
Lemma digits_from_digits (fuel : nat) (n : N) (acc : str) :
  forallb ascii_isdigit acc = true ->
  forallb ascii_isdigit (digits_from fuel n acc) = true.
Proof.
  revert n acc. induction fuel as [|k IH]; intros n acc Hacc;
    cbn [digits_from]; [exact Hacc|].
  assert (Hd : forallb ascii_isdigit ((48 + n mod 10) :: acc) = true).
  { cbn [forallb]. rewrite Hacc, andb_true_r. unfold ascii_isdigit.
    assert (H : n mod 10 < 10) by (apply N.mod_lt; discriminate).
    set (d := n mod 10) in *. clearbody d.
    apply andb_true_iff. split; apply N.leb_le; lia. }
  destruct (n <? 10); [exact Hd | now apply IH].
Qed.

Lemma str_of_N_digits (n : N) : forallb ascii_isdigit (str_of_N n) = true.
Proof. now apply digits_from_digits. Qed.

Lemma digits_no_lf (s : str) :
  forallb ascii_isdigit s = true -> char_in 10 s = false.
Proof.
  unfold char_in.
  induction s as [|c s IH]; [reflexivity|].
  cbn [forallb existsb]. intros H.
  apply andb_true_iff in H as [Hc Hs]. rewrite (IH Hs), orb_false_r.
  unfold ascii_isdigit in Hc. apply andb_true_iff in Hc as [Hc _].
  apply N.leb_le in Hc. apply N.eqb_neq. lia.
Qed.

Lemma str_of_Z_no_lf (z : Z) : char_in 10 (str_of_Z z) = false.
Proof.
  destruct z as [|p|p]; unfold str_of_Z.
  - apply digits_no_lf, str_of_N_digits.
  - apply digits_no_lf, str_of_N_digits.
  - pose proof (digits_no_lf _ (str_of_N_digits (N.pos p))) as H.
    unfold char_in in *. cbn [existsb]. now rewrite H.
Qed.

Lemma hex_no_space (s : str) : forallb is_hex_digit s = true -> no_space s = true.
Proof.
  unfold no_space.
  induction s as [|c s IH]; [reflexivity|].
  cbn [forallb]. intros H. apply andb_true_iff in H as [Hc Hs].
  rewrite (IH Hs), andb_true_r.
  unfold is_hex_digit in Hc. unfold isspace.
  apply negb_true_iff.
  apply orb_true_iff in Hc as [Hc|Hc]; apply andb_true_iff in Hc as [H1 H2];
    apply N.leb_le in H1; apply N.leb_le in H2;
    repeat (apply orb_false_iff; split);
    try (apply andb_false_iff; (left; apply N.leb_gt; lia) || (right; apply N.leb_gt; lia));
    apply N.eqb_neq; lia.
Qed.

End ClientText.

Section ClientRequest.

Import pystr pyexc config http_utils.
Local Open Scope list_scope.
Local Open Scope N_scope.

Variable U : UnicodeDB.
Variable cfg : Config.

Lemma strip_request_line (m p : str) :
  truthy m = true -> no_space m = true ->
  strip (m ++ py " " ++ p ++ py " HTTP/1.1") = m ++ py " " ++ p ++ py " HTTP/1.1".
Proof.
  intros Hm Hn. destruct m as [|c m']; [discriminate|].
  unfold no_space in Hn. cbn [forallb] in Hn.
  apply andb_true_iff in Hn as [Hc _]. apply negb_true_iff in Hc.
  replace ((c :: m') ++ py " " ++ p ++ py " HTTP/1.1")
    with (c :: (m' ++ py " " ++ p ++ py " HTTP/1.") ++ [49]).
  - now apply strip_ends.
  - cbn [app]. f_equal. rewrite <- !app_assoc. reflexivity.
Qed.

Lemma request_line_tokens (m p : str) :
  truthy m = true -> no_space m = true ->
  truthy p = true -> no_space p = true ->
  split_ws (strip (m ++ py " " ++ p ++ py " HTTP/1.1")) = [m; p; py "HTTP/1.1"].
Proof.
  intros Hm Hnm Hp Hnp. rewrite (strip_request_line m p Hm Hnm).
  exact (split_ws_two_words m p (py "HTTP/1.1") Hm Hnm Hp Hnp).
Qed.

(** A request made of a request line, header lines, an empty line and
    a body: what the parser reads in it. *)
Lemma built_request_parses (m p : str) (hs : list str) (b tok : str) :
  truthy m = true -> no_space m = true ->
  truthy p = true -> no_space p = true ->
  forallb (fun l => negb (char_in 10 l)) hs = true ->
  forallb (fun l => truthy (strip l)) hs = true ->
  pydict.get (py "x-custom-id") (fold_left (add_header U) hs []) = Some tok ->
  crypto_utils.gerar_custom_id U cfg = Ok tok ->
  exists r,
    HTTPRequest_init U cfg
      (join crlf (((m ++ py " " ++ p ++ py " HTTP/1.1") :: hs ++ [[]]) ++ [b]))
    = Ok r
    /\ method r = Some (upper U m)
    /\ path r = Some p
    /\ version r = Some (py "HTTP/1.1")
    /\ body r = Some b
    /\ custom_id_valid r = true
    /\ valid r = str_in (upper U m) [py "GET"; py "POST"; py "HEAD"].
Proof.
  intros Hm Hnm Hp Hnp Hlf Hnb Hget Hg.
  set (l0 := m ++ py " " ++ p ++ py " HTTP/1.1").
  set (raw := join crlf ((l0 :: hs ++ [[]]) ++ [b])).
  assert (Hsplit : split_crlf raw = l0 :: hs ++ [] :: split_crlf b).
  { unfold raw. rewrite split_crlf_lines.
    - cbn [app]. now rewrite <- app_assoc.
    - cbn [forallb]. rewrite forallb_app, Hlf. cbn [forallb char_in existsb negb andb].
      rewrite andb_true_r. apply negb_true_iff. unfold l0.
      rewrite !char_in_app. rewrite (no_space_no_lf m Hnm), (no_space_no_lf p Hnp).
      reflexivity. }
  assert (Htok : request_tokens raw = [m; p; py "HTTP/1.1"]).
  { unfold request_tokens. rewrite Hsplit. cbn [hd].
    now apply request_line_tokens. }
  assert (Hscan : header_scan raw = (hs, S (1 + List.length hs))).
  { unfold header_scan. rewrite Hsplit. cbn [tl].
    apply (scan_headers_blank hs [] (split_crlf b) [] 1 Hnb). reflexivity. }
  destruct (HTTPRequest_init_total U cfg raw) as (r & Hr).
  exists r. split; [exact Hr|].
  pose proof (parsed_valid U cfg raw r Hr) as Hv.
  pose proof (parsed_custom_id_valid_value U cfg raw r tok Hr Hg) as Hc.
  destruct (parsed_request_line U cfg raw r Hr) as (_ & Hme & Hpa & Hve & Hh & Hb).
  assert (Hhead : pydict.get (py "x-custom-id") (headers r) = Some tok).
  { rewrite Hh. unfold parsed_headers. now rewrite Hscan. }
  rewrite Hme, Hpa, Hve, Hb, Hc, Hhead, Hv.
  unfold line_method, line_path, line_version, line_ok, parsed_body.
  rewrite Htok, Hscan, Hsplit. cbn [snd].
  repeat split.
  - match goal with
    | |- context [Nat.ltb ?a ?c] => destruct (Nat.ltb a c) eqn:E
    end.
    { f_equal. etransitivity; [|apply (join_split_crlf b)]. f_equal.
      apply (skipn_past_blank hs [] (split_crlf b) l0). }
    apply Nat.ltb_ge in E. cbn [List.length] in E.
    rewrite length_app in E. cbn [List.length] in E.
    pose proof (split_crlf_nonempty b) as Hne.
    destruct (split_crlf b); [congruence|]. cbn [List.length] in E. lia.
  - apply str_eqb_refl.
  - rewrite Hg. cbn [is_ok]. now rewrite orb_true_r, andb_true_r.
Qed.

End ClientRequest.

Section ClientFacts.

Import pystr pyexc config http_utils test_client.
Local Open Scope list_scope.
Local Open Scope N_scope.

Variable U : UnicodeDB.
Variable cfg : Config.

Lemma token_no_space (tok : str) :
  crypto_utils.gerar_custom_id U cfg = Ok tok -> no_space tok = true.
Proof.
  intros H. apply hex_no_space.
  exact (proj2 (calcular_hash_aluno_hex U cfg None None None tok H)).
Qed.

(** The header lines of the client, and what the parser keeps of
    them. *)
Lemma client_headers_token (host port tok : str) (more : list str) :
  no_space tok = true ->
  forallb (fun l => negb (str_eqb (lower U (strip (fst (split_colon1 l))))
                                  (py "x-custom-id"))) more = true ->
  pydict.get (py "x-custom-id")
    (fold_left (add_header U)
       ([py "Host: " ++ host ++ py ":" ++ port;
         py "X-Custom-ID: " ++ tok;
         py "User-Agent: SimpleTestClient/1.0";
         py "Connection: close"] ++ more) [])
  = Some tok.
Proof.
  intros Htok Hmore.
  rewrite fold_left_app. cbn [fold_left].
  assert (E1 : forall h, add_header U h (py "Host: " ++ host ++ py ":" ++ port)
                         = pydict.set (py "host")
                             (strip (py " " ++ host ++ py ":" ++ port)) h).
  { intros h. exact (add_header_line U h (py "Host") _ eq_refl). }
  assert (E2 : forall h, add_header U h (py "X-Custom-ID: " ++ tok)
                         = pydict.set (py "x-custom-id") tok h).
  { intros h.
    rewrite <- (strip_no_space tok Htok) at 2.
    exact (add_header_line U h (py "X-Custom-ID") (py " " ++ tok) eq_refl). }
  rewrite E1, E2.
  set (d := add_header U _ (py "Connection: close")).
  assert (Hd : pydict.get (py "x-custom-id") d = Some tok) by reflexivity.
  clearbody d. revert d Hd.
  induction more as [|l more IH]; intros d Hd; [exact Hd|].
  cbn [forallb] in Hmore. apply andb_true_iff in Hmore as [Hl Hmore].
  cbn [fold_left]. apply (IH Hmore).
  unfold add_header. destruct (char_in 58 l); [|exact Hd].
  destruct (split_colon1 l) as [key value]. cbn [fst] in Hl.
  apply negb_true_iff in Hl.
  rewrite dict_get_set_other; [exact Hd|].
  destruct (str_eqb (py "x-custom-id") _) eqn:E; [|reflexivity].
  apply str_eqb_eq in E. rewrite <- E, str_eqb_refl in Hl. discriminate.
Qed.

End ClientFacts.

Lemma client_request_parses
        (U : pystr.UnicodeDB) (cfg : config.Config)
        (client : test_client.SimpleHTTPClient)
        (method path body : pystr.str) :
  crypto_utils.gerar_custom_id U cfg = pyexc.Ok (test_client.custom_id client) ->
  pystr.char_in 10 (test_client.server_host client) = false ->
  pystr.truthy method = true -> pystr.no_space method = true ->
  pystr.truthy path = true -> pystr.no_space path = true ->
  pystr.encodable body = true ->
  exists text r,
    test_client.request_text client method path body = pyexc.Ok text
    /\ http_utils.HTTPRequest_init U cfg text = pyexc.Ok r
    /\ http_utils.method r = Some (pystr.upper U method)
    /\ http_utils.path r = Some path
    /\ http_utils.version r = Some (pystr.py "HTTP/1.1")
    /\ http_utils.body r = Some body
    /\ http_utils.custom_id_valid r = true
    /\ http_utils.valid r
       = pystr.str_in (pystr.upper U method)
           [pystr.py "GET"; pystr.py "POST"; pystr.py "HEAD"].
Proof.
  intros Hg Hhost Hm Hnm Hp Hnp Hbody.
  pose proof (token_no_space U cfg _ Hg) as Htok.
  unfold test_client.request_text.
  set (host := test_client.server_host client) in *.
  set (port := pystr.str_of_Z (test_client.server_port client)).
  set (tok := test_client.custom_id client) in *.
  assert (Hport : pystr.char_in 10 port = false) by apply str_of_Z_no_lf.
  assert (Hlf4 : forall more,
             forallb (fun l => negb (pystr.char_in 10 l)) more = true ->
             forallb (fun l => negb (pystr.char_in 10 l))
               ([pystr.py "Host: " ++ host ++ pystr.py ":" ++ port;
                 pystr.py "X-Custom-ID: " ++ tok;
                 pystr.py "User-Agent: SimpleTestClient/1.0";
                 pystr.py "Connection: close"] ++ more) = true).
  { intros more Hmore. cbn [app forallb]. rewrite Hmore.
    rewrite !char_in_app, Hhost, Hport, (no_space_no_lf tok Htok). reflexivity. }
  assert (Hnb4 : forall more,
             forallb (fun l => pystr.truthy (pystr.strip l)) more = true ->
             forallb (fun l => pystr.truthy (pystr.strip l))
               ([pystr.py "Host: " ++ host ++ pystr.py ":" ++ port;
                 pystr.py "X-Custom-ID: " ++ tok;
                 pystr.py "User-Agent: SimpleTestClient/1.0";
                 pystr.py "Connection: close"] ++ more) = true).
  { intros more Hmore. cbn [app forallb]. rewrite Hmore.
    assert (T1 : pystr.truthy
                   (pystr.strip (pystr.py "Host: " ++ host ++ pystr.py ":" ++ port))
                 = true)
      by exact (strip_truthy 72 (pystr.py "ost: " ++ host ++ pystr.py ":" ++ port)
                  eq_refl).
    assert (T2 : pystr.truthy (pystr.strip (pystr.py "X-Custom-ID: " ++ tok)) = true)
      by exact (strip_truthy 88 (pystr.py "-Custom-ID: " ++ tok) eq_refl).
    rewrite T1, T2. reflexivity. }
  destruct (pystr.truthy body) eqn:Hb.
  - rewrite (encode_utf8_ok body Hbody). cbn [pyexc.rbind].
    set (cl := pystr.py "Content-Length: " ++ _).
    set (more := [cl; pystr.py "Content-Type: text/plain; charset=utf-8"]).
    assert (Hcl : pystr.char_in 10 cl = false).
    { unfold cl. rewrite char_in_app. cbn [orb].
      change (pystr.char_in 10 (pystr.py "Content-Length: ")) with false.
      apply digits_no_lf, str_of_N_digits. }
    destruct (built_request_parses U cfg method path
                ([pystr.py "Host: " ++ host ++ pystr.py ":" ++ port;
                  pystr.py "X-Custom-ID: " ++ tok;
                  pystr.py "User-Agent: SimpleTestClient/1.0";
                  pystr.py "Connection: close"] ++ more) body tok
                Hm Hnm Hp Hnp)
      as (r & Hr & Hrest); try exact Hg.
    + apply Hlf4. unfold more. cbn [forallb]. now rewrite Hcl.
    + apply Hnb4. unfold more. cbn [forallb].
      assert (T3 : pystr.truthy (pystr.strip cl) = true)
        by exact (strip_truthy 67 (pystr.py "ontent-Length: " ++ _) eq_refl).
      rewrite T3. reflexivity.
    + apply client_headers_token; [exact Htok|].
      unfold more. cbn [forallb]. rewrite andb_true_r.
      assert (T4 : pystr.split_colon1 cl
                   = (pystr.py "Content-Length",
                      pystr.py " "
                        ++ pystr.str_of_N
                             (N.of_nat (List.length (flat_map pystr.utf8_char body)))))
        by exact (split_colon1_app (pystr.py "Content-Length") _ eq_refl).
      rewrite T4. reflexivity.
    + eexists. exists r. split; [reflexivity|]. split; [exact Hr | exact Hrest].
  - cbn [pyexc.rbind]. apply truthy_false in Hb. subst body.
    destruct (built_request_parses U cfg method path
                ([pystr.py "Host: " ++ host ++ pystr.py ":" ++ port;
                  pystr.py "X-Custom-ID: " ++ tok;
                  pystr.py "User-Agent: SimpleTestClient/1.0";
                  pystr.py "Connection: close"] ++ []) [] tok
                Hm Hnm Hp Hnp)
      as (r & Hr & Hrest); try exact Hg.
    + now apply Hlf4.
    + now apply Hnb4.
    + now apply client_headers_token.
    + eexists. exists r. split; [reflexivity|]. split; [exact Hr | exact Hrest].
Qed.

(** X11: a request that the test client builds ([send_request], with
    the identity token it computed, a method and a path without white
    space, a host without line feed, any body) is read back by the
    parser of the server: method (in upper case), path, version and
    body are the ones of the client, the body verbatim whatever it
    holds, and the request is authenticated. *)
Theorem client_request_is_accepted
        (U : pystr.UnicodeDB) (cfg : config.Config)
        (client : test_client.SimpleHTTPClient)
        (method path body : pystr.str) :
  crypto_utils.gerar_custom_id U cfg = pyexc.Ok (test_client.custom_id client) ->
  pystr.char_in 10 (test_client.server_host client) = false ->
  pystr.truthy method = true -> pystr.no_space method = true ->
  pystr.truthy path = true -> pystr.no_space path = true ->
  pystr.encodable body = true ->
  exists text r,
    test_client.request_text client method path body = pyexc.Ok text
    /\ http_utils.HTTPRequest_init U cfg text = pyexc.Ok r
    /\ http_utils.method r = Some (pystr.upper U method)
    /\ http_utils.path r = Some path
    /\ http_utils.version r = Some (pystr.py "HTTP/1.1")
    /\ http_utils.body r = Some body
    /\ http_utils.custom_id_valid r = true
    /\ http_utils.valid r
       = pystr.str_in (pystr.upper U method)
           [pystr.py "GET"; pystr.py "POST"; pystr.py "HEAD"].
Proof. exact (client_request_parses U cfg client method path body). Qed.


Lemma client_request_is_accepted_witness :
  exists text r,
    test_client.request_text examples.client (pystr.py "POST") (pystr.py "/echo")
      (pystr.py "Data 0") = pyexc.Ok text
    /\ http_utils.HTTPRequest_init pystr.plain_db config.shipped text = pyexc.Ok r
    /\ http_utils.method r = Some (pystr.py "POST")
    /\ http_utils.path r = Some (pystr.py "/echo")
    /\ http_utils.version r = Some (pystr.py "HTTP/1.1")
    /\ http_utils.body r = Some (pystr.py "Data 0")
    /\ http_utils.custom_id_valid r = true
    /\ http_utils.valid r = true.
Proof.
  apply (client_request_is_accepted pystr.plain_db config.shipped examples.client
           (pystr.py "POST") (pystr.py "/echo") (pystr.py "Data 0"));
    vm_compute; reflexivity.
Defined.

(** ** The load test *)

Section LoadFacts.

Import pystr pyexc config pytime http_utils server_handlers test_client.
Local Open Scope list_scope.

Variable U : UnicodeDB.
Variable cfg : Config.
Variable env : Env.

(** A member of [RequestType] is equal to none of the strings it is
    compared with: the rotation of the last branch is generated. *)
Lemma member_gets_rotation (m : test_scenarios.RequestType) (req_idx : Z) :
  _generate_request (AsMember m) req_idx
  = _generate_request (AsText (py "mixed")) req_idx.
Proof. reflexivity. Qed.

(** A request of the rotation, sent by a client that holds the
    identity token, is parsed as a valid, authenticated request that
    [process_request] answers with 200. *)
Lemma rotation_request_served (client : SimpleHTTPClient) (req_idx : Z)
      (h : HTTPHandlers) :
  env_encodable env = true ->
  crypto_utils.gerar_custom_id U cfg = Ok (custom_id client) ->
  char_in 10 (server_host client) = false ->
  exists text r resp,
    (let '(method, path, body) := _generate_request (AsText (py "mixed")) req_idx in
     request_text client method path body) = Ok text
    /\ HTTPRequest_init U cfg text = Ok r
    /\ is_valid r = true
    /\ fst (process_request U cfg env r h) = Ok resp
    /\ status_code resp = 200%Z.
Proof.
  intros Henv Hg Hhost.
  assert (Hok : is_ok (crypto_utils.gerar_custom_id U cfg) = true)
    by now rewrite Hg.
  assert (Hserve : forall method path body,
             truthy method = true -> no_space method = true ->
             truthy path = true -> no_space path = true ->
             encodable method = true -> encodable path = true ->
             encodable body = true ->
             upper U method = method ->
             (if opt_eqb (Some method) (py "GET")
                 || opt_eqb (Some method) (py "HEAD")
              then if opt_in (Some path) [py "/"; py "/status"; py "/info"; py "/time"]
                   then 200 else 404
              else if opt_eqb (Some method) (py "POST")
              then if opt_in (Some path) [py "/echo"; py "/hash"]
                   then if truthy_opt (Some body) then 200 else 400
                   else 405
              else 405)%Z = 200%Z ->
             str_in method [py "GET"; py "POST"; py "HEAD"] = true ->
             exists text r resp,
               request_text client method path body = Ok text
               /\ HTTPRequest_init U cfg text = Ok r
               /\ is_valid r = true
               /\ fst (process_request U cfg env r h) = Ok resp
               /\ status_code resp = 200%Z).
  { intros method path body Hm Hnm Hp Hnp Hem Hep Heb Hup Hroute Hin.
    destruct (client_request_parses U cfg client method path body
                Hg Hhost Hm Hnm Hp Hnp Heb)
      as (text & r & Ht & Hr & Hme & Hpa & _ & Hbo & Hc & Hv).
    rewrite Hup in Hme, Hv.
    destruct (process_request_route U cfg env r h Henv) as (resp & Hresp & Hs);
      try (rewrite ?Hme, ?Hpa, ?Hbo; cbn [fmt_opt or_empty]; assumption).
    exists text, r, resp. split; [exact Ht|]. split; [exact Hr|].
    split; [unfold is_valid; now rewrite Hv, Hc, Hin|].
    split; [exact Hresp|].
    rewrite Hs, Hme, Hpa, Hbo. exact Hroute. }
  unfold _generate_request. cbn [eq_text].
  change (str_eqb (py "mixed") (py "fast")) with false.
  change (str_eqb (py "mixed") (py "slow")) with false.
  change (str_eqb (py "mixed") (py "post")) with false.
  cbv iota.
  destruct (Z.eqb (req_idx mod 3) 0).
  - apply Hserve; try reflexivity.
    rewrite encodable_app, encodable_str_of_Z. reflexivity.
  - destruct (Z.eqb (req_idx mod 3) 1); apply Hserve; reflexivity.
Qed.

End LoadFacts.

(** X12: [run_scenario] passes [scenario.request_type], a member of
    the enumeration [RequestType], to [_generate_request], which
    compares it with strings: whatever the member, the requests are
    those of the mixed rotation ([POST /echo], [GET /info], [GET /]).
    Each of them, sent by a client that holds the identity token, is
    answered with 200 by both servers. *)
Theorem load_test_requests_are_mixed_and_served
        (U : pystr.UnicodeDB) (cfg : config.Config) (env : pytime.Env)
        (client : test_client.SimpleHTTPClient)
        (scenario : test_scenarios.TestScenario) (req_idx : nat)
        (seq_server : sequential_server.SequentialWebServer)
        (conc_server : concurrent_server.ConcurrentWebServer) :
  pytime.env_encodable env = true ->
  crypto_utils.gerar_custom_id U cfg = pyexc.Ok (test_client.custom_id client) ->
  pystr.char_in 10 (test_client.server_host client) = false ->
  (req_idx < test_scenarios.requests_per_client scenario)%nat ->
  exists method path body text,
    nth_error (test_client.generated_requests scenario) req_idx
    = Some (method, path, body)
    /\ (method, path, body)
       = (if Z.eqb (Z.of_nat req_idx mod 3) 0 then
            (pystr.py "POST", pystr.py "/echo",
             pystr.py "Data " ++ pystr.str_of_Z (Z.of_nat req_idx))
          else if Z.eqb (Z.of_nat req_idx mod 3) 1 then
            (pystr.py "GET", pystr.py "/info", [])
          else (pystr.py "GET", pystr.py "/", []))
    /\ test_client.request_text client method path body = pyexc.Ok text
    /\ (exists resp self',
           sequential_server._handle_client U cfg env text seq_server
           = (Some resp, self')
           /\ http_utils.status_code resp = 200%Z)
    /\ (exists resp self',
           concurrent_server._handle_client U cfg env text conc_server
           = (Some resp, self')
           /\ http_utils.status_code resp = 200%Z).
Proof.
  intros Henv Hg Hhost Hidx.
  set (req := test_client._generate_request
                (test_client.AsMember (test_scenarios.request_type scenario))
                (Z.of_nat req_idx)).
  assert (Hnth : nth_error (test_client.generated_requests scenario) req_idx
                 = Some req).
  { unfold test_client.generated_requests.
    rewrite nth_error_map, nth_error_seq.
    apply Nat.ltb_lt in Hidx. rewrite Hidx. reflexivity. }
  destruct (rotation_request_served U cfg env client (Z.of_nat req_idx)
              (sequential_server.handlers seq_server) Henv Hg Hhost)
    as (text & r & resp & Ht & Hr & Hv & Hp & Hs).
  destruct (rotation_request_served U cfg env client (Z.of_nat req_idx)
              (concurrent_server.handlers conc_server) Henv Hg Hhost)
    as (text' & r' & resp' & Ht' & Hr' & Hv' & Hp' & Hs').
  rewrite <- (member_gets_rotation (test_scenarios.request_type scenario)) in Ht, Ht'.
  fold req in Ht, Ht'.
  assert (Hreq : req
                 = (if Z.eqb (Z.of_nat req_idx mod 3) 0 then
                      (pystr.py "POST", pystr.py "/echo",
                       pystr.py "Data " ++ pystr.str_of_Z (Z.of_nat req_idx))
                    else if Z.eqb (Z.of_nat req_idx mod 3) 1 then
                      (pystr.py "GET", pystr.py "/info", [])
                    else (pystr.py "GET", pystr.py "/", []))) by reflexivity.
  destruct req as [[method path] body].
  rewrite Ht in Ht'. injection Ht' as <-.
  rewrite Hr in Hr'. injection Hr' as <-.
  exists method, path, body, text.
  split; [exact Hnth|]. split; [exact Hreq|]. split; [exact Ht|].
  split.
  - destruct (sequential_dispatch U cfg env text r seq_server Hr Hv)
      as (x & Hx & Hc).
    rewrite Hp in Hx. injection Hx as <-. eauto.
  - destruct (concurrent_dispatch U cfg env text r conc_server Hr Hv)
      as (x & Hx & Hc).
    rewrite Hp' in Hx. injection Hx as <-. eauto.
Qed.

Lemma load_test_requests_are_mixed_and_served_witness :
  exists method path body text,
    nth_error (test_client.generated_requests examples.light_fast) 0
    = Some (method, path, body)
    /\ (method, path, body)
       = (pystr.py "POST", pystr.py "/echo", pystr.py "Data 0")
    /\ test_client.request_text examples.client method path body = pyexc.Ok text
    /\ (exists resp self',
           sequential_server._handle_client pystr.plain_db config.shipped
             examples.env text examples.sequential = (Some resp, self')
           /\ http_utils.status_code resp = 200%Z)
    /\ (exists resp self',
           concurrent_server._handle_client pystr.plain_db config.shipped
             examples.env text examples.concurrent = (Some resp, self')
           /\ http_utils.status_code resp = 200%Z).
Proof.
  apply (load_test_requests_are_mixed_and_served pystr.plain_db config.shipped
           examples.env examples.client examples.light_fast 0
           examples.sequential examples.concurrent);
    try (vm_compute; reflexivity).
  vm_compute. lia.
Defined.
